(** * igem-wikisync: the incremental synchronisation core

    A shallow embedding of [src/src/igem_wikisync/files.py] (the file
    descriptors and their remote identities) and of [src/main.py] (loading
    of the upload map, classification, the asset phase, the document phase
    and the two checkpoints), followed by the properties of the
    specification that were checked against it.

    Conventions.
    - A Python [str] is a Rocq [string]; the string holds the UTF-8 bytes of
      the text, so [s.encode('utf-8')] is the list of its bytes.
    - [s.lower()] is modelled on ASCII text, where it changes the capitals
      only; what is proved of a lowered string either compares it with one
      of the ASCII extensions of [main], which no text outside ASCII lowers
      to, or assumes [s.isascii()].
    - A [pathlib] path is the list of its components ([parts]).
    - A Python [dict] with [str] keys is a [gmap string _].
    - Everything [main] does to the outside world (remote uploads, files
      written, log records) is recorded in a trace of events; what the
      outside world answers is read from an environment record.
    - The records of a stored upload map are taken to be well formed.
      Clearing the build directory and keeping the session cookies, which
      touch neither the upload map nor the uploads, are left out. *)

From Stdlib Require Import ZArith Ascii String List Bool Lia.
From Stdlib Require Strings.Byte.
From stdpp Require Import base option list gmap strings.

Set Default Proof Using "Type".
Local Open Scope Z_scope.

(* ===================================================================== *)
(** * Python strings                                                      *)
(* ===================================================================== *)

Module Str.

(** [sep.join(parts)] *)
Definition join (sep : string) (parts : list string) : string :=
  String.concat sep parts.

(** [s.rfind(c)] for a one-character needle; [None] stands for [-1]. *)
Fixpoint rfind (c : ascii) (s : string) : option nat :=
  match s with
  | EmptyString => None
  | String a s' =>
      match rfind c s' with
      | Some i => Some (S i)
      | None => if Ascii.eqb a c then Some 0%nat else None
      end
  end.

(** [s[:i]] and [s[i:]] for [0 <= i]. *)
Fixpoint take (i : nat) (s : string) : string :=
  match i, s with
  | S i', String a s' => String a (take i' s')
  | _, _ => EmptyString
  end.

Fixpoint drop (i : nat) (s : string) : string :=
  match i, s with
  | S i', String _ s' => drop i' s'
  | _, _ => s
  end.

(** [c.lower()] on one byte: only the ASCII capitals change. *)
Definition lower_ascii (c : ascii) : ascii :=
  let n := nat_of_ascii c in
  if (65 <=? n)%nat && (n <=? 90)%nat then ascii_of_nat (n + 32) else c.

Fixpoint map (f : ascii -> ascii) (s : string) : string :=
  match s with
  | EmptyString => EmptyString
  | String a s' => String (f a) (map f s')
  end.


(** [s.lower()] for [s] of ASCII characters ([s.isascii()]): the capitals
    [A] to [Z] become small letters and nothing else changes. On other text
    Python lowers the cased characters outside ASCII too; the lowered text
    still holds a character outside ASCII, unless the only ones it held
    were Kelvin signs, which are lowered to [k]. Since none of the
    extensions [main] compares a lowered string with holds a [k], the
    comparison with one of them gives the same answer here and there. *)
Definition lower (s : string) : string := map lower_ascii s.

(** [s.replace(a, b)] where [a] and [b] are single characters. *)
Definition replace (a b : ascii) (s : string) : string :=
  map (fun c => if Ascii.eqb c a then b else c) s.

End Str.

(* ===================================================================== *)
(** * pathlib.PurePosixPath                                               *)
(* ===================================================================== *)

Module Pathlib.

(** A relative path is the list of its components; [Path('.')] is [[]]. *)
Definition Path : Type := list string.

(** [str(p)] *)
Definition str (p : Path) : string :=
  match p with
  | [] => "."
  | _ => Str.join "/" p
  end.

(** [p.parts] *)
Definition parts (p : Path) : list string := p.

(** [p.parent] *)
Definition parent (p : Path) : Path := removelast p.

(** [p.name] *)
Definition name (p : Path) : string := List.last p "".

(** [p.suffix]:
    [i = name.rfind('.')]; [name[i:]] if [0 < i < len(name) - 1] else ['']. *)
Definition suffix (p : Path) : string :=
  let n := name p in
  match Str.rfind "." n with
  | Some i =>
      if (0 <? i)%nat && (i <? String.length n - 1)%nat
      then Str.drop i n else ""
  | None => ""
  end.

(** [p.stem]:
    [i = name.rfind('.')]; [name[:i]] if [0 < i < len(name) - 1] else [name]. *)
Definition stem (p : Path) : string :=
  let n := name p in
  match Str.rfind "." n with
  | Some i =>
      if (0 <? i)%nat && (i <? String.length n - 1)%nat
      then Str.take i n else n
  | None => n
  end.

(** [p / s] for a string [s] without separator: an empty or ["."]
    component is dropped when the path is parsed. *)
Definition truediv (p : Path) (s : string) : Path :=
  if String.eqb s "" || String.eqb s "." then p else p ++ [s].

(** [p / q] for two relative paths. *)
Definition joinpath (p q : Path) : Path := p ++ q.

End Pathlib.

Abbreviation Path := Pathlib.Path.

(* ===================================================================== *)
(** * hashlib: MD5 (RFC 1321) and SHA-1 (RFC 3174)                        *)
(* ===================================================================== *)

Module Hashlib.

Definition bytes : Type := list Byte.byte.

Definition Z_of_byte (b : Byte.byte) : Z := Z.of_N (Byte.to_N b).

(** [s.encode('utf-8')] *)
Definition encode (s : string) : bytes := String.list_byte_of_string s.

Definition mask32 : Z := 0xffffffff.
Definition wrap32 (x : Z) : Z := Z.land x mask32.
Definition add32 (x y : Z) : Z := wrap32 (x + y).
Definition not32 (x : Z) : Z := Z.lxor x mask32.
Definition rotl32 (x : Z) (n : Z) : Z :=
  wrap32 (Z.lor (Z.shiftl x n) (Z.shiftr x (32 - n))).

(** Cut a list into blocks of [n] elements (the last one may be shorter);
    [fuel] bounds the number of blocks. *)
Fixpoint blocks {A} (fuel n : nat) (l : list A) : list (list A) :=
  match fuel, l with
  | O, _ | _, [] => []
  | S fuel', _ => firstn n l :: blocks fuel' n (skipn n l)
  end.

(** Both digests pad with [0x80], then zeros up to 56 modulo 64, then the
    bit length on eight bytes. *)
Definition pad_zeros (len : nat) : list Z :=
  repeat 0 (Z.to_nat ((55 - Z.of_nat len) mod 64)).

Definition be_bytes (n : nat) (x : Z) : list Z :=
  List.map (fun i => Z.land (Z.shiftr x (8 * Z.of_nat i)) 255) (rev (seq 0 n)).

Definition le_bytes (n : nat) (x : Z) : list Z :=
  List.map (fun i => Z.land (Z.shiftr x (8 * Z.of_nat i)) 255) (seq 0 n).

Definition be_word (bs : list Z) : Z :=
  fold_left (fun acc b => Z.lor (Z.shiftl acc 8) b) bs 0.

Definition le_word (bs : list Z) : Z := be_word (rev bs).

Definition hex_digit (n : Z) : ascii :=
  if n <? 10 then ascii_of_nat (48 + Z.to_nat n)
  else ascii_of_nat (87 + Z.to_nat n).

Fixpoint hex (bs : list Z) : string :=
  match bs with
  | [] => EmptyString
  | b :: bs' =>
      String (hex_digit (Z.shiftr b 4)) (String (hex_digit (Z.land b 15)) (hex bs'))
  end.

(** ** MD5 *)

Definition md5_K : list Z :=
  [ 0xd76aa478; 0xe8c7b756; 0x242070db; 0xc1bdceee;
    0xf57c0faf; 0x4787c62a; 0xa8304613; 0xfd469501;
    0x698098d8; 0x8b44f7af; 0xffff5bb1; 0x895cd7be;
    0x6b901122; 0xfd987193; 0xa679438e; 0x49b40821;
    0xf61e2562; 0xc040b340; 0x265e5a51; 0xe9b6c7aa;
    0xd62f105d; 0x02441453; 0xd8a1e681; 0xe7d3fbc8;
    0x21e1cde6; 0xc33707d6; 0xf4d50d87; 0x455a14ed;
    0xa9e3e905; 0xfcefa3f8; 0x676f02d9; 0x8d2a4c8a;
    0xfffa3942; 0x8771f681; 0x6d9d6122; 0xfde5380c;
    0xa4beea44; 0x4bdecfa9; 0xf6bb4b60; 0xbebfbc70;
    0x289b7ec6; 0xeaa127fa; 0xd4ef3085; 0x04881d05;
    0xd9d4d039; 0xe6db99e5; 0x1fa27cf8; 0xc4ac5665;
    0xf4292244; 0x432aff97; 0xab9423a7; 0xfc93a039;
    0x655b59c3; 0x8f0ccc92; 0xffeff47d; 0x85845dd1;
    0x6fa87e4f; 0xfe2ce6e0; 0xa3014314; 0x4e0811a1;
    0xf7537e82; 0xbd3af235; 0x2ad7d2bb; 0xeb86d391 ].

Definition md5_S : list Z :=
  [ 7; 12; 17; 22; 7; 12; 17; 22; 7; 12; 17; 22; 7; 12; 17; 22;
    5; 9; 14; 20; 5; 9; 14; 20; 5; 9; 14; 20; 5; 9; 14; 20;
    4; 11; 16; 23; 4; 11; 16; 23; 4; 11; 16; 23; 4; 11; 16; 23;
    6; 10; 15; 21; 6; 10; 15; 21; 6; 10; 15; 21; 6; 10; 15; 21 ].

Definition md5_state : Type := (Z * Z * Z * Z)%type.

Definition md5_init : md5_state :=
  (0x67452301, 0xefcdab89, 0x98badcfe, 0x10325476).

Definition md5_round (M : list Z) (st : md5_state) (i : nat) : md5_state :=
  let '(A, B, C, D) := st in
  let '(F, g) :=
    if (i <? 16)%nat then (Z.lor (Z.land B C) (Z.land (not32 B) D), i)
    else if (i <? 32)%nat then
      (Z.lor (Z.land D B) (Z.land (not32 D) C), ((5 * i + 1) mod 16)%nat)
    else if (i <? 48)%nat then
      (Z.lxor (Z.lxor B C) D, ((3 * i + 5) mod 16)%nat)
    else (Z.lxor C (Z.lor B (not32 D)), ((7 * i) mod 16)%nat) in
  let F' := add32 (add32 (add32 F A) (nth i md5_K 0)) (nth g M 0) in
  (D, add32 B (rotl32 F' (nth i md5_S 0)), B, C).

Definition md5_block (st : md5_state) (block : list Z) : md5_state :=
  let M := List.map le_word (blocks 16 4 block) in
  let '(a0, b0, c0, d0) := st in
  let '(A, B, C, D) := fold_left (md5_round M) (seq 0 64) st in
  (add32 a0 A, add32 b0 B, add32 c0 C, add32 d0 D).

Definition md5_pad (msg : list Z) : list Z :=
  msg ++ [128] ++ pad_zeros (length msg)
      ++ le_bytes 8 (8 * Z.of_nat (length msg)).

Definition md5_digest (data : bytes) : list Z :=
  let msg := md5_pad (List.map Z_of_byte data) in
  let '(a, b, c, d) :=
    fold_left md5_block (blocks (length msg) 64 msg) md5_init in
  le_bytes 4 a ++ le_bytes 4 b ++ le_bytes 4 c ++ le_bytes 4 d.

(** [hashlib.md5(data).hexdigest()] *)
Definition md5_hexdigest (data : bytes) : string := hex (md5_digest data).

(** ** SHA-1 *)

Definition sha1_state : Type := (Z * Z * Z * Z * Z)%type.

Definition sha1_init : sha1_state :=
  (0x67452301, 0xefcdab89, 0x98badcfe, 0x10325476, 0xc3d2e1f0).

(** The message schedule, most recent word first. *)
Definition sha1_extend (w : list Z) (_ : nat) : list Z :=
  rotl32 (Z.lxor (Z.lxor (Z.lxor (nth 2 w 0) (nth 7 w 0)) (nth 13 w 0))
                 (nth 15 w 0)) 1 :: w.

Definition sha1_schedule (block : list Z) : list Z :=
  rev (fold_left sha1_extend (seq 16 64)
                 (rev (List.map be_word (blocks 16 4 block)))).

Definition sha1_round (W : list Z) (st : sha1_state) (i : nat) : sha1_state :=
  let '(a, b, c, d, e) := st in
  let '(f, k) :=
    if (i <? 20)%nat then
      (Z.lor (Z.land b c) (Z.land (not32 b) d), 0x5a827999)
    else if (i <? 40)%nat then (Z.lxor (Z.lxor b c) d, 0x6ed9eba1)
    else if (i <? 60)%nat then
      (Z.lor (Z.lor (Z.land b c) (Z.land b d)) (Z.land c d), 0x8f1bbcdc)
    else (Z.lxor (Z.lxor b c) d, 0xca62c1d6) in
  let temp := add32 (add32 (add32 (add32 (rotl32 a 5) f) e) k) (nth i W 0) in
  (temp, a, rotl32 b 30, c, d).

Definition sha1_block (st : sha1_state) (block : list Z) : sha1_state :=
  let W := sha1_schedule block in
  let '(h0, h1, h2, h3, h4) := st in
  let '(a, b, c, d, e) := fold_left (sha1_round W) (seq 0 80) st in
  (add32 h0 a, add32 h1 b, add32 h2 c, add32 h3 d, add32 h4 e).

Definition sha1_pad (msg : list Z) : list Z :=
  msg ++ [128] ++ pad_zeros (length msg)
      ++ be_bytes 8 (8 * Z.of_nat (length msg)).

Definition sha1_digest (data : bytes) : list Z :=
  let msg := sha1_pad (List.map Z_of_byte data) in
  let '(h0, h1, h2, h3, h4) :=
    fold_left sha1_block (blocks (length msg) 64 msg) sha1_init in
  be_bytes 4 h0 ++ be_bytes 4 h1 ++ be_bytes 4 h2 ++ be_bytes 4 h3
    ++ be_bytes 4 h4.

(** [h = hashlib.sha1(); h.update(c1); ...; h.update(cn); h.hexdigest()]:
    feeding the chunks one after the other digests their concatenation. *)
Definition sha1_hexdigest (chunks : list bytes) : string :=
  hex (sha1_digest (List.concat chunks)).

End Hashlib.

(* ===================================================================== *)
(** * files.py: file descriptors and their remote identities             *)
(* ===================================================================== *)

(** The run configuration read from [config.yml]. *)
Record config := {
  src_dir : Path;
  build_dir : Path;
  team : string;
  assets : list string
}.

(** The fields [BaseFile.__init__] computes from the path of a file found
    under [src_dir]; [_path] is already relative to [src_dir]. *)
Module BaseFile.

Record t := {
  _config : config;
  _path : Path;
  _stem : string;
  _extension : string;
  _filename : string;
  _parent : Path;
  _src_path : Path;
  _build_path : Path
}.

Definition __init__ (path : Path) (cfg : config) : t :=
  let stem := Pathlib.stem path in
  let extension := Str.lower (Str.drop 1 (Pathlib.suffix path)) in
  {| _config := cfg;
     _path := path;
     _stem := stem;
     _extension := extension;
     _filename := stem +:+ "." +:+ extension;
     _parent := Pathlib.parent path;
     _src_path := Pathlib.joinpath (src_dir cfg) path;
     _build_path := Pathlib.joinpath (build_dir cfg) path |}.

Definition path (f : t) : Path := _path f.
Definition extension (f : t) : string := _extension f.
Definition src_path (f : t) : Path := _src_path f.
Definition build_path (f : t) : Path := _build_path f.

End BaseFile.

Module HTMLfile.

Definition _generate_upload_path (base : BaseFile.t) : string :=
  let upload_path := Pathlib.str (Pathlib.parent (BaseFile.path base)) in
  if String.eqb upload_path "." then "" else "/" +:+ upload_path.

Definition _generate_upload_URL (base : BaseFile.t) (upload_path : string)
  : string :=
  "https://2020.igem.org/wiki/index.php?title=Team:" +:+
    team (BaseFile._config base) +:+ upload_path +:+ "&action=edit".

Definition _generate_link_URL (base : BaseFile.t) (upload_path : string)
  : string :=
  "https://2020.igem.org/Team:" +:+ team (BaseFile._config base) +:+
    upload_path.

End HTMLfile.

Module CSSfile.

Definition _generate_upload_path (base : BaseFile.t) : string :=
  let upload_path :=
    Pathlib.truediv (Pathlib.parent (BaseFile.path base))
                    (Pathlib.stem (BaseFile.path base)) in
  let upload_path := Str.replace "." "-" (Pathlib.str upload_path) +:+ "CSS" in
  "/" +:+ upload_path.

Definition _generate_upload_URL (base : BaseFile.t) (upload_path : string)
  : string :=
  "https://2020.igem.org/wiki/index.php?title=Template:" +:+
    team (BaseFile._config base) +:+ upload_path +:+ "&action=edit".

Definition _generate_link_URL (base : BaseFile.t) (upload_path : string)
  : string :=
  "https://2020.igem.org/Template:" +:+ team (BaseFile._config base) +:+
    upload_path +:+ "?action=raw&ctype=text/css".

End CSSfile.

Module JSfile.

Definition _generate_upload_path (base : BaseFile.t) : string :=
  let upload_path :=
    Pathlib.truediv (Pathlib.parent (BaseFile.path base))
                    (Pathlib.stem (BaseFile.path base)) in
  let upload_path := Str.replace "." "-" (Pathlib.str upload_path) +:+ "JS" in
  "/" +:+ upload_path.

Definition _generate_upload_URL (base : BaseFile.t) (upload_path : string)
  : string :=
  "https://2020.igem.org/wiki/index.php?title=Template:" +:+
    team (BaseFile._config base) +:+ upload_path +:+ "&action=edit".

Definition _generate_link_URL (base : BaseFile.t) (upload_path : string)
  : string :=
  "https://2020.igem.org/Template:" +:+ team (BaseFile._config base) +:+
    upload_path +:+ "?action=raw&ctype=text/javascript".

End JSfile.

(** A document descriptor: what the three constructors [HTMLfile(path,
    config)], [CSSfile(path, config)] and [JSfile(path, config)] build. *)
Record CodeFile := {
  base : BaseFile.t;
  _upload_path : string;
  _upload_URL : string;
  _link_URL : string
}.

Definition HTMLfile (path : Path) (cfg : config) : CodeFile :=
  let b := BaseFile.__init__ path cfg in
  let up := HTMLfile._generate_upload_path b in
  {| base := b; _upload_path := up;
     _upload_URL := HTMLfile._generate_upload_URL b up;
     _link_URL := HTMLfile._generate_link_URL b up |}.

Definition CSSfile (path : Path) (cfg : config) : CodeFile :=
  let b := BaseFile.__init__ path cfg in
  let up := CSSfile._generate_upload_path b in
  {| base := b; _upload_path := up;
     _upload_URL := CSSfile._generate_upload_URL b up;
     _link_URL := CSSfile._generate_link_URL b up |}.

Definition JSfile (path : Path) (cfg : config) : CodeFile :=
  let b := BaseFile.__init__ path cfg in
  let up := JSfile._generate_upload_path b in
  {| base := b; _upload_path := up;
     _upload_URL := JSfile._generate_upload_URL b up;
     _link_URL := JSfile._generate_link_URL b up |}.

Definition upload_URL (f : CodeFile) : string := _upload_URL f.
Definition link_URL (f : CodeFile) : string := _link_URL f.

Module OtherFile.

Record t := {
  base : BaseFile.t;
  _upload_URL : string;
  _upload_filename : string;
  _md5_hash : string
}.

Definition _generate_upload_filename (b : BaseFile.t) : string :=
  if (length (assets (BaseFile._config b)) =? 1)%nat then
    "T--" +:+ team (BaseFile._config b) +:+ "--" +:+
      Str.join "--" (tail (Pathlib.parts (BaseFile.path b)))
  else
    "T--" +:+ team (BaseFile._config b) +:+ "--" +:+
      Str.join "--" (Pathlib.parts (BaseFile.path b)).

(** [file.read(1024)] until it returns [b'']: the chunks read, the empty
    one that ends the loop included. *)
Definition read_chunks (content : Hashlib.bytes) : list Hashlib.bytes :=
  Hashlib.blocks (length content) 1024 content ++ [[]].

(** [_generate_md5_hash]; [content] is what [open(self.src_path, 'rb')]
    gives back. *)
Definition _generate_md5_hash (content : Hashlib.bytes) : string :=
  Hashlib.sha1_hexdigest (read_chunks content).

(** [OtherFile(path, config)]; opening the file can fail, and the
    constructor then raises. *)
Definition __init__ (path : Path) (cfg : config)
    (open_rb : Path -> option Hashlib.bytes) : option t :=
  let b := BaseFile.__init__ path cfg in
  content ← open_rb (BaseFile.src_path b);
  Some {| base := b;
          _upload_URL := "https://2020.igem.org/Special:Upload";
          _upload_filename := _generate_upload_filename b;
          _md5_hash := _generate_md5_hash content |}.

Definition upload_filename (f : t) : string := _upload_filename f.
Definition md5_hash (f : t) : string := _md5_hash f.
Definition upload_URL (f : t) : string := _upload_URL f.

Definition set_upload_URL (f : t) (url : string) : t :=
  {| base := base f; _upload_URL := url;
     _upload_filename := _upload_filename f; _md5_hash := _md5_hash f |}.

End OtherFile.

(* ===================================================================== *)
(** * main.py: the upload map                                             *)
(* ===================================================================== *)

(** One record of the upload map: [{'md5': ..., 'link_URL': ...}] for a
    document, with ['upload_filename'] in addition for an asset. *)
Module Entry.
Record t := {
  md5 : string;
  link_URL : string;
  upload_filename : option string
}.
End Entry.

(** A value bound to a top-level key of [upload_map.yml]: a mapping from
    path strings to records, or anything else (a scalar, a sequence, null),
    of which only the text is kept. *)
Inductive yaml_value :=
| YMapping (d : gmap string Entry.t)
| YOther (repr : string).

(** The upload map: a [dict] from [str] keys to such values. *)
Abbreviation upload_map := (gmap string yaml_value).

(** What [open('upload_map.yml', 'r')] followed by [yaml.safe_load] meets. *)
Inductive map_file :=
| Missing                        (* [open] raises *)
| Unparsable                     (* [yaml.safe_load] raises *)
| NotADict (repr : string)       (* a scalar, a sequence or null is loaded *)
| Document (top : upload_map).   (* a mapping is loaded *)

Inductive level := DEBUG | INFO | ERROR | CRITICAL.

(** What a run does to the outside world, in the order it does it. *)
Inductive event :=
| Log (lvl : level) (message : string)
| UploadFile (file_object : OtherFile.t)
    (* [iGEM_upload_file(browser, file_object)] is called *)
| WriteUploadMap (um : upload_map)
    (* [write_upload_map(upload_map)] is called *)
| ReadSource (src_path : Path)
    (* [open(file_object.src_path, 'r')] *)
| CallParser (ext : string) (path : Path)
    (* [HTMLparser], [CSSparser] or [JSparser] is called *)
| WriteBuild (build_path : Path) (processed : string)
    (* the build directory is made and [open(build_path, 'w')] written *)
| UploadPage (processed : string) (upload_URL : string).
    (* [iGEM_upload_page(browser, processed, file_object.upload_URL)] *)

(** What is raised out of a block: [SystemExit], or any other exception. *)
Inductive exc := SystemExit | Exception (what : string).

(** Code that logs and calls the outside world, and that may raise: the
    events so far, and an exception or a value. *)
Definition M (A : Type) : Type := (list event * (exc + A))%type.

Definition ret {A} (a : A) : M A := ([], inr a).

Definition bind {A B} (m : M A) (k : A -> M B) : M B :=
  match m with
  | (tr, inl x) => (tr, inl x)
  | (tr, inr a) => let '(tr', r) := k a in (tr ++ tr', r)
  end.

Definition emit (ev : event) : M unit := ([ev], inr tt).

Definition raise {A} (x : exc) : M A := ([], inl x).

(** [try: body except: handler] with a bare [except], which catches
    [SystemExit] like every other exception. *)
Definition try_except {A} (body : M A) (handler : M A) : M A :=
  match body with
  | (tr, inl _) => let '(tr', r) := handler in (tr ++ tr', r)
  | (tr, inr a) => (tr, inr a)
  end.

Notation "'let*' x ':=' m 'in' k" := (bind m (fun x => k))
  (at level 10, x pattern, m at level 100, k at level 200).

(** [for x in xs: s = body(s, x)] *)
Fixpoint for_each {A S} (body : S -> A -> M S) (xs : list A) (s : S) : M S :=
  match xs with
  | [] => ret s
  | x :: xs' => let* s' := body s x in for_each body xs' s'
  end.

(** [upload_map[key]] where a mapping is expected under [key]. *)
Definition getitem (um : upload_map) (key : string) : M (gmap string Entry.t) :=
  match um !! key with
  | Some (YMapping d) => ret d
  | Some (YOther _) => raise (Exception "TypeError")
  | None => raise (Exception "KeyError")
  end.

(** [upload_map[key][k] = v] (the mapping under [key] is [d]). *)
Definition setitem (um : upload_map) (key : string)
    (d : gmap string Entry.t) (k : string) (v : Entry.t) : upload_map :=
  <[key := YMapping (<[k := v]> d)]> um.

(** A key handed to [in d.keys()]: a [str], or a [pathlib] path. *)
Inductive pykey := KStr (s : string) | KPath (p : Path).

(** [k in d.keys()] on a mapping whose keys are [str] objects. Membership is
    decided by [__hash__] and [__eq__]; [PurePath.__eq__] answers
    [NotImplemented] to an operand that is not a path and [str.__eq__] to one
    that is not a [str], so a path is equal to no [str] key. *)
Definition contains (k : pykey) (d : gmap string Entry.t) : bool :=
  match k with
  | KStr s => bool_decide (is_Some (d !! s))
  | KPath _ => false
  end.

Definition canonical_empty_map : upload_map :=
  <["assets" := YMapping ∅]> (<["html" := YMapping ∅]>
    (<["css" := YMapping ∅]> (<["js" := YMapping ∅]> ∅))).

(** main.py, lines 50-55: the body of [for key in [...]]. *)
Definition check_key (um : upload_map) (key : string) : M upload_map :=
  match um !! key with
  | None => ret (<[key := YMapping ∅]> um)
  | Some (YMapping _) => ret um
  | Some (YOther _) =>
      let* _ := emit (Log CRITICAL "config.yml has an invalid format. Exiting.") in
      raise SystemExit
  end.

(** main.py, lines 46-55: the [try] block. *)
Definition load_try (file : map_file) : M upload_map :=
  match file with
  | Missing => raise (Exception "FileNotFoundError")
  | Unparsable => raise (Exception "YAMLError")
  | NotADict _ => raise (Exception "AttributeError")
  | Document top => for_each check_key ["assets"; "html"; "css"; "js"] top
  end.

(** main.py, lines 44-62: load or create [upload_map]. *)
Definition load_upload_map (file : map_file) : M upload_map :=
  try_except (load_try file) (ret canonical_empty_map).

(* ===================================================================== *)
(** * main.py: the run                                                    *)
(* ===================================================================== *)

(** What the outside world answers during one run. The parsers of
    [code_parsers], the two upload helpers of [browser_helpers] and the file
    system are not part of the synchronisation core; they are taken as they
    come. *)
Record env := {
  (** [yaml.safe_load] of [config.yml]; [None] when reading it raises *)
  config_yml : option config;
  (** [iGEM_login(browser, credentials)] *)
  iGEM_login : bool;
  (** the files [os.walk(src_dir)] yields, relative to [src_dir], in the
      order it yields them *)
  os_walk : list Path;
  (** [open(p, 'rb')] and all its reads; [None] when it raises *)
  open_rb : Path -> option Hashlib.bytes;
  (** [open(p, 'r').read()]; [None] when it raises *)
  open_r : Path -> option string;
  (** [iGEM_upload_file(browser, file_object)]: [None] when it raises,
      otherwise what [file_object.upload_URL] is once it has returned *)
  iGEM_upload_file : OtherFile.t -> option string;
  (** [iGEM_upload_page(browser, contents, url)]: [false] when it raises *)
  iGEM_upload_page : string -> string -> bool;
  (** making the parent directory of a build path and writing the file
      there: [false] when one of the two raises *)
  write_build : Path -> string -> bool;
  (** whether [upload_map.yml] can be opened for writing and dumped to *)
  upload_map_writable : bool;
  HTMLparser : config -> Path -> string -> upload_map -> string;
  CSSparser : config -> Path -> string -> upload_map -> string;
  JSparser : string -> string
}.

(** [write_upload_map(upload_map)] *)
Definition write_upload_map (e : env) (um : upload_map) : M unit :=
  let* _ := emit (WriteUploadMap um) in
  if upload_map_writable e then ret tt
  else emit (Log ERROR "Tried to write upload_map.yml but couldn't.").

(** [upload_map.yml] once the events of a trace have happened. *)
Definition file_after (e : env) (file : map_file) (tr : list event) : map_file :=
  fold_left
    (fun f ev =>
       match ev with
       | WriteUploadMap um => if upload_map_writable e then Document um else f
       | _ => f
       end) tr file.

(** [d[k] = v] on a [dict] with path keys, which keeps the order in which
    the keys were first bound. *)
Fixpoint dict_assign {V} (k : Path) (v : V) (d : list (Path * V))
  : list (Path * V) :=
  match d with
  | [] => [(k, v)]
  | (k', v') :: d' =>
      if decide (k' = k) then (k', v) :: d' else (k', v') :: dict_assign k v d'
  end.

(** main.py, lines 101-105. *)
Record storage := {
  HTMLfiles : list (Path * CodeFile);
  CSSfiles : list (Path * CodeFile);
  JSfiles : list (Path * CodeFile);
  OtherFiles : list (Path * OtherFile.t)
}.

Definition empty_storage : storage :=
  {| HTMLfiles := []; CSSfiles := []; JSfiles := []; OtherFiles := [] |}.

Definition asset_extensions : list string :=
  [ "png"; "gif"; "jpg"; "jpeg"; "pdf"; "ppt"; "txt";
    "zip"; "mp3"; "mp4"; "webm"; "mov"; "swf"; "xls";
    "xlsx"; "docx"; "pptx"; "csv"; "m"; "ogg"; "gb";
    "tif"; "tiff"; "fcs"; "otf"; "eot"; "ttf"; "woff"; "svg" ].

(** main.py, lines 123-128 (and 136-140, 148-152): add a document to the
    upload map. The key tested is the path object, the key bound is its
    string. *)
Definition add_to_upload_map (um : upload_map) (key : string)
    (file_object : CodeFile) : M upload_map :=
  let path := BaseFile.path (base file_object) in
  let* d := getitem um key in
  if negb (contains (KPath path) d) then
    ret (setitem um key d (Pathlib.str path)
           {| Entry.md5 := ""; Entry.link_URL := link_URL file_object;
              Entry.upload_filename := None |})
  else ret um.

(** main.py, lines 109-165: the body of [for filename in files]. The suffix
    of [infile] is that of its last component, which the path relative to
    [src_dir] shares. *)
Definition classify (e : env) (cfg : config) (st : storage * upload_map)
    (infile : Path) : M (storage * upload_map) :=
  let '(files, um) := st in
  let extension := Str.lower (Str.drop 1 (Pathlib.suffix infile)) in
  if String.eqb extension "html" then
    let file_object := HTMLfile infile cfg in
    let files' :=
      {| HTMLfiles := dict_assign (BaseFile.path (base file_object))
                                  file_object (HTMLfiles files);
         CSSfiles := CSSfiles files; JSfiles := JSfiles files;
         OtherFiles := OtherFiles files |} in
    let* um' := add_to_upload_map um "html" file_object in
    ret (files', um')
  else if String.eqb extension "css" then
    let file_object := CSSfile infile cfg in
    let files' :=
      {| HTMLfiles := HTMLfiles files;
         CSSfiles := dict_assign (BaseFile.path (base file_object))
                                 file_object (CSSfiles files);
         JSfiles := JSfiles files; OtherFiles := OtherFiles files |} in
    let* um' := add_to_upload_map um "css" file_object in
    ret (files', um')
  else if String.eqb extension "js" then
    let file_object := JSfile infile cfg in
    let files' :=
      {| HTMLfiles := HTMLfiles files; CSSfiles := CSSfiles files;
         JSfiles := dict_assign (BaseFile.path (base file_object))
                                file_object (JSfiles files);
         OtherFiles := OtherFiles files |} in
    let* um' := add_to_upload_map um "js" file_object in
    ret (files', um')
  else if existsb (String.eqb (Str.lower extension)) asset_extensions then
    match OtherFile.__init__ infile cfg (open_rb e) with
    | None => raise (Exception "OSError")
    | Some file_object =>
        ret ({| HTMLfiles := HTMLfiles files; CSSfiles := CSSfiles files;
                JSfiles := JSfiles files;
                OtherFiles :=
                  dict_assign (BaseFile.path (OtherFile.base file_object))
                              file_object (OtherFiles files) |}, um)
    end
  else
    let* _ := emit (Log INFO (Pathlib.str (Pathlib.joinpath (src_dir cfg) infile)
                       +:+ " has an unsupported file extension. Skipping.")) in
    ret (files, um).

Definition failed_to_upload (file_object : OtherFile.t) : string :=
  "Failed to upload " +:+
  Pathlib.str (BaseFile.path (OtherFile.base file_object)) +:+
  ". The current upload map has been saved so you won't have to upload everything again.".

(** main.py, lines 186-194 and 205-213: upload one asset; when the helper
    raises, save the map, log and leave. What comes back is the file object
    as the helper left it. *)
Definition upload_or_exit (e : env) (um : upload_map)
    (file_object : OtherFile.t) : M OtherFile.t :=
  let* _ := emit (UploadFile file_object) in
  match iGEM_upload_file e file_object with
  | Some url => ret (OtherFile.set_upload_URL file_object url)
  | None =>
      let* _ := write_upload_map e um in
      let* _ := emit (Log DEBUG (failed_to_upload file_object)) in
      let* _ := emit (Log ERROR (failed_to_upload file_object)) in
      raise SystemExit
  end.

(** main.py, lines 170-219: the body of [for path in OtherFiles.keys()].
    The inner loop runs through the keys of [upload_map['assets']] up to the
    one equal to [str(path)]; keys of a [dict] are distinct, so it finds what
    a lookup finds. *)
Definition upload_asset (e : env) (um : upload_map)
    (item : Path * OtherFile.t) : M upload_map :=
  let '(path, file_object) := item in
  let* d := getitem um "assets" in
  match d !! Pathlib.str path with
  | Some asset =>
      if String.eqb (OtherFile.md5_hash file_object) (Entry.md5 asset) then
        ret um
      else
        let* file_object := upload_or_exit e um file_object in
        ret (setitem um "assets" d (Pathlib.str path)
               {| Entry.md5 := OtherFile.md5_hash file_object;
                  Entry.link_URL := OtherFile.upload_URL file_object;
                  Entry.upload_filename := Entry.upload_filename asset |})
  | None =>
      let* file_object := upload_or_exit e um file_object in
      ret (setitem um "assets" d (Pathlib.str path)
             {| Entry.md5 := OtherFile.md5_hash file_object;
                Entry.link_URL := OtherFile.upload_URL file_object;
                Entry.upload_filename :=
                  Some (OtherFile.upload_filename file_object) |})
  end.

(** main.py, lines 243-254: parse and modify the contents. *)
Definition parse (e : env) (cfg : config) (ext : string) (path : Path)
    (contents : string) (um : upload_map) : option string :=
  if String.eqb ext "html" then Some (HTMLparser e cfg path contents um)
  else if String.eqb ext "css" then Some (CSSparser e cfg path contents um)
  else if String.eqb ext "js" then Some (JSparser e contents)
  else None.

(** main.py, lines 227-286: the body of [for path in file_dictionary.keys()]. *)
Definition upload_document (e : env) (cfg : config) (um : upload_map)
    (item : Path * CodeFile) : M upload_map :=
  let file_object := snd item in
  let path := BaseFile.path (base file_object) in
  let path_str := Pathlib.str path in
  let ext := BaseFile.extension (base file_object) in
  let* _ := emit (ReadSource (BaseFile.src_path (base file_object))) in
  match open_r e (BaseFile.src_path (base file_object)) with
  | None =>
      let* _ := emit (Log ERROR ("Couldn't open/read " +:+ path_str +:+ ". Skipping.")) in
      ret um
  | Some contents =>
      let* _ := emit (CallParser ext path) in
      match parse e cfg ext path contents um with
      | None => raise (Exception "AttributeError")
      | Some processed =>
          let build_hash := Hashlib.md5_hexdigest (Hashlib.encode processed) in
          let* d := getitem um ext in
          match d !! path_str with
          | None => raise (Exception "KeyError")
          | Some entry =>
              if String.eqb (Entry.md5 entry) build_hash then
                let* _ := emit (Log INFO ("Contents of " +:+ path_str +:+
                                  " have been uploaded previously. Skipping.")) in
                ret um
              else
                let um' :=
                  setitem um ext d path_str
                    {| Entry.md5 := build_hash;
                       Entry.link_URL := Entry.link_URL entry;
                       Entry.upload_filename := Entry.upload_filename entry |} in
                let build_path := BaseFile.build_path (base file_object) in
                let* _ := emit (WriteBuild build_path processed) in
                if write_build e build_path processed then
                  let* _ := emit (UploadPage processed (upload_URL file_object)) in
                  if iGEM_upload_page e processed (upload_URL file_object) then
                    ret um'
                  else
                    let* _ := emit (Log INFO ("Couldn't upload " +:+ path_str +:+
                                      ". Skipping.")) in
                    ret um'
                else
                  let* _ := emit (Log INFO ("Couldn't write " +:+
                                    Pathlib.str (build_dir cfg) +:+ "/" +:+
                                    path_str +:+ ". Skipping.")) in
                  ret um'
          end
      end
  end.

(** main.py, lines 33-39: read the configuration. *)
Definition read_config (e : env) : M config :=
  match config_yml e with
  | Some cfg => ret cfg
  | None =>
      let* _ := emit (Log CRITICAL "No config.yml file found. Exiting.") in
      raise SystemExit
  end.

(** main.py, lines 91-96: log in. *)
Definition login (e : env) : M unit :=
  if iGEM_login e then ret tt
  else
    let* _ := emit (Log ERROR "Failed to login.") in
    raise SystemExit.

(** main.py, lines 33-165: everything up to the first upload. *)
Definition prepare (e : env) (file : map_file)
  : M (config * (storage * upload_map)) :=
  let* cfg := read_config e in
  let* um := load_upload_map file in
  let* _ := login e in
  let* st := for_each (classify e cfg) (os_walk e) (empty_storage, um) in
  ret (cfg, st).

(** main.py, lines 167-219: the asset phase. *)
Definition asset_phase (e : env) (files : storage) (um : upload_map)
  : M upload_map :=
  for_each (upload_asset e) (OtherFiles files) um.

(** main.py, lines 225-286: the document phase. *)
Definition document_phase (e : env) (cfg : config) (files : storage)
    (um : upload_map) : M upload_map :=
  for_each (fun um file_dictionary =>
              for_each (upload_document e cfg) file_dictionary um)
           [HTMLfiles files; CSSfiles files; JSfiles files] um.

(** main.py, [main]: one run, started with [upload_map.yml] as [file]. *)
Definition main (e : env) (file : map_file) : M unit :=
  let* (cfg, (files, um)) := prepare e file in
  let* um := asset_phase e files um in
  let* _ := write_upload_map e um in
  let* um := document_phase e cfg files um in
  write_upload_map e um.

(** The trace of a run, how it ended, and [upload_map.yml] after it. *)
Definition trace {A} (m : M A) : list event := fst m.
Definition outcome {A} (m : M A) : exc + A := snd m.
Definition run (e : env) (file : map_file) : map_file :=
  file_after e file (trace (main e file)).

(** main.py, lines 301-302: the script calls [main()] and nothing else, so
    the process ends as [main] does. Every [raise SystemExit] of [main]
    names the class without a code, so the exception that leaves [main] has
    the code [None], with which the interpreter exits with status 0, as
    after a return; any other exception that leaves [main] is printed with
    its traceback, and the status is 1. *)
Definition exit_status (r : exc + unit) : Z :=
  match r with
  | inr _ => 0
  | inl SystemExit => 0
  | inl (Exception _) => 1
  end.

(* ===================================================================== *)
(** * The specification's wording, and the examples                       *)
(* ===================================================================== *)

(** The upload path of a style sheet or script as the specification words
    it: parent directory and stem, the path separators between the
    components rewritten to [delimiter], then the category tag. *)
Definition spec_upload_path (delimiter tag : string) (path : Path) : string :=
  "/" +:+ Str.join delimiter (Pathlib.parent path ++ [Pathlib.stem path])
      +:+ tag.

(** The configuration used in the examples. *)
Definition example_config : config :=
  {| src_dir := ["src"]; build_dir := ["build"]; team := "MYTEAM";
     assets := ["assets"] |}.

Definition two_roots_config : config :=
  {| src_dir := ["src"]; build_dir := ["build"]; team := "MYTEAM";
     assets := ["assets"; "media"] |}.

(** The four categories every upload map must hold. *)
Definition categories : list string := ["assets"; "html"; "css"; "js"].

(** The kinds of events of a run. *)
Definition is_log (ev : event) : bool :=
  match ev with Log _ _ => true | _ => false end.

Definition is_asset_event (ev : event) : bool :=
  match ev with UploadFile _ => true | _ => false end.

Definition is_checkpoint (ev : event) : bool :=
  match ev with WriteUploadMap _ => true | _ => false end.

Definition is_document_event (ev : event) : bool :=
  match ev with
  | ReadSource _ | CallParser _ _ | WriteBuild _ _ | UploadPage _ _ => true
  | _ => false
  end.

(** The assets a trace uploads, by path, and the pages, by upload URL. *)
Definition uploaded_files (tr : list event) : list string :=
  flat_map (fun ev =>
              match ev with
              | UploadFile f => [Pathlib.str (BaseFile.path (OtherFile.base f))]
              | _ => []
              end) tr.

Definition uploaded_pages (tr : list event) : list string :=
  flat_map (fun ev => match ev with UploadPage _ url => [url] | _ => [] end) tr.

(** The log records of a trace. *)
Definition logged (tr : list event) : list (level * string) :=
  flat_map (fun ev => match ev with Log l m => [(l, m)] | _ => [] end) tr.

(** Whether the asset phase uploads an asset when the map is [um]: its path
    is not in the asset category yet, or is there with another digest
    (main.py, lines 175-204). *)
Definition to_upload (um : upload_map) (item : Path * OtherFile.t) : bool :=
  match um !! "assets" with
  | Some (YMapping d) =>
      match d !! Pathlib.str (fst item) with
      | Some asset =>
          negb (String.eqb (OtherFile.md5_hash (snd item)) (Entry.md5 asset))
      | None => true
      end
  | _ => false
  end.

(** A source tree of one page and one image, and a remote that accepts
    everything; the parsers leave the text as it is. *)
Definition example_env : env :=
  {| config_yml := Some example_config;
     iGEM_login := true;
     os_walk := [["index.html"]; ["assets"; "img"; "logo.png"]];
     open_rb := fun _ => Some (Hashlib.encode "PNG");
     open_r := fun _ => Some "<html></html>";
     iGEM_upload_file :=
       fun _ => Some "https://2020.igem.org/wiki/images/a/ab/T--MYTEAM--img--logo.png";
     iGEM_upload_page := fun _ _ => true;
     write_build := fun _ _ => true;
     upload_map_writable := true;
     HTMLparser := fun _ _ contents _ => contents;
     CSSparser := fun _ _ contents _ => contents;
     JSparser := fun contents => contents |}.

(** The same tree, with a remote that refuses every page. *)
Definition pages_refused_env : env :=
  {| config_yml := Some example_config;
     iGEM_login := true;
     os_walk := os_walk example_env;
     open_rb := open_rb example_env;
     open_r := open_r example_env;
     iGEM_upload_file := iGEM_upload_file example_env;
     iGEM_upload_page := fun _ _ => false;
     write_build := fun _ _ => true;
     upload_map_writable := true;
     HTMLparser := HTMLparser example_env;
     CSSparser := CSSparser example_env;
     JSparser := JSparser example_env |}.

(** The same tree, with a remote that refuses every asset. *)
Definition assets_refused_env : env :=
  {| config_yml := Some example_config;
     iGEM_login := true;
     os_walk := os_walk example_env;
     open_rb := open_rb example_env;
     open_r := open_r example_env;
     iGEM_upload_file := fun _ => None;
     iGEM_upload_page := fun _ _ => true;
     write_build := fun _ _ => true;
     upload_map_writable := true;
     HTMLparser := HTMLparser example_env;
     CSSparser := CSSparser example_env;
     JSparser := JSparser example_env |}.

Definition logo_entry : Entry.t :=
  {| Entry.md5 := "0123456789abcdef0123456789abcdef01234567";
     Entry.link_URL := "https://2020.igem.org/wiki/images/0/00/T--MYTEAM--img--logo.png";
     Entry.upload_filename := Some "T--MYTEAM--img--logo.png" |}.

(** A stored map without its ['css'] section. *)
Definition map_without_css : upload_map :=
  <["assets" := YMapping {[ "assets/img/logo.png" := logo_entry ]}]>
    (<["html" := YMapping ∅]> (<["js" := YMapping ∅]> ∅)).

(** A stored map whose ['js'] section is the scalar [5]. *)
Definition map_with_scalar_js : upload_map :=
  <["assets" := YMapping {[ "assets/img/logo.png" := logo_entry ]}]>
    (<["html" := YMapping ∅]> (<["css" := YMapping ∅]>
       (<["js" := YOther "5"]> ∅))).

(** What the classification of the example tree leaves: the image and the
    page as descriptors, and the page entered in the upload map. *)
Definition logo_file : OtherFile.t :=
  {| OtherFile.base :=
       BaseFile.__init__ ["assets"; "img"; "logo.png"] example_config;
     OtherFile._upload_URL := "https://2020.igem.org/Special:Upload";
     OtherFile._upload_filename := "T--MYTEAM--img--logo.png";
     OtherFile._md5_hash := OtherFile._generate_md5_hash (Hashlib.encode "PNG") |}.

Definition logo_item : Path * OtherFile.t :=
  (["assets"; "img"; "logo.png"], logo_file).

Definition example_storage : storage :=
  {| HTMLfiles := [(["index.html"], HTMLfile ["index.html"] example_config)];
     CSSfiles := []; JSfiles := []; OtherFiles := [logo_item] |}.

Definition index_entry (digest : string) : Entry.t :=
  {| Entry.md5 := digest;
     Entry.link_URL := "https://2020.igem.org/Team:MYTEAM";
     Entry.upload_filename := None |}.

Definition classified_map : upload_map :=
  setitem canonical_empty_map "html" ∅ "index.html" (index_entry "").

Definition index_upload_URL : string :=
  "https://2020.igem.org/wiki/index.php?title=Team:MYTEAM&action=edit".

(** The documents a trace parses, and the build files it writes. *)
Definition parsed (tr : list event) : list Path :=
  flat_map (fun ev => match ev with CallParser _ p => [p] | _ => [] end) tr.

Definition written (tr : list event) : list Path :=
  flat_map (fun ev => match ev with WriteBuild p _ => [p] | _ => [] end) tr.

(** Every document of [dict] has its record under [key] in the upload map,
    with the empty digest. *)
Definition all_reset (um : upload_map) (key : string)
    (dict : list (Path * CodeFile)) : Prop :=
  forall p f, (p, f) ∈ dict ->
    exists d entry,
      um !! key = Some (YMapping d)
      /\ d !! Pathlib.str p = Some entry /\ Entry.md5 entry = "".

(** The documents of one category as the classification stores them: each
    walked path once, bound to a descriptor of that path and of the
    extension of the category, its record reset. *)
Definition category_ok (walked : list Path) (um : upload_map) (key : string)
    (dict : list (Path * CodeFile)) : Prop :=
  NoDup (List.map fst dict)
  /\ Forall (fun kv => fst kv ∈ walked
                       /\ BaseFile.path (base (snd kv)) = fst kv
                       /\ BaseFile.extension (base (snd kv)) = key) dict
  /\ all_reset um key dict.

(** The four categories are present in an upload map, as mappings. *)
Definition normalized (um : upload_map) : Prop :=
  forall key, key ∈ categories -> exists d, um !! key = Some (YMapping d).

(** Every asset of [items] has its record in the asset category, with the
    digest of the file. *)
Definition all_recorded (um : upload_map)
    (items : list (Path * OtherFile.t)) : Prop :=
  forall p f, (p, f) ∈ items ->
    exists d entry,
      um !! "assets" = Some (YMapping d)
      /\ d !! Pathlib.str p = Some entry
      /\ Entry.md5 entry = OtherFile.md5_hash f.

(** The upload map of the example once the image is uploaded. *)
Definition uploaded_map : upload_map :=
  setitem classified_map "assets" ∅ "assets/img/logo.png"
    {| Entry.md5 := OtherFile.md5_hash logo_file;
       Entry.link_URL :=
         "https://2020.igem.org/wiki/images/a/ab/T--MYTEAM--img--logo.png";
       Entry.upload_filename := Some "T--MYTEAM--img--logo.png" |}.

(** The extension the classification reads off a walked file, and whether
    it is one of an asset (main.py, lines 112 and 154-157). *)
Definition extension_of (infile : Path) : string :=
  Str.lower (Str.drop 1 (Pathlib.suffix infile)).

Definition is_asset (infile : Path) : bool :=
  existsb (String.eqb (Str.lower (extension_of infile))) asset_extensions.

(** The example tree, with a remote that refuses the login. *)
Definition login_refused_env : env :=
  {| config_yml := Some example_config;
     iGEM_login := false;
     os_walk := os_walk example_env;
     open_rb := open_rb example_env;
     open_r := open_r example_env;
     iGEM_upload_file := iGEM_upload_file example_env;
     iGEM_upload_page := iGEM_upload_page example_env;
     write_build := write_build example_env;
     upload_map_writable := true;
     HTMLparser := HTMLparser example_env;
     CSSparser := CSSparser example_env;
     JSparser := JSparser example_env |}.

(** The example tree, the image of which cannot be read. *)
Definition unreadable_asset_env : env :=
  {| config_yml := Some example_config;
     iGEM_login := true;
     os_walk := os_walk example_env;
     open_rb := fun _ => None;
     open_r := open_r example_env;
     iGEM_upload_file := iGEM_upload_file example_env;
     iGEM_upload_page := iGEM_upload_page example_env;
     write_build := write_build example_env;
     upload_map_writable := true;
     HTMLparser := HTMLparser example_env;
     CSSparser := CSSparser example_env;
     JSparser := JSparser example_env |}.

(** Every upload map a trace saves satisfies [I]. *)
Definition saves_only (I : upload_map -> Prop) (tr : list event) : Prop :=
  forall um, WriteUploadMap um ∈ tr -> I um.

(** [um'] holds every category of [um] that is a mapping, as a mapping with
    at least the same keys. *)
Definition keeps_records (um um' : upload_map) : Prop :=
  forall key d, um !! key = Some (YMapping d) ->
    exists d', um' !! key = Some (YMapping d')
               /\ forall k, is_Some (d !! k) -> is_Some (d' !! k).

(** A record and what it has become: still there, with the same link URL
    and upload filename; or absent before and after. *)
Definition record_kept (o o' : option Entry.t) : Prop :=
  match o, o' with
  | Some en, Some en' =>
      Entry.link_URL en' = Entry.link_URL en
      /\ Entry.upload_filename en' = Entry.upload_filename en
  | None, None => True
  | _, _ => False
  end.

(** [um'] is [um] up to the digests of its records: the same keys at both
    levels, and in every record the same link URL and upload filename. *)
Definition same_links (um um' : upload_map) : Prop :=
  forall key,
    um' !! key = um !! key
    \/ exists d d',
         um !! key = Some (YMapping d) /\ um' !! key = Some (YMapping d')
         /\ forall k, record_kept (d !! k) (d' !! k).

(** A stored map with a stale asset record and the digest of the page. *)
Definition stale_map : upload_map :=
  <["assets" := YMapping {[ "assets/old.png" := logo_entry ]}]>
    (<["html" := YMapping {[ "index.html" := index_entry "0000" ]}]>
       (<["css" := YMapping ∅]> (<["js" := YMapping ∅]> ∅))).

(** The stale map once the page is classified, and once the image is
    uploaded. *)
Definition stale_map_classified : upload_map :=
  setitem stale_map "html" {[ "index.html" := index_entry "0000" ]}
    "index.html" (index_entry "").

Definition stale_map_uploaded : upload_map :=
  setitem stale_map_classified "assets" {[ "assets/old.png" := logo_entry ]}
    "assets/img/logo.png"
    {| Entry.md5 := OtherFile.md5_hash logo_file;
       Entry.link_URL :=
         "https://2020.igem.org/wiki/images/a/ab/T--MYTEAM--img--logo.png";
       Entry.upload_filename := Some "T--MYTEAM--img--logo.png" |}.

(** In a trace, every upload of a page comes right after the build file
    was written with the same contents, and that write went well. *)
Definition upload_follows_write (e : env) (tr : list event) : Prop :=
  forall pre c u post,
    tr = pre ++ UploadPage c u :: post ->
    exists pre' bp,
      pre = pre' ++ [WriteBuild bp c] /\ write_build e bp c = true.

Definition is_upload_page (ev : event) : bool :=
  match ev with UploadPage _ _ => true | _ => false end.

(** Whether a walked file has the extension [ext], letter case aside
    (main.py, lines 112, 117, 130 and 142). *)
Definition has_extension (ext : string) (infile : Path) : bool :=
  String.eqb (extension_of infile) ext.

(** The storage that holds the files of [walked], sorted by extension and
    in the order of [walked]. *)
Definition sorted_by_extension (cfg : config) (walked : list Path)
    (files : storage) : Prop :=
  HTMLfiles files
  = List.map (fun p => (p, HTMLfile p cfg))
             (List.filter (has_extension "html") walked)
  /\ CSSfiles files
     = List.map (fun p => (p, CSSfile p cfg))
                (List.filter (has_extension "css") walked)
  /\ JSfiles files
     = List.map (fun p => (p, JSfile p cfg))
                (List.filter (has_extension "js") walked)
  /\ List.map fst (OtherFiles files) = List.filter is_asset walked.

(** A stored map whose record of the image is out of date: another digest,
    and the server filename of an earlier configuration. *)
Definition outdated_map : upload_map :=
  <["assets" := YMapping
      {[ "assets/img/logo.png" :=
           {| Entry.md5 := "0000";
              Entry.link_URL := "https://2020.igem.org/wiki/images/0/00/old.png";
              Entry.upload_filename := Some "T--MYTEAM--assets--img--logo.png" |} ]}]>
    (<["html" := YMapping ∅]> (<["css" := YMapping ∅]> (<["js" := YMapping ∅]> ∅))).


(** The source files a trace opens for reading, and the documents of a
    storage in the order in which the document phase goes through them
    (main.py, line 226). *)
Definition sources_read (tr : list event) : list Path :=
  flat_map (fun ev => match ev with ReadSource p => [p] | _ => [] end) tr.

Definition documents (files : storage) : list (Path * CodeFile) :=
  HTMLfiles files ++ CSSfiles files ++ JSfiles files.

(*END-DEFINITIONS*)

(* ===================================================================== *)
(** * Strings and paths                                                   *)
(* ===================================================================== *)

Lemma append_cons a s1 s2 : String a s1 +:+ s2 = String a (s1 +:+ s2).
Proof. reflexivity. Qed.

Lemma append_nil_l s : "" +:+ s = s.
Proof. reflexivity. Qed.

(** [String.append] is kept folded by [simpl]; this unfolds it along the
    constructors of its first argument. *)
Ltac unfold_append := rewrite ?append_cons, ?append_nil_l in *.


Lemma append_assoc s1 s2 s3 : (s1 +:+ s2) +:+ s3 = s1 +:+ s2 +:+ s3.
Proof.
  induction s1 as [|a s1 IH]; unfold_append; [done | by rewrite IH].
Qed.

Lemma length_append s1 s2 :
  String.length (s1 +:+ s2) = (String.length s1 + String.length s2)%nat.
Proof.
  induction s1 as [|a s1 IH]; unfold_append; simpl; [done | by rewrite IH].
Qed.

Lemma append_inv_head s s1 s2 : s +:+ s1 = s +:+ s2 -> s1 = s2.
Proof.
  induction s as [|a s IH]; unfold_append; [done | intros [= H]; auto].
Qed.

Lemma append_inv_tail s s1 s2 : s1 +:+ s = s2 +:+ s -> s1 = s2.
Proof.
  revert s2. induction s1 as [|a s1 IH]; intros [|b s2] H; unfold_append.
  - done.
  - apply (f_equal String.length) in H. simpl in H.
    rewrite length_append in H. lia.
  - apply (f_equal String.length) in H. simpl in H.
    rewrite length_append in H. lia.
  - injection H as -> H. f_equal. by apply IH.
Qed.

Lemma str_map_append f s1 s2 :
  Str.map f (s1 +:+ s2) = Str.map f s1 +:+ Str.map f s2.
Proof.
  induction s1 as [|a s1 IH]; unfold_append; simpl; unfold_append;
    [done | by rewrite IH].
Qed.

Lemma join_cons sep x y parts :
  Str.join sep (x :: y :: parts) = x +:+ sep +:+ Str.join sep (y :: parts).
Proof. reflexivity. Qed.

Lemma map_join f sep parts :
  Str.map f (Str.join sep parts)
  = Str.join (Str.map f sep) (List.map (Str.map f) parts).
Proof.
  induction parts as [|x parts IH]; [done |].
  destruct parts as [|y parts]; [done |].
  rewrite join_cons, !str_map_append, IH. reflexivity.
Qed.

(** [replace('.', '-')] goes through the components of a path string and
    leaves the separators alone. *)
Lemma replace_dot_join parts :
  Str.replace "." "-" (Str.join "/" parts)
  = Str.join "/" (List.map (Str.replace "." "-") parts).
Proof. unfold Str.replace. by rewrite map_join. Qed.

(** The string of a directory path is ["."] only for the empty path, unless
    a component is ["."] itself. *)
Lemma str_dirs_not_dot (dirs : Path) :
  dirs <> [] -> dirs <> ["."] -> Pathlib.str dirs <> ".".
Proof.
  intros Hne Hdot. destruct dirs as [|d1 [|d2 rest]]; [done | |].
  - simpl. congruence.
  - unfold Pathlib.str. rewrite join_cons.
    destruct d1 as [|a [|b d1]]; unfold_append; congruence.
Qed.

Lemma parent_snoc (dirs : Path) name : Pathlib.parent (dirs ++ [name]) = dirs.
Proof. unfold Pathlib.parent. apply removelast_last. Qed.

Lemma name_snoc (dirs : Path) name : Pathlib.name (dirs ++ [name]) = name.
Proof. unfold Pathlib.name. apply last_last. Qed.

Lemma stem_snoc (dirs : Path) name :
  Pathlib.stem (dirs ++ [name]) = Pathlib.stem [name].
Proof. unfold Pathlib.stem. by rewrite name_snoc. Qed.

Lemma eqb_false_of_ne s1 s2 : s1 <> s2 -> String.eqb s1 s2 = false.
Proof. intros H. by apply String.eqb_neq. Qed.

(* ===================================================================== *)
(** * Digests                                                             *)
(* ===================================================================== *)

Lemma hex_length bs : String.length (Hashlib.hex bs) = (2 * length bs)%nat.
Proof. induction bs as [|b bs IH]; simpl; [done | rewrite IH; lia]. Qed.

(** An MD5 digest in hexadecimal has 32 characters. *)
Lemma md5_hexdigest_length data :
  String.length (Hashlib.md5_hexdigest data) = 32%nat.
Proof.
  unfold Hashlib.md5_hexdigest, Hashlib.md5_digest. rewrite hex_length.
  destruct (fold_left _ _ _) as [[[a b] c] d]. reflexivity.
Qed.

(** A SHA-1 digest in hexadecimal has 40 characters. *)
Lemma sha1_hexdigest_length chunks :
  String.length (Hashlib.sha1_hexdigest chunks) = 40%nat.
Proof.
  unfold Hashlib.sha1_hexdigest, Hashlib.sha1_digest. rewrite hex_length.
  destruct (fold_left _ _ _) as [[[[a b] c] d] e]. reflexivity.
Qed.

Lemma md5_hexdigest_not_empty data : Hashlib.md5_hexdigest data <> "".
Proof.
  intros H. pose proof (md5_hexdigest_length data) as Hl.
  rewrite H in Hl. discriminate.
Qed.

(** Cutting into blocks loses nothing. *)
Lemma concat_blocks {A} (n fuel : nat) (l : list A) :
  (0 < n)%nat -> (length l <= fuel)%nat ->
  List.concat (Hashlib.blocks fuel n l) = l.
Proof.
  intros Hn. revert l. induction fuel as [|fuel IH]; intros l Hl.
  - destruct l; [done | simpl in Hl; lia].
  - destruct l as [|x l]; [done |].
    change (Hashlib.blocks (S fuel) n (x :: l))
      with (firstn n (x :: l) :: Hashlib.blocks fuel n (skipn n (x :: l))).
    simpl List.concat. rewrite IH.
    + apply firstn_skipn.
    + rewrite length_skipn. simpl in *. lia.
Qed.

(** Reading a file 1024 bytes at a time feeds the digest the whole file. *)
Lemma concat_read_chunks content :
  List.concat (OtherFile.read_chunks content) = content.
Proof.
  unfold OtherFile.read_chunks. rewrite concat_app. simpl.
  rewrite app_nil_r. apply concat_blocks; lia.
Qed.

Example md5_abc :
  Hashlib.md5_hexdigest (Hashlib.encode "abc")
  = "900150983cd24fb0d6963f7d28e17f72".
Proof. vm_compute. reflexivity. Qed.

Example sha1_abc :
  Hashlib.sha1_hexdigest [Hashlib.encode "abc"]
  = "a9993e364706816aba3e25717850c26c9cd0d89d".
Proof. vm_compute. reflexivity. Qed.

(** Two blocks, the padding filling the second one exactly. *)
Example md5_two_blocks :
  Hashlib.md5_hexdigest (repeat Byte.x61 119)
  = "8a7bd0732ed6a28ce75f6dabc90e1613".
Proof. vm_compute. reflexivity. Qed.

Example sha1_two_blocks :
  Hashlib.sha1_hexdigest [repeat Byte.x61 64; repeat Byte.x61 55]
  = "ee971065aaa017e0632a8ca6c77bb3bf8b1dfc56".
Proof. vm_compute. reflexivity. Qed.

(* ===================================================================== *)
(** * Remote identities (files.py)                                        *)
(* ===================================================================== *)

(** C6. The identity of an HTML file is a function of its relative path and
    of the team: for a file [name] in the directory [dirs] (no component of
    which is ["."], as [pathlib] guarantees), the upload path is [""] at the
    source root and ["/"] followed by the directory otherwise; the upload URL
    is the edit form of the page [Team:<team><upload path>] and the link URL
    the page itself. *)
Theorem html_identity (cfg : config) (dirs : Path) (name : string)
    (Hdirs : dirs <> ["."]) :
  let f := HTMLfile (dirs ++ [name]) cfg in
  _upload_path f
    = match dirs with [] => "" | _ => "/" +:+ Str.join "/" dirs end
  /\ upload_URL f
    = "https://2020.igem.org/wiki/index.php?title=Team:" +:+ team cfg +:+
        _upload_path f +:+ "&action=edit"
  /\ link_URL f = "https://2020.igem.org/Team:" +:+ team cfg +:+ _upload_path f.
Proof.
  intros f. split; [| split; reflexivity].
  unfold f, HTMLfile, _upload_path, HTMLfile._generate_upload_path.
  unfold BaseFile.path, BaseFile.__init__, BaseFile._path.
  rewrite parent_snoc. destruct dirs as [|d dirs'] eqn:E; [reflexivity |].
  rewrite eqb_false_of_ne; [reflexivity |].
  apply str_dirs_not_dot; congruence.
Qed.

(** The example of the specification: [about/team.html] under [MYTEAM]. *)
Lemma html_identity_witness :
  ["about"] <> ["."]
  /\ upload_URL (HTMLfile ["about"; "team.html"] example_config)
      = "https://2020.igem.org/wiki/index.php?title=Team:MYTEAM/about&action=edit"
  /\ link_URL (HTMLfile ["about"; "team.html"] example_config)
      = "https://2020.igem.org/Team:MYTEAM/about".
Proof.
  assert (H : @eq Path ["about"] ["."] -> False) by discriminate.
  split; [exact H |].
  exact (proj2 (html_identity example_config ["about"] "team.html" H)).
Defined.

(** At the source root the upload path is empty; one level down it is not. *)
Example html_root_index :
  _upload_path (HTMLfile ["index.html"] example_config) = ""
  /\ _upload_path (HTMLfile ["about"; "index.html"] example_config) = "/about".
Proof. split; reflexivity. Qed.

(** The stem of a style sheet or script joins the directory as one more
    component, unless it is ["."] (or empty), which [pathlib] drops; the
    path without component is written ["."]. *)
Lemma str_parent_stem (dirs : Path) name :
  Pathlib.str (Pathlib.truediv (Pathlib.parent (dirs ++ [name]))
                               (Pathlib.stem (dirs ++ [name])))
  = Pathlib.str (if String.eqb (Pathlib.stem (dirs ++ [name])) ""
                    || String.eqb (Pathlib.stem (dirs ++ [name])) "."
                 then dirs else dirs ++ [Pathlib.stem (dirs ++ [name])]).
Proof. rewrite parent_snoc. reflexivity. Qed.

Lemma replace_dot_str (components : Path) :
  Str.replace "." "-" (Pathlib.str components)
  = match components with
    | [] => "-"
    | _ => Str.join "/" (List.map (Str.replace "." "-") components)
    end.
Proof. destruct components; [reflexivity | apply replace_dot_join]. Qed.

(** C7, as amended. For every style sheet and every script [name] in the
    directory [dirs], the upload path is ["/"], then the path of the
    directory with the stem as its last component, the components still
    separated by ["/"] and every ["."] in them rewritten to ["-"], then the
    tag ["CSS"] or ["JS"]. A stem ["."] (the file [..css]) is no component
    of a path, and the path without component is written ["."], which is
    rewritten to ["-"]. The upload URL is the edit form of the page
    [Template:<team><upload path>], and the link URL the raw page served as
    [text/css] or [text/javascript]. *)
Theorem template_identity (cfg : config) (dirs : Path) (name : string) :
  let css := CSSfile (dirs ++ [name]) cfg in
  let js := JSfile (dirs ++ [name]) cfg in
  let stem := Pathlib.stem (dirs ++ [name]) in
  let components :=
    if String.eqb stem "" || String.eqb stem "." then dirs
    else dirs ++ [stem] in
  let renamed :=
    match components with
    | [] => "-"
    | _ => Str.join "/" (List.map (Str.replace "." "-") components)
    end in
  _upload_path css = "/" +:+ renamed +:+ "CSS"
  /\ _upload_path js = "/" +:+ renamed +:+ "JS"
  /\ upload_URL css
     = "https://2020.igem.org/wiki/index.php?title=Template:" +:+ team cfg +:+
         _upload_path css +:+ "&action=edit"
  /\ upload_URL js
     = "https://2020.igem.org/wiki/index.php?title=Template:" +:+ team cfg +:+
         _upload_path js +:+ "&action=edit"
  /\ link_URL css
     = "https://2020.igem.org/Template:" +:+ team cfg +:+ _upload_path css +:+
         "?action=raw&ctype=text/css"
  /\ link_URL js
     = "https://2020.igem.org/Template:" +:+ team cfg +:+ _upload_path js +:+
         "?action=raw&ctype=text/javascript".
Proof.
  intros css js stem components renamed.
  split; [| split; [| repeat split; reflexivity]].
  - unfold css, CSSfile, _upload_path, CSSfile._generate_upload_path.
    unfold BaseFile.path, BaseFile.__init__, BaseFile._path.
    rewrite (str_parent_stem dirs name), replace_dot_str. reflexivity.
  - unfold js, JSfile, _upload_path, JSfile._generate_upload_path.
    unfold BaseFile.path, BaseFile.__init__, BaseFile._path.
    rewrite (str_parent_stem dirs name), replace_dot_str. reflexivity.
Qed.

(** A style sheet with a dot in its stem, and the style sheets [..css],
    whose stem is ["."], in a directory and at the root. *)
Lemma template_identity_witness :
  _upload_path (CSSfile ["css"; "site.min.css"] example_config)
  = "/css/site-minCSS"
  /\ link_URL (CSSfile ["css"; "site.min.css"] example_config)
     = "https://2020.igem.org/Template:MYTEAM/css/site-minCSS?action=raw&ctype=text/css"
  /\ _upload_path (CSSfile ["a"; "..css"] example_config) = "/aCSS"
  /\ _upload_path (JSfile ["..js"] example_config) = "/-JS".
Proof.
  pose proof (template_identity example_config ["css"] "site.min.css") as T.
  pose proof (template_identity example_config ["a"] "..css") as T1.
  pose proof (template_identity example_config [] "..js") as T2.
  split; [exact (proj1 T) |].
  split; [exact (proj1 (proj2 (proj2 (proj2 (proj2 T))))) |].
  split; [exact (proj1 T1) | exact (proj1 (proj2 T2))].
Defined.

(** C7, as the specification states it, fails: in the upload path of
    [styles/main.css] directory and stem are still separated by ["/"], so
    the only delimiter the path separators could have been rewritten to is
    the separator itself; and even with that one the upload path of
    [site.min.css] is not the specification's, since the code rewrites the
    dot of the stem. *)
Lemma template_separators_kept :
  _upload_path (CSSfile ["styles"; "main.css"] example_config)
    = "/styles/mainCSS"
  /\ _upload_path (JSfile ["js"; "app.js"] example_config) = "/js/appJS"
  /\ (forall delimiter,
        _upload_path (CSSfile ["styles"; "main.css"] example_config)
          = spec_upload_path delimiter "CSS" ["styles"; "main.css"] ->
        delimiter = "/")
  /\ _upload_path (CSSfile ["site.min.css"] example_config)
       <> spec_upload_path "/" "CSS" ["site.min.css"].
Proof.
  split; [reflexivity | split; [reflexivity | split; [| discriminate]]].
  intros delimiter H.
  change ("/styles" +:+ "/" +:+ "mainCSS"
          = "/" +:+ ("styles" +:+ delimiter +:+ "main") +:+ "CSS") in H.
  rewrite !append_assoc in H.
  change ("/styles" +:+ "/" +:+ "mainCSS"
          = "/styles" +:+ delimiter +:+ "mainCSS") in H.
  apply append_inv_head in H. symmetry. by apply append_inv_tail in H.
Qed.

(** C8. The upload filename of an asset is ["T--"], the team, ["--"], and
    the components of its path joined by ["--"]; the first component is left
    out when exactly one asset root is configured, and only then. *)
Theorem asset_upload_filename (cfg : config) (first : string) (rest : Path) :
  OtherFile._generate_upload_filename (BaseFile.__init__ (first :: rest) cfg)
  = "T--" +:+ team cfg +:+ "--" +:+
    Str.join "--" (if decide (length (assets cfg) = 1%nat) then rest
                   else first :: rest).
Proof.
  unfold OtherFile._generate_upload_filename.
  unfold BaseFile.path, BaseFile.__init__, BaseFile._path, BaseFile._config.
  unfold Pathlib.parts.
  destruct (Nat.eqb_spec (length (assets cfg)) 1) as [E | E];
    destruct (decide (length (assets cfg) = 1%nat)); done.
Qed.

(** The example of the specification: [assets/img/logo.png] with one asset
    root, and with two. *)
Example asset_upload_filename_logo :
  OtherFile._generate_upload_filename
    (BaseFile.__init__ ["assets"; "img"; "logo.png"] example_config)
  = "T--MYTEAM--img--logo.png"
  /\ OtherFile._generate_upload_filename
       (BaseFile.__init__ ["assets"; "img"; "logo.png"] two_roots_config)
     = "T--MYTEAM--assets--img--logo.png".
Proof. split; reflexivity. Qed.

(** C9, what the code does: [_generate_md5_hash], whose result is stored
    under ['md5'] and compared with it, is the SHA-1 digest of the file,
    while the digest of a document is the MD5 digest of its text; the two are
    never the same string, and for the empty file they are the well-known
    digests of the empty input of the two algorithms. *)
Theorem asset_digest_is_sha1 (content : Hashlib.bytes) :
  OtherFile._generate_md5_hash content = Hashlib.sha1_hexdigest [content]
  /\ OtherFile._generate_md5_hash content <> Hashlib.md5_hexdigest content
  /\ OtherFile._generate_md5_hash []
     = "da39a3ee5e6b4b0d3255bfef95601890afd80709"
  /\ Hashlib.md5_hexdigest (Hashlib.encode "")
     = "d41d8cd98f00b204e9800998ecf8427e".
Proof.
  split; [| split; [| split; vm_compute; reflexivity]].
  - unfold OtherFile._generate_md5_hash, Hashlib.sha1_hexdigest.
    rewrite concat_read_chunks. simpl. by rewrite app_nil_r.
  - intros H. apply (f_equal String.length) in H.
    unfold OtherFile._generate_md5_hash in H.
    rewrite sha1_hexdigest_length, md5_hexdigest_length in H. discriminate.
Qed.

(* ===================================================================== *)
(** * Loading the upload map (main.py, lines 44-62)                       *)
(* ===================================================================== *)

Lemma bind_inr {A B} (m : M A) (k : A -> M B) tr a :
  m = (tr, inr a) -> bind m k = (tr ++ fst (k a), snd (k a)).
Proof. intros ->. simpl. by destruct (k a). Qed.

Lemma bind_inl {A B} (m : M A) (k : A -> M B) tr x :
  m = (tr, inl x) -> bind m k = (tr, inl x).
Proof. by intros ->. Qed.

Lemma for_each_cons {A S} (body : S -> A -> M S) x xs s :
  for_each body (x :: xs) s = bind (body s x) (for_each body xs).
Proof. reflexivity. Qed.

(** What the loop over the four keys does to a loaded mapping: either every
    key it meets is absent or a mapping, and it adds the absent ones as empty
    mappings without a word; or one of them is something else, and it logs
    and raises [SystemExit]. *)
Lemma check_keys_spec (keys : list string) (top : upload_map) :
  match for_each check_key keys top with
  | (tr, inr um) =>
      tr = []
      /\ (forall key, key ∈ keys -> exists d, um !! key = Some (YMapping d))
      /\ (forall key,
            um !! key
            = match top !! key with
              | Some v => Some v
              | None => if bool_decide (key ∈ keys) then Some (YMapping ∅)
                        else None
              end)
  | (tr, inl x) =>
      x = SystemExit
      /\ tr = [Log CRITICAL "config.yml has an invalid format. Exiting."]
      /\ exists key repr, key ∈ keys /\ top !! key = Some (YOther repr)
  end.
Proof.
  revert top. induction keys as [|k keys IH]; intros top.
  - simpl. split; [done | split].
    + intros key H. by apply elem_of_nil in H.
    + intros key. by destruct (top !! key).
  - rewrite for_each_cons. unfold check_key at 1.
    destruct (top !! k) as [[d | repr] |] eqn:Hk.
    + (* a mapping: left as it is *)
      specialize (IH top). simpl.
      destruct (for_each check_key keys top) as [tr [x | um]]; simpl.
      * destruct IH as (-> & -> & key & repr & Hin & Hl).
        repeat split; [].
        exists key, repr. split; [by apply list_elem_of_further | done].
      * destruct IH as (-> & Hall & Hlook). split; [done | split].
        -- intros key [-> | Hin]%elem_of_cons; [| by apply Hall].
           exists d. by rewrite Hlook, Hk.
        -- intros key. rewrite Hlook.
           destruct (top !! key) eqn:Hkey; [done |].
           destruct (decide (key = k)) as [-> | Hne]; [congruence |].
           rewrite !bool_decide_decide.
           destruct (decide (key ∈ keys)) as [Hin | Hnin].
           ++ rewrite decide_True; [done | by apply list_elem_of_further].
           ++ rewrite decide_False; [done |].
              intros [? | ?]%elem_of_cons; done.
    + (* not a mapping *)
      simpl. repeat split; [].
      exists k, repr. split; [apply list_elem_of_here | done].
    + (* absent: healed *)
      specialize (IH (<[k := YMapping ∅]> top)). simpl.
      destruct (for_each check_key keys (<[k := YMapping ∅]> top))
        as [tr [x | um]]; simpl.
      * destruct IH as (-> & -> & key & repr & Hin & Hl).
        repeat split; [].
        exists key, repr. split; [by apply list_elem_of_further |].
        destruct (decide (k = key)) as [-> | Hne].
        -- rewrite lookup_insert_eq in Hl. congruence.
        -- by rewrite lookup_insert_ne in Hl.
      * destruct IH as (-> & Hall & Hlook). split; [done | split].
        -- intros key [-> | Hin]%elem_of_cons; [| by apply Hall].
           exists ∅. by rewrite Hlook, lookup_insert_eq.
        -- intros key. rewrite Hlook.
           destruct (decide (k = key)) as [-> | Hne].
           ++ rewrite lookup_insert_eq, Hk.
              rewrite (bool_decide_eq_true_2 (key ∈ key :: keys));
                [done | apply list_elem_of_here].
           ++ rewrite lookup_insert_ne by done.
              destruct (top !! key); [done |].
              rewrite !bool_decide_decide.
              destruct (decide (key ∈ keys)) as [Hin | Hnin].
              ** rewrite decide_True; [done | by apply list_elem_of_further].
              ** rewrite decide_False; [done |].
                 intros [? | ?]%elem_of_cons; done.
Qed.

Lemma canonical_empty_map_lookup key :
  key ∈ categories -> canonical_empty_map !! key = Some (YMapping ∅).
Proof.
  unfold categories, canonical_empty_map. intros H.
  repeat (apply elem_of_cons in H as [-> | H]; [by simplify_map_eq |]).
  by apply elem_of_nil in H.
Qed.

(** C5. Loading never fails the run: whatever [upload_map.yml] is, a map
    comes back in which the four categories are mappings. When the file is
    missing, cannot be parsed or does not hold a mapping, it is the canonical
    empty map. When it holds a mapping in which every category present is a
    mapping, nothing is logged, what is stored is kept and the absent
    categories are added as empty mappings; so a map without ['css'] only
    comes back with ['css'] bound to the empty mapping. *)
Theorem load_upload_map_heals (file : map_file) :
  exists tr um,
    load_upload_map file = (tr, inr um)
    /\ (forall key, key ∈ categories -> exists d, um !! key = Some (YMapping d))
    /\ match file with
       | Document top =>
           (forall key v, key ∈ categories -> top !! key = Some v ->
                          exists d, v = YMapping d) ->
           tr = []
           /\ (forall key,
                 um !! key
                 = match top !! key with
                   | Some v => Some v
                   | None => if bool_decide (key ∈ categories)
                             then Some (YMapping ∅) else None
                   end)
           /\ (top !! "css" = None ->
               (forall key, key ∈ ["assets"; "html"; "js"] -> is_Some (top !! key)) ->
               um = <["css" := YMapping ∅]> top)
       | _ => tr = [] /\ um = canonical_empty_map
       end.
Proof.
  destruct file as [| | repr | top];
    try (exists [], canonical_empty_map;
         split; [reflexivity | split; [| done]];
         intros key Hkey; exists ∅; by apply canonical_empty_map_lookup).
  unfold load_upload_map, load_try.
  pose proof (check_keys_spec categories top) as Hspec. fold categories.
  destruct (for_each check_key categories top) as [tr [x | um]]; simpl.
  - (* a category is not a mapping: the exception is caught *)
    destruct Hspec as (-> & -> & key & repr & Hin & Hl).
    eexists _, _. split; [reflexivity | split].
    + intros k Hk. exists ∅. by apply canonical_empty_map_lookup.
    + intros Hall. destruct (Hall key _ Hin Hl) as [d Hd]. discriminate.
  - destruct Hspec as (-> & Hall & Hlook).
    exists [], um. split; [reflexivity | split; [exact Hall |]].
    intros _. split; [done | split; [exact Hlook |]].
    intros Hcss H3. apply map_eq. intros key. rewrite Hlook.
    destruct (decide (key = "css")) as [-> | Hne].
    + by rewrite Hcss, lookup_insert_eq.
    + rewrite lookup_insert_ne by done.
      destruct (top !! key) eqn:Hkey; [done |].
      rewrite bool_decide_eq_false_2; [done |].
      unfold categories. intros Hin.
      assert (key ∈ ["assets"; "html"; "js"]) as Hin3.
      { repeat (apply elem_of_cons in Hin as [-> | Hin];
                [first [done | set_solver] |]).
        by apply elem_of_nil in Hin. }
      destruct (H3 key Hin3) as [v Hv]. congruence.
Qed.

(** The example of the specification: a stored map without ['css']. *)
Example load_map_without_css :
  load_upload_map (Document map_without_css)
  = ([], inr (<["css" := YMapping ∅]> map_without_css)).
Proof. vm_compute. reflexivity. Qed.

(** A category bound to something that is not a mapping is logged as
    critical, and [SystemExit] is raised; but the [except:] around the block
    catches it like any exception, and the run goes on with the canonical
    empty map. *)
Lemma load_not_a_mapping (top : upload_map) key repr :
  key ∈ categories -> top !! key = Some (YOther repr) ->
  load_upload_map (Document top)
  = ([Log CRITICAL "config.yml has an invalid format. Exiting."],
     inr canonical_empty_map).
Proof.
  intros Hin Hl. unfold load_upload_map, load_try.
  pose proof (check_keys_spec categories top) as Hspec. fold categories.
  destruct (for_each check_key categories top) as [tr [x | um]]; simpl.
  - by destruct Hspec as (-> & -> & _).
  - destruct Hspec as (-> & Hall & Hlook).
    destruct (Hall key Hin) as [d Hd]. rewrite Hlook, Hl in Hd. discriminate.
Qed.

(** C4, what the code does: with ['js'] bound to the scalar [5] in the
    stored map, the run logs the critical message, replaces the whole map
    (the stored asset entry included) by the empty one, goes through both
    phases and returns, having uploaded the image and the page. *)
Theorem scalar_section_not_rejected :
  load_upload_map (Document map_with_scalar_js)
  = ([Log CRITICAL "config.yml has an invalid format. Exiting."],
     inr canonical_empty_map)
  /\ outcome (main example_env (Document map_with_scalar_js)) = inr tt
  /\ uploaded_files (trace (main example_env (Document map_with_scalar_js)))
     = ["assets/img/logo.png"]
  /\ uploaded_pages (trace (main example_env (Document map_with_scalar_js)))
     = ["https://2020.igem.org/wiki/index.php?title=Team:MYTEAM&action=edit"].
Proof. vm_compute. repeat split; reflexivity. Qed.

(* ===================================================================== *)
(** * The shape of a run                                                  *)
(* ===================================================================== *)

Lemma bind_trace {A B} (P : event -> Prop) (m : M A) (k : A -> M B) :
  Forall P (fst m) -> (forall a, Forall P (fst (k a))) ->
  Forall P (fst (bind m k)).
Proof.
  intros Hm Hk. destruct m as [tr [x | a]]; simpl in *; [done |].
  specialize (Hk a). destruct (k a) as [tr' r]. simpl in *.
  by apply Forall_app.
Qed.

Lemma for_each_trace {A S} (P : event -> Prop) (body : S -> A -> M S) xs s :
  (forall s x, Forall P (fst (body s x))) ->
  Forall P (fst (for_each body xs s)).
Proof.
  intros Hbody. revert s. induction xs as [|x xs IH]; intros s.
  - constructor.
  - rewrite for_each_cons. by apply bind_trace.
Qed.

Lemma for_each_app {A S} (body : S -> A -> M S) xs ys s :
  for_each body (xs ++ ys) s
  = bind (for_each body xs s) (for_each body ys).
Proof.
  revert s. induction xs as [|x xs IH]; intros s.
  - simpl. by destruct (for_each body ys s).
  - rewrite <- app_comm_cons, !for_each_cons.
    destruct (body s x) as [tr [e | s']]; simpl; [done |].
    rewrite IH. destruct (for_each body xs s') as [tr1 [e | s1]]; simpl.
    + done.
    + destruct (for_each body ys s1) as [tr2 r]. by rewrite app_assoc.
Qed.

Lemma load_upload_map_trace file :
  Forall (fun ev => is_log ev = true) (fst (load_upload_map file)).
Proof.
  destruct file as [| | repr | top]; try (by constructor).
  unfold load_upload_map, load_try.
  pose proof (check_keys_spec ["assets"; "html"; "css"; "js"] top) as H.
  destruct (for_each check_key _ top) as [tr [x | um]]; simpl.
  - destruct H as (_ & -> & _). by repeat constructor.
  - destruct H as (-> & _). constructor.
Qed.

Lemma getitem_trace um key : fst (getitem um key) = [].
Proof. unfold getitem. by destruct (um !! key) as [[] |]. Qed.

Lemma add_to_upload_map_trace um key f : fst (add_to_upload_map um key f) = [].
Proof.
  unfold add_to_upload_map, getitem.
  by destruct (um !! key) as [[d | repr] |].
Qed.

Lemma classify_trace e cfg st infile :
  Forall (fun ev => is_log ev = true) (fst (classify e cfg st infile)).
Proof.
  destruct st as [files um]. unfold classify.
  repeat match goal with
         | |- context [if ?b then _ else _] => destruct b
         end;
    try (apply bind_trace;
         [rewrite add_to_upload_map_trace; constructor | intros; constructor]).
  - destruct (OtherFile.__init__ _ _ _); constructor.
  - by repeat constructor.
Qed.

(** Up to the first upload a run only logs. *)
Lemma prepare_trace e file :
  Forall (fun ev => is_log ev = true) (fst (prepare e file)).
Proof.
  unfold prepare. apply bind_trace.
  { unfold read_config. destruct (config_yml e); by repeat constructor. }
  intros cfg. apply bind_trace; [apply load_upload_map_trace |].
  intros um. apply bind_trace.
  { unfold login. destruct (iGEM_login e); by repeat constructor. }
  intros _. apply bind_trace; [| intros; constructor].
  apply for_each_trace. intros. apply classify_trace.
Qed.

Lemma write_upload_map_eq e um :
  write_upload_map e um
  = (WriteUploadMap um ::
       (if upload_map_writable e then []
        else [Log ERROR "Tried to write upload_map.yml but couldn't."]),
     inr tt).
Proof. unfold write_upload_map. simpl. by destruct (upload_map_writable e). Qed.

(** An asset that goes through is either left alone or uploaded, without a
    word; one that does not ends the run. *)
Lemma upload_or_exit_eq e um f :
  upload_or_exit e um f
  = match iGEM_upload_file e f with
    | Some url => ([UploadFile f], inr (OtherFile.set_upload_URL f url))
    | None =>
        (UploadFile f :: fst (write_upload_map e um)
           ++ [Log DEBUG (failed_to_upload f); Log ERROR (failed_to_upload f)],
         inl SystemExit)
    end.
Proof.
  unfold upload_or_exit. rewrite write_upload_map_eq.
  destruct (iGEM_upload_file e f); simpl; [done |].
  by destruct (upload_map_writable e).
Qed.

Lemma upload_asset_trace e um item :
  match upload_asset e um item with
  | (tr, inr _) => Forall (fun ev => is_asset_event ev = true) tr
  | (tr, inl _) => Forall (fun ev => is_document_event ev = false) tr
  end.
Proof.
  destruct item as [path f]. unfold upload_asset, getitem.
  destruct (um !! "assets") as [[d | repr] |]; simpl; try constructor.
  destruct (d !! Pathlib.str path) as [asset |].
  - destruct (String.eqb _ _); [constructor |].
    rewrite upload_or_exit_eq, write_upload_map_eq.
    destruct (iGEM_upload_file e f); simpl; [by repeat constructor |].
    destruct (upload_map_writable e); by repeat constructor.
  - rewrite upload_or_exit_eq, write_upload_map_eq.
    destruct (iGEM_upload_file e f); simpl; [by repeat constructor |].
    destruct (upload_map_writable e); by repeat constructor.
Qed.

Lemma for_each_upload_asset_trace e items um :
  match for_each (upload_asset e) items um with
  | (tr, inr _) => Forall (fun ev => is_asset_event ev = true) tr
  | (tr, inl _) => Forall (fun ev => is_document_event ev = false) tr
  end.
Proof.
  revert um. induction items as [|item items IH]; intros um.
  - constructor.
  - rewrite for_each_cons. pose proof (upload_asset_trace e um item) as H1.
    destruct (upload_asset e um item) as [tr [x | um']]; simpl; [done |].
    specialize (IH um').
    destruct (for_each (upload_asset e) items um') as [tr' [x | um'']].
    + apply Forall_app. split; [| done].
      eapply Forall_impl; [exact H1 |]. by intros [] ?.
    + by apply Forall_app.
Qed.

(** A document only reads, parses, writes its build file, uploads its page
    and logs. *)
Lemma upload_document_trace e cfg um item :
  Forall (fun ev => is_checkpoint ev = false /\ is_asset_event ev = false)
         (fst (upload_document e cfg um item)).
Proof.
  unfold upload_document. apply bind_trace; [by repeat constructor |].
  intros _. destruct (open_r e _) as [contents |]; [| by repeat constructor].
  apply bind_trace; [by repeat constructor |]. intros _.
  destruct (parse e cfg _ _ contents um) as [processed |]; [| constructor].
  apply bind_trace; [rewrite getitem_trace; constructor |]. intros d.
  destruct (d !! _) as [entry |]; [| constructor].
  destruct (String.eqb _ _); [by repeat constructor |].
  apply bind_trace; [by repeat constructor |]. intros _.
  destruct (write_build e _ processed); [| by repeat constructor].
  apply bind_trace; [by repeat constructor |]. intros _.
  destruct (iGEM_upload_page e processed _); by repeat constructor.
Qed.

Lemma document_phase_trace e cfg files um :
  Forall (fun ev => is_checkpoint ev = false /\ is_asset_event ev = false)
         (fst (document_phase e cfg files um)).
Proof.
  unfold document_phase. apply for_each_trace. intros um' dict.
  apply for_each_trace. intros. apply upload_document_trace.
Qed.

(** [upload_map.yml] along a trace. *)
Lemma file_after_app e file tr1 tr2 :
  file_after e file (tr1 ++ tr2) = file_after e (file_after e file tr1) tr2.
Proof. unfold file_after. apply fold_left_app. Qed.

Lemma file_after_no_checkpoint e file tr :
  Forall (fun ev => is_checkpoint ev = false) tr -> file_after e file tr = file.
Proof.
  unfold file_after. induction 1 as [|ev tr Hev Htr IH]; [done |].
  simpl. by destruct ev.
Qed.

(** [main], phase by phase. *)
Lemma main_unfold e file :
  main e file
  = match prepare e file with
    | (tr0, inl x) => (tr0, inl x)
    | (tr0, inr (cfg, (files, um0))) =>
        match asset_phase e files um0 with
        | (tr1, inl x) => (tr0 ++ tr1, inl x)
        | (tr1, inr um1) =>
            match document_phase e cfg files um1 with
            | (tr2, inl x) =>
                (tr0 ++ tr1 ++ fst (write_upload_map e um1) ++ tr2, inl x)
            | (tr2, inr um2) =>
                (tr0 ++ tr1 ++ fst (write_upload_map e um1) ++ tr2
                     ++ fst (write_upload_map e um2), inr tt)
            end
        end
    end.
Proof.
  unfold main. destruct (prepare e file) as [tr0 [x | [cfg [files um0]]]];
    simpl; [done |].
  destruct (asset_phase e files um0) as [tr1 [x | um1]]; simpl; [done |].
  rewrite !write_upload_map_eq. simpl.
  destruct (document_phase e cfg files um1) as [tr2 [x | um2]]; simpl.
  - reflexivity.
  - rewrite write_upload_map_eq. reflexivity.
Qed.




Lemma log_is_no_document_event tr :
  Forall (fun ev => is_log ev = true) tr ->
  Forall (fun ev => is_document_event ev = false /\ is_checkpoint ev = false
                    /\ is_asset_event ev = false) tr.
Proof. intros H. eapply Forall_impl; [exact H |]. by intros []. Qed.






(* ===================================================================== *)
(** * The asset phase (main.py, lines 167-219)                            *)
(* ===================================================================== *)

Lemma for_each_invariant {A S} (I : S -> Prop) (body : S -> A -> M S) xs :
  (forall s x tr s', I s -> body s x = (tr, inr s') -> I s') ->
  forall s tr s', I s -> for_each body xs s = (tr, inr s') -> I s'.
Proof.
  intros Hbody. induction xs as [|x xs IH]; intros s tr s' Hs Hrun.
  - simpl in Hrun. by injection Hrun as _ <-.
  - rewrite for_each_cons in Hrun.
    destruct (body s x) as [tr1 [e | s1]] eqn:Hx; simpl in Hrun; [done |].
    destruct (for_each body xs s1) as [tr2 r] eqn:Hxs.
    injection Hrun as _ ->. eapply IH; [| exact Hxs]. eauto.
Qed.

(** Binding a key keeps the keys distinct, and every key bound once. *)
Lemma dict_assign_keys {V} (k : Path) (v : V) (d : list (Path * V)) :
  List.map fst (dict_assign k v d)
  = if decide (k ∈ List.map fst d) then List.map fst d
    else List.map fst d ++ [k].
Proof.
  induction d as [|[k' v'] d IH].
  - destruct (decide (k ∈ List.map fst (@nil (Path * V)))) as [H | H];
      [by apply elem_of_nil in H | done].
  - change (dict_assign k v ((k', v') :: d))
      with (if decide (k' = k) then (k', v) :: d
            else (k', v') :: dict_assign k v d).
    change (List.map fst ((k', v') :: d)) with (k' :: List.map fst d).
    destruct (decide (k' = k)) as [-> | Hne].
    + rewrite decide_True; [done | apply list_elem_of_here].
    + change (List.map fst ((k', v') :: dict_assign k v d))
        with (k' :: List.map fst (dict_assign k v d)).
      rewrite IH. destruct (decide (k ∈ List.map fst d)) as [Hin | Hnin].
      * rewrite decide_True; [done | by apply list_elem_of_further].
      * rewrite decide_False; [done |].
        intros [? | ?]%elem_of_cons; done.
Qed.

Lemma dict_assign_values {V} (P : Path -> V -> Prop) k v (d : list (Path * V)) :
  P k v -> Forall (fun kv => P (fst kv) (snd kv)) d ->
  Forall (fun kv => P (fst kv) (snd kv)) (dict_assign k v d).
Proof.
  intros Hkv. induction 1 as [|[k' v'] d Hx Hd IH]; simpl.
  - by repeat constructor.
  - destruct (decide (k' = k)) as [-> | Hne]; constructor; done.
Qed.

Lemma dict_assign_NoDup {V} k (v : V) (d : list (Path * V)) :
  NoDup (List.map fst d) -> NoDup (List.map fst (dict_assign k v d)).
Proof.
  intros Hd. rewrite dict_assign_keys. destruct (decide _); [done |].
  apply NoDup_app. split; [done | split].
  - intros x Hx ->%list_elem_of_singleton. done.
  - apply NoDup_singleton.
Qed.

Lemma OtherFile_init_path path cfg open_rb f :
  OtherFile.__init__ path cfg open_rb = Some f ->
  BaseFile.path (OtherFile.base f) = path.
Proof.
  unfold OtherFile.__init__. destruct (open_rb _); [| done].
  simpl. by intros [= <-].
Qed.

(** The assets stored by the classification: each one once, under its own
    path. *)
Lemma classify_OtherFiles e cfg st infile tr st' :
  NoDup (List.map fst (OtherFiles (fst st)))
  /\ Forall (fun kv => BaseFile.path (OtherFile.base (snd kv)) = fst kv)
            (OtherFiles (fst st)) ->
  classify e cfg st infile = (tr, inr st') ->
  NoDup (List.map fst (OtherFiles (fst st')))
  /\ Forall (fun kv => BaseFile.path (OtherFile.base (snd kv)) = fst kv)
            (OtherFiles (fst st')).
Proof.
  destruct st as [files um]. simpl. intros [Hnd Hall]. unfold classify.
  repeat match goal with
         | |- context [if ?b then _ else _] => destruct b
         end.
  1-3: destruct (add_to_upload_map um _ _) as [tr1 [x | um']]; simpl;
       [done | by intros [= _ <-]].
  - destruct (OtherFile.__init__ infile cfg (open_rb e)) as [f |] eqn:Hf;
      [| done].
    simpl. intros [= _ <-]. simpl.
    apply OtherFile_init_path in Hf. rewrite Hf. split.
    + by apply dict_assign_NoDup.
    + by apply (dict_assign_values
                  (fun k v => BaseFile.path (OtherFile.base v) = k)).
  - simpl. by intros [= _ <-].
Qed.

Lemma prepare_OtherFiles e file tr0 cfg files um0 :
  prepare e file = (tr0, inr (cfg, (files, um0))) ->
  NoDup (List.map fst (OtherFiles files))
  /\ Forall (fun kv => BaseFile.path (OtherFile.base (snd kv)) = fst kv)
            (OtherFiles files).
Proof.
  unfold prepare. intros H.
  destruct (read_config e) as [t1 [x | cfg']]; simpl in H; [done |].
  destruct (load_upload_map file) as [t2 [x | um]]; simpl in H; [done |].
  destruct (login e) as [t3 [x | []]]; simpl in H; [done |].
  destruct (for_each (classify e cfg') (os_walk e) (empty_storage, um))
    as [t4 [x | st]] eqn:Hcl; simpl in H; [done |].
  injection H as _ _ ->.
  pose proof (for_each_invariant
    (fun st : storage * upload_map =>
       NoDup (List.map fst (OtherFiles (fst st)))
       /\ Forall (fun kv => BaseFile.path (OtherFile.base (snd kv)) = fst kv)
                 (OtherFiles (fst st)))
    (classify e cfg') (os_walk e)) as Hinv.
  specialize (Hinv (fun s x tr s' => classify_OtherFiles e cfg' s x tr s')).
  apply (Hinv (empty_storage, um) t4 (files, um0)); [| exact Hcl].
  split; [apply NoDup_nil_2 | apply Forall_nil_2].
Qed.

(** The uploads of the asset phase are those of the assets it goes through. *)
Lemma for_each_upload_asset_events e items um tr r f :
  for_each (upload_asset e) items um = (tr, r) ->
  UploadFile f ∈ tr -> f ∈ List.map snd items.
Proof.
  revert um tr. induction items as [|[p g] items IH]; intros um tr Hrun Hin.
  - simpl in Hrun. injection Hrun as <- _. by apply elem_of_nil in Hin.
  - rewrite for_each_cons in Hrun. simpl.
    assert (Hg : forall tr1 r1, upload_asset e um (p, g) = (tr1, r1) ->
                 UploadFile f ∈ tr1 -> f = g).
    { intros tr1 r1. unfold upload_asset, getitem.
      destruct (um !! "assets") as [[d | repr] |]; simpl;
        try (intros [= <- _] H; by apply elem_of_nil in H).
      destruct (d !! Pathlib.str p) as [asset |];
        [destruct (String.eqb _ _);
         [intros [= <- _] H; by apply elem_of_nil in H |] |];
        rewrite upload_or_exit_eq, write_upload_map_eq;
        destruct (iGEM_upload_file e g); simpl;
        intros [= <- _]; destruct (upload_map_writable e); simpl;
        intros H; repeat (apply elem_of_cons in H as [H | H];
                          [by simplify_eq |]);
        by apply elem_of_nil in H. }
    destruct (upload_asset e um (p, g)) as [tr1 [x | um']] eqn:Hx;
      simpl in Hrun.
    + injection Hrun as <- _. rewrite (Hg _ _ eq_refl Hin).
      apply list_elem_of_here.
    + destruct (for_each (upload_asset e) items um') as [tr2 r2] eqn:Hxs.
      injection Hrun as <- ->. apply elem_of_app in Hin as [Hin | Hin].
      * rewrite (Hg _ _ eq_refl Hin). apply list_elem_of_here.
      * apply list_elem_of_further. by eapply IH.
Qed.

(** An asset that is to be uploaded and that the remote refuses. *)
Lemma upload_asset_refused e um item :
  to_upload um item = true -> iGEM_upload_file e (snd item) = None ->
  upload_asset e um item
  = (UploadFile (snd item) :: fst (write_upload_map e um)
       ++ [Log DEBUG (failed_to_upload (snd item));
           Log ERROR (failed_to_upload (snd item))],
     inl SystemExit).
Proof.
  destruct item as [path f]. unfold to_upload, upload_asset, getitem. simpl.
  intros Hup Hno.
  destruct (um !! "assets") as [[d | repr] |]; simpl; [| done | done].
  destruct (d !! Pathlib.str path) as [asset |].
  - destruct (String.eqb _ _); [done |].
    by rewrite upload_or_exit_eq, Hno.
  - by rewrite upload_or_exit_eq, Hno.
Qed.

(** An asset that is to be uploaded is not among the assets before it. *)
Lemma asset_not_before (items before after : list (Path * OtherFile.t)) item :
  NoDup (List.map fst items) ->
  Forall (fun kv => BaseFile.path (OtherFile.base (snd kv)) = fst kv) items ->
  items = before ++ item :: after ->
  snd item ∉ List.map snd before.
Proof.
  intros Hnd Hall -> Hin.
  apply list_elem_of_fmap in Hin as ([p g] & Hg & Hin). simpl in Hg. subst g.
  apply Forall_app in Hall as [Hb Ha].
  apply Forall_cons in Ha as [Hitem _].
  rewrite Forall_forall in Hb. specialize (Hb _ Hin). simpl in Hb.
  rewrite List.map_app in Hnd. apply NoDup_app in Hnd as (_ & Hdisj & _).
  apply (Hdisj p).
  - apply list_elem_of_fmap. by exists (p, snd item).
  - simpl. rewrite <- Hitem, Hb. apply list_elem_of_here.
Qed.

(** C3. When the remote refuses an asset that the asset phase uploads, the
    run logs nothing more than the failure and ends with [SystemExit]: after
    the events of the preparation and of the assets that went through, it
    calls the upload once, saves the upload map as those assets left it,
    logs the error and stops; no other asset and no document is touched, the
    refused upload was not tried before and is not tried again, and (when the
    file can be written) [upload_map.yml] holds that map. But the
    [SystemExit] is raised without a code: the process exits with status 0,
    as after a run in which everything went well, and not with an error. *)
Theorem asset_upload_failure_is_fatal (e : env) (file : map_file)
    (tr0 tr1 : list event) (cfg : config) (files : storage)
    (um0 um1 : upload_map) (before after : list (Path * OtherFile.t))
    (item : Path * OtherFile.t) :
  prepare e file = (tr0, inr (cfg, (files, um0))) ->
  OtherFiles files = before ++ item :: after ->
  for_each (upload_asset e) before um0 = (tr1, inr um1) ->
  to_upload um1 item = true ->
  iGEM_upload_file e (snd item) = None ->
  main e file
  = (tr0 ++ tr1
       ++ [UploadFile (snd item); WriteUploadMap um1]
       ++ (if upload_map_writable e then []
           else [Log ERROR "Tried to write upload_map.yml but couldn't."])
       ++ [Log DEBUG (failed_to_upload (snd item));
           Log ERROR (failed_to_upload (snd item))],
     inl SystemExit)
  /\ (UploadFile (snd item) ∉ (tr0 ++ tr1))
  /\ run e file = (if upload_map_writable e then Document um1 else file)
  /\ exit_status (outcome (main e file)) = 0
  /\ exit_status (outcome (main e file)) = exit_status (inr tt).
Proof.
  intros Hprep Hfiles Hbefore Hup Hno.
  assert (Hmain : main e file
    = (tr0 ++ tr1
         ++ [UploadFile (snd item); WriteUploadMap um1]
         ++ (if upload_map_writable e then []
             else [Log ERROR "Tried to write upload_map.yml but couldn't."])
         ++ [Log DEBUG (failed_to_upload (snd item));
             Log ERROR (failed_to_upload (snd item))],
       inl SystemExit)).
  { rewrite main_unfold, Hprep. unfold asset_phase.
    rewrite Hfiles, for_each_app, (bind_inr _ _ _ _ Hbefore).
    rewrite for_each_cons.
    rewrite (bind_inl _ _ _ _ (upload_asset_refused e um1 item Hup Hno)).
    rewrite write_upload_map_eq. reflexivity. }
  assert (Hfresh : UploadFile (snd item) ∉ (tr0 ++ tr1)).
  { intros [Hin | Hin]%elem_of_app.
    - pose proof (prepare_trace e file) as H0. rewrite Hprep in H0.
      rewrite Forall_forall in H0. by specialize (H0 _ Hin).
    - apply (for_each_upload_asset_events e before um0 tr1 _ _ Hbefore) in Hin.
      destruct (prepare_OtherFiles e file _ _ _ _ Hprep) as [Hnd Hall].
      by eapply asset_not_before. }
  split; [exact Hmain | split; [exact Hfresh | split]].
  2: { unfold outcome. rewrite Hmain. split; reflexivity. }
  unfold run, trace. rewrite Hmain. simpl fst.
  rewrite !file_after_app.
  rewrite (file_after_no_checkpoint e file tr0).
  2: { pose proof (prepare_trace e file) as H0. rewrite Hprep in H0.
       eapply Forall_impl; [exact H0 |]. by intros []. }
  rewrite (file_after_no_checkpoint e file tr1).
  2: { pose proof (for_each_upload_asset_trace e before um0) as H1.
       rewrite Hbefore in H1. eapply Forall_impl; [exact H1 |]. by intros []. }
  unfold file_after. simpl. destruct (upload_map_writable e); reflexivity.
Qed.

(** The run of the example tree against a remote that refuses the image. *)
Lemma asset_upload_failure_is_fatal_witness :
  (prepare assets_refused_env Missing
   = ([], inr (example_config, (example_storage, classified_map)))
   /\ OtherFiles example_storage = [] ++ logo_item :: []
   /\ for_each (upload_asset assets_refused_env) [] classified_map
      = ([], inr classified_map)
   /\ to_upload classified_map logo_item = true
   /\ iGEM_upload_file assets_refused_env (snd logo_item) = None)
  /\ main assets_refused_env Missing
     = ([UploadFile logo_file; WriteUploadMap classified_map;
         Log DEBUG (failed_to_upload logo_file);
         Log ERROR (failed_to_upload logo_file)], inl SystemExit)
  /\ run assets_refused_env Missing = Document classified_map
  /\ exit_status (outcome (main assets_refused_env Missing)) = 0.
Proof.
  assert (H1 : prepare assets_refused_env Missing
               = ([], inr (example_config, (example_storage, classified_map))))
    by (vm_compute; reflexivity).
  assert (H2 : OtherFiles example_storage = [] ++ logo_item :: [])
    by reflexivity.
  assert (H3 : for_each (upload_asset assets_refused_env) [] classified_map
               = ([], inr classified_map)) by reflexivity.
  assert (H4 : to_upload classified_map logo_item = true)
    by (vm_compute; reflexivity).
  assert (H5 : iGEM_upload_file assets_refused_env (snd logo_item) = None)
    by reflexivity.
  pose proof (asset_upload_failure_is_fatal assets_refused_env Missing
                [] [] example_config example_storage classified_map
                classified_map [] [] logo_item H1 H2 H3 H4 H5) as H.
  split; [by repeat split |].
  split; [exact (proj1 H) |].
  split; [exact (proj1 (proj2 (proj2 H))) |].
  exact (proj1 (proj2 (proj2 (proj2 H)))).
Defined.

(* ===================================================================== *)
(** * The document phase (main.py, lines 225-289)                         *)
(* ===================================================================== *)

(** Entering a document in the upload map tests the path object against the
    string keys of the category, which never holds it: whatever is stored
    for the document, its record is bound anew, with an empty digest. *)
Lemma add_to_upload_map_resets (um : upload_map) key (f : CodeFile) d :
  um !! key = Some (YMapping d) ->
  add_to_upload_map um key f
  = ([], inr (setitem um key d (Pathlib.str (BaseFile.path (base f)))
                {| Entry.md5 := ""; Entry.link_URL := link_URL f;
                   Entry.upload_filename := None |})).
Proof. intros H. unfold add_to_upload_map, getitem. by rewrite H. Qed.

(** A document whose stored digest differs from that of its processed
    text: the new digest is stored whatever becomes of the build file and of
    the upload, which are attempted afterwards. *)
Lemma upload_document_stores_digest e cfg (um : upload_map) item contents
    processed d entry :
  let f := snd item in
  let path := BaseFile.path (base f) in
  let ext := BaseFile.extension (base f) in
  let build_hash := Hashlib.md5_hexdigest (Hashlib.encode processed) in
  open_r e (BaseFile.src_path (base f)) = Some contents ->
  parse e cfg ext path contents um = Some processed ->
  um !! ext = Some (YMapping d) ->
  d !! Pathlib.str path = Some entry ->
  Entry.md5 entry <> build_hash ->
  snd (upload_document e cfg um item)
  = inr (setitem um ext d (Pathlib.str path)
           {| Entry.md5 := build_hash;
              Entry.link_URL := Entry.link_URL entry;
              Entry.upload_filename := Entry.upload_filename entry |})
  /\ exists rest,
       fst (upload_document e cfg um item)
       = [ReadSource (BaseFile.src_path (base f)); CallParser ext path;
          WriteBuild (BaseFile.build_path (base f)) processed] ++ rest
       /\ Forall (fun ev => is_log ev = true \/ exists c u, ev = UploadPage c u)
                 rest.
Proof.
  intros f path ext build_hash Hread Hparse Hext Hentry Hne.
  unfold upload_document. fold f. fold path. fold ext.
  rewrite Hread. simpl. rewrite Hparse. unfold getitem. rewrite Hext. simpl.
  rewrite Hentry. fold build_hash.
  rewrite (eqb_false_of_ne _ _ Hne). simpl.
  assert (Hrest : forall rest,
            Forall (fun ev => is_log ev = true
                              \/ exists c u, ev = UploadPage c u) rest ->
            exists rest',
              [ReadSource (BaseFile.src_path (base f)); CallParser ext path;
               WriteBuild (BaseFile.build_path (base f)) processed] ++ rest
              = [ReadSource (BaseFile.src_path (base f)); CallParser ext path;
                 WriteBuild (BaseFile.build_path (base f)) processed] ++ rest'
              /\ Forall (fun ev => is_log ev = true
                                  \/ exists c u, ev = UploadPage c u) rest')
    by (intros rest Hr; by exists rest).
  destruct (write_build e _ processed); simpl.
  - destruct (iGEM_upload_page e processed _); simpl.
    + split; [done |]. apply (Hrest [UploadPage _ _]).
      apply Forall_cons_2; [right; eauto | apply Forall_nil_2].
    + split; [done |]. apply (Hrest [UploadPage _ _; Log _ _]).
      apply Forall_cons_2; [right; eauto |].
      apply Forall_cons_2; [by left | apply Forall_nil_2].
  - split; [done |]. apply (Hrest [Log _ _]).
    apply Forall_cons_2; [by left | apply Forall_nil_2].
Qed.

(** A document entered with the empty digest is never found unchanged. *)
Lemma empty_digest_differs processed :
  "" <> Hashlib.md5_hexdigest (Hashlib.encode processed).
Proof. intros H. symmetry in H. by apply md5_hexdigest_not_empty in H. Qed.

(** C1, what the code does: the example tree is synchronised from
    scratch, everything going well, and synchronised again, nothing having
    changed. The first run uploads the image and the page. The second run
    leaves the image alone and saves the same map, but it uploads the page
    once more: the classification has emptied its stored digest. *)
Theorem second_run_uploads_documents_again :
  let first := main example_env Missing in
  let second := main example_env (run example_env Missing) in
  outcome first = inr tt
  /\ uploaded_files (trace first) = ["assets/img/logo.png"]
  /\ uploaded_pages (trace first) = [index_upload_URL]
  /\ outcome second = inr tt
  /\ uploaded_files (trace second) = []
  /\ uploaded_pages (trace second) = [index_upload_URL]
  /\ run example_env (run example_env Missing) = run example_env Missing.
Proof. vm_compute. repeat split; reflexivity. Qed.

(** C10, what the code does: the example tree is synchronised against a
    remote that refuses the page. The upload is attempted and fails, the
    failure is logged and the run returns; the map saved at the end records
    the digest of the page. The next run, nothing having changed, does not
    find the page unchanged: it attempts the upload again. *)
Theorem failed_upload_is_retried :
  let first := main pages_refused_env Missing in
  let second := main pages_refused_env (run pages_refused_env Missing) in
  outcome first = inr tt
  /\ uploaded_pages (trace first) = [index_upload_URL]
  /\ logged (trace first) = [(INFO, "Couldn't upload index.html. Skipping.")]
  /\ (exists um,
        run pages_refused_env Missing = Document um
        /\ um !! "html"
           = Some (YMapping
                     {[ "index.html" :=
                          index_entry "c83301425b2ad1d496473a5ff3d9ecca" ]}))
  /\ Hashlib.md5_hexdigest (Hashlib.encode "<html></html>")
     = "c83301425b2ad1d496473a5ff3d9ecca"
  /\ uploaded_pages (trace second) = [index_upload_URL]
  /\ logged (trace second) = [(INFO, "Couldn't upload index.html. Skipping.")].
Proof.
  vm_compute. repeat split; try reflexivity.
  eexists. split; reflexivity.
Qed.

(* ===================================================================== *)
(** * No document is ever found unchanged                                 *)
(* ===================================================================== *)

Lemma dict_assign_elem {V} (k : Path) (v : V) d p g :
  (p, g) ∈ dict_assign k v d -> p = k \/ (p, g) ∈ d.
Proof.
  induction d as [|[k' v'] d IH].
  - simpl. intros H%list_elem_of_singleton. injection H as -> _. by left.
  - change (dict_assign k v ((k', v') :: d))
      with (if decide (k' = k) then (k', v) :: d
            else (k', v') :: dict_assign k v d).
    destruct (decide (k' = k)) as [-> | Hne].
    + intros [[= -> ->] | Hin]%elem_of_cons; [by left |].
      right. by apply list_elem_of_further.
    + intros [[= -> ->] | Hin]%elem_of_cons.
      * right. apply list_elem_of_here.
      * destruct (IH Hin) as [-> | Hd]; [by left |].
        right. by apply list_elem_of_further.
Qed.

Lemma all_reset_same_section (um um' : upload_map) key dict :
  um' !! key = um !! key -> all_reset um key dict -> all_reset um' key dict.
Proof.
  intros Heq Hall p f Hin. destruct (Hall p f Hin) as (d & entry & ? & ? & ?).
  exists d, entry. by rewrite Heq.
Qed.

Lemma category_ok_same_section walked (um um' : upload_map) key dict :
  um' !! key = um !! key ->
  category_ok walked um key dict -> category_ok walked um' key dict.
Proof.
  intros Heq (? & ? & ?). repeat split; [done | done |].
  by eapply all_reset_same_section.
Qed.

(** Entering a document keeps its category in order, and leaves the other
    categories as they are. *)
Lemma add_to_upload_map_category walked (um : upload_map) key f tr um' dict :
  BaseFile.path (base f) ∈ walked ->
  BaseFile.extension (base f) = key ->
  category_ok walked um key dict ->
  add_to_upload_map um key f = (tr, inr um') ->
  category_ok walked um' key (dict_assign (BaseFile.path (base f)) f dict)
  /\ forall key', key' <> key -> um' !! key' = um !! key'.
Proof.
  intros Hw Hext (Hnd & Hall & Hreset). unfold add_to_upload_map, getitem.
  destruct (um !! key) as [[d | repr] |] eqn:Hkey; simpl; [| done | done].
  intros [= _ <-]. split.
  - repeat split.
    + by apply dict_assign_NoDup.
    + by apply (dict_assign_values
                  (fun k v => k ∈ walked /\ BaseFile.path (base v) = k
                              /\ BaseFile.extension (base v) = key)).
    + intros p g Hin. unfold setitem. rewrite lookup_insert_eq.
      destruct (decide (Pathlib.str p = Pathlib.str (BaseFile.path (base f))))
        as [Hs | Hs].
      * eexists _, _. split; [reflexivity |].
        rewrite Hs, lookup_insert_eq. done.
      * apply dict_assign_elem in Hin as [-> | Hin]; [done |].
        destruct (Hreset p g Hin) as (d' & entry & Hd' & Hp & Hm).
        rewrite Hkey in Hd'. injection Hd' as <-.
        exists (<[Pathlib.str (BaseFile.path (base f)) :=
                  {| Entry.md5 := ""; Entry.link_URL := link_URL f;
                     Entry.upload_filename := None |}]> d), entry.
        split; [done |]. by rewrite lookup_insert_ne.
  - intros key' Hne. unfold setitem. by rewrite lookup_insert_ne.
Qed.

(** The three categories after each step of the classification. *)
Lemma classify_categories e cfg st infile tr st' :
  infile ∈ os_walk e ->
  (category_ok (os_walk e) (snd st) "html" (HTMLfiles (fst st))
   /\ category_ok (os_walk e) (snd st) "css" (CSSfiles (fst st))
   /\ category_ok (os_walk e) (snd st) "js" (JSfiles (fst st))) ->
  classify e cfg st infile = (tr, inr st') ->
  category_ok (os_walk e) (snd st') "html" (HTMLfiles (fst st'))
  /\ category_ok (os_walk e) (snd st') "css" (CSSfiles (fst st'))
  /\ category_ok (os_walk e) (snd st') "js" (JSfiles (fst st')).
Proof.
  destruct st as [files um]. simpl. intros Hw (Hh & Hc & Hj). unfold classify.
  destruct (String.eqb _ "html") eqn:Eh.
  { apply String.eqb_eq in Eh.
    destruct (add_to_upload_map um "html" (HTMLfile infile cfg))
      as [tr1 [x | um']] eqn:Hadd; simpl; [done |].
    intros [= _ <-]. simpl.
    destruct (add_to_upload_map_category (os_walk e) um "html"
                (HTMLfile infile cfg) tr1 um' (HTMLfiles files) Hw Eh Hh Hadd)
      as [Hh' Hother].
    split; [exact Hh' |].
    split; eapply category_ok_same_section; try eassumption;
      by apply Hother. }
  destruct (String.eqb _ "css") eqn:Ec.
  { apply String.eqb_eq in Ec.
    destruct (add_to_upload_map um "css" (CSSfile infile cfg))
      as [tr1 [x | um']] eqn:Hadd; simpl; [done |].
    intros [= _ <-]. simpl.
    destruct (add_to_upload_map_category (os_walk e) um "css"
                (CSSfile infile cfg) tr1 um' (CSSfiles files) Hw Ec Hc Hadd)
      as [Hc' Hother].
    split; [| split; [exact Hc' |]];
      eapply category_ok_same_section; try eassumption; by apply Hother. }
  destruct (String.eqb _ "js") eqn:Ej.
  { apply String.eqb_eq in Ej.
    destruct (add_to_upload_map um "js" (JSfile infile cfg))
      as [tr1 [x | um']] eqn:Hadd; simpl; [done |].
    intros [= _ <-]. simpl.
    destruct (add_to_upload_map_category (os_walk e) um "js"
                (JSfile infile cfg) tr1 um' (JSfiles files) Hw Ej Hj Hadd)
      as [Hj' Hother].
    split; [| split; [| exact Hj']];
      eapply category_ok_same_section; try eassumption; by apply Hother. }
  match goal with |- context [if ?b then _ else _] => destruct b end.
  - destruct (OtherFile.__init__ infile cfg (open_rb e)); [| done].
    simpl. by intros [= _ <-].
  - simpl. by intros [= _ <-].
Qed.

Lemma for_each_invariant_in {A S} (I : S -> Prop) (body : S -> A -> M S) xs :
  (forall s x tr s', x ∈ xs -> I s -> body s x = (tr, inr s') -> I s') ->
  forall s tr s', I s -> for_each body xs s = (tr, inr s') -> I s'.
Proof.
  induction xs as [|x xs IH]; intros Hbody s tr s' Hs Hrun.
  - simpl in Hrun. by injection Hrun as _ <-.
  - rewrite for_each_cons in Hrun.
    destruct (body s x) as [tr1 [e | s1]] eqn:Hx; simpl in Hrun; [done |].
    destruct (for_each body xs s1) as [tr2 r] eqn:Hxs.
    injection Hrun as _ ->. eapply IH; [| | exact Hxs].
    + intros. eapply Hbody; [by apply list_elem_of_further | done..].
    + eapply Hbody; [apply list_elem_of_here | done..].
Qed.

Lemma category_ok_nil walked um key : category_ok walked um key [].
Proof.
  repeat split; [apply NoDup_nil_2 | apply Forall_nil_2 |].
  intros p f Hin. by apply elem_of_nil in Hin.
Qed.

(** After the preparation every document stored has its record reset,
    whatever [upload_map.yml] held. *)
Lemma prepare_categories e file tr0 cfg files um0 :
  prepare e file = (tr0, inr (cfg, (files, um0))) ->
  category_ok (os_walk e) um0 "html" (HTMLfiles files)
  /\ category_ok (os_walk e) um0 "css" (CSSfiles files)
  /\ category_ok (os_walk e) um0 "js" (JSfiles files).
Proof.
  unfold prepare. intros H.
  destruct (read_config e) as [t1 [x | cfg']]; simpl in H; [done |].
  destruct (load_upload_map file) as [t2 [x | um]]; simpl in H; [done |].
  destruct (login e) as [t3 [x | []]]; simpl in H; [done |].
  destruct (for_each (classify e cfg') (os_walk e) (empty_storage, um))
    as [t4 [x | st]] eqn:Hcl; simpl in H; [done |].
  injection H as _ _ ->.
  pose proof (for_each_invariant_in
    (fun st : storage * upload_map =>
       category_ok (os_walk e) (snd st) "html" (HTMLfiles (fst st))
       /\ category_ok (os_walk e) (snd st) "css" (CSSfiles (fst st))
       /\ category_ok (os_walk e) (snd st) "js" (JSfiles (fst st)))
    (classify e cfg') (os_walk e)
    (fun s x tr s' Hx => classify_categories e cfg' s x tr s' Hx)
    (empty_storage, um) t4 (files, um0)) as Hinv.
  simpl in Hinv. apply Hinv; [| exact Hcl].
  split; [| split]; apply category_ok_nil.
Qed.

(** The asset phase leaves the categories of the documents alone. *)
Lemma upload_asset_other_sections e um item tr um' key :
  key <> "assets" -> upload_asset e um item = (tr, inr um') ->
  um' !! key = um !! key.
Proof.
  intros Hne. destruct item as [path f]. unfold upload_asset, getitem.
  destruct (um !! "assets") as [[d | repr] |]; simpl; [| done | done].
  destruct (d !! Pathlib.str path) as [asset |].
  - destruct (String.eqb _ _); [by intros [= _ <-] |].
    rewrite upload_or_exit_eq. destruct (iGEM_upload_file e f); [| done].
    simpl. intros [= _ <-]. unfold setitem. by rewrite lookup_insert_ne.
  - rewrite upload_or_exit_eq. destruct (iGEM_upload_file e f); [| done].
    simpl. intros [= _ <-]. unfold setitem. by rewrite lookup_insert_ne.
Qed.

Lemma asset_phase_other_sections e files um tr um' key :
  key <> "assets" -> asset_phase e files um = (tr, inr um') ->
  um' !! key = um !! key.
Proof.
  intros Hne. unfold asset_phase.
  apply (for_each_invariant (fun s : upload_map => s !! key = um !! key)
           (upload_asset e) (OtherFiles files)); [| done].
  intros s x tr1 s' Hs Hx.
  by rewrite (upload_asset_other_sections e s x tr1 s' key Hne Hx).
Qed.

Lemma parsed_app tr1 tr2 : parsed (tr1 ++ tr2) = parsed tr1 ++ parsed tr2.
Proof. unfold parsed. apply flat_map_app. Qed.

Lemma written_app tr1 tr2 : written (tr1 ++ tr2) = written tr1 ++ written tr2.
Proof. unfold written. apply flat_map_app. Qed.

Lemma parse_category e cfg ext path contents um :
  ext ∈ ["html"; "css"; "js"] ->
  exists processed, parse e cfg ext path contents um = Some processed.
Proof.
  intros H. unfold parse.
  repeat (apply elem_of_cons in H as [-> | H]; [simpl; eauto |]).
  by apply elem_of_nil in H.
Qed.

(** One document whose record is reset: it is read; if that works it is
    parsed and its build file written, and its record alone changes. *)
Lemma upload_document_reset e cfg (um : upload_map) p f key d entry :
  BaseFile.path (base f) = p ->
  BaseFile.extension (base f) = key ->
  key ∈ ["html"; "css"; "js"] ->
  um !! key = Some (YMapping d) ->
  d !! Pathlib.str p = Some entry ->
  Entry.md5 entry = "" ->
  exists tr um',
    upload_document e cfg um (p, f) = (tr, inr um')
    /\ length (written tr) = length (parsed tr)
    /\ (um' = um
        \/ exists entry', um' = setitem um key d (Pathlib.str p) entry').
Proof.
  intros Hp Hext Hkey Hd Hentry Hmd5.
  unfold upload_document. simpl snd. rewrite Hp, Hext.
  destruct (open_r e _) as [contents |]; simpl.
  2: { eexists _, _. split; [reflexivity |]. split; [done | by left]. }
  destruct (parse_category e cfg key p contents um Hkey) as [processed ->].
  unfold getitem. rewrite Hd. simpl. rewrite Hentry, Hmd5.
  rewrite (eqb_false_of_ne _ _ (empty_digest_differs processed)).
  destruct (write_build e _ processed); simpl.
  - destruct (iGEM_upload_page e processed _); simpl;
      eexists _, _; (split; [reflexivity |]); (split; [done |]);
      right; eauto.
  - eexists _, _. split; [reflexivity |]. split; [done |]. right; eauto.
Qed.

(** The documents of one category, each record reset and no two of them
    under the same path string: none is skipped, and the other categories
    are left alone. *)
Lemma upload_documents_reset e cfg key (dict : list (Path * CodeFile)) :
  key ∈ ["html"; "css"; "js"] ->
  (forall p q, p ∈ os_walk e -> q ∈ os_walk e ->
               Pathlib.str p = Pathlib.str q -> p = q) ->
  forall um : upload_map,
    category_ok (os_walk e) um key dict ->
    exists tr um',
      for_each (upload_document e cfg) dict um = (tr, inr um')
      /\ length (written tr) = length (parsed tr)
      /\ forall key', key' <> key -> um' !! key' = um !! key'.
Proof.
  intros Hkey Hinj. induction dict as [|[p f] dict IH]; intros um Hok.
  - exists [], um. done.
  - destruct Hok as (Hnd & Hall & Hreset).
    apply NoDup_cons in Hnd as [Hp_fresh Hnd].
    apply Forall_cons in Hall as [(Hpw & Hpath & Hext) Hall].
    simpl in Hpw, Hpath, Hext.
    destruct (Hreset p f) as (d & entry & Hd & Hentry & Hmd5);
      [apply list_elem_of_here |].
    destruct (upload_document_reset e cfg um p f key d entry
                Hpath Hext Hkey Hd Hentry Hmd5)
      as (tr1 & um1 & Hrun1 & Hcount1 & Hum1).
    assert (Hok1 : category_ok (os_walk e) um1 key dict).
    { repeat split; [done | done |]. intros q g Hin.
      destruct (Hreset q g) as (d' & entry' & Hd' & Hq & Hm);
        [by apply list_elem_of_further |].
      rewrite Hd in Hd'. injection Hd' as <-.
      destruct Hum1 as [-> | [entry1 ->]]; [by exists d, entry' |].
      unfold setitem. rewrite lookup_insert_eq.
      eexists _, entry'. split; [reflexivity |]. split; [| done].
      rewrite lookup_insert_ne; [done |]. intros Hs.
      rewrite Forall_forall in Hall. destruct (Hall _ Hin) as (Hqw & _).
      simpl in Hqw. apply Hinj in Hs; [| done | done]. subst q.
      apply Hp_fresh. apply list_elem_of_fmap. by exists (p, g). }
    destruct (IH um1 Hok1) as (tr2 & um2 & Hrun2 & Hcount2 & Hum2).
    exists (tr1 ++ tr2), um2. split; [| split].
    + rewrite for_each_cons, (bind_inr _ _ _ _ Hrun1), Hrun2. done.
    + rewrite written_app, parsed_app, !length_app. lia.
    + intros key' Hne. rewrite (Hum2 key' Hne).
      destruct Hum1 as [-> | [entry1 ->]]; [done |].
      unfold setitem. by rewrite lookup_insert_ne.
Qed.

(** The document phase after the preparation: no document is skipped. *)
Lemma document_phase_reset e cfg files (um : upload_map) :
  (forall p q, p ∈ os_walk e -> q ∈ os_walk e ->
               Pathlib.str p = Pathlib.str q -> p = q) ->
  category_ok (os_walk e) um "html" (HTMLfiles files) ->
  category_ok (os_walk e) um "css" (CSSfiles files) ->
  category_ok (os_walk e) um "js" (JSfiles files) ->
  exists tr um',
    document_phase e cfg files um = (tr, inr um')
    /\ length (written tr) = length (parsed tr).
Proof.
  intros Hinj Hh Hc Hj. unfold document_phase.
  destruct (upload_documents_reset e cfg "html" (HTMLfiles files)
              ltac:(set_solver) Hinj um Hh) as (tr1 & um1 & H1 & C1 & O1).
  assert (Hc1 : category_ok (os_walk e) um1 "css" (CSSfiles files)).
  { eapply category_ok_same_section; [| exact Hc]. by apply O1. }
  assert (Hj1 : category_ok (os_walk e) um1 "js" (JSfiles files)).
  { eapply category_ok_same_section; [| exact Hj]. by apply O1. }
  destruct (upload_documents_reset e cfg "css" (CSSfiles files)
              ltac:(set_solver) Hinj um1 Hc1) as (tr2 & um2 & H2 & C2 & O2).
  assert (Hj2 : category_ok (os_walk e) um2 "js" (JSfiles files)).
  { eapply category_ok_same_section; [| exact Hj1]. by apply O2. }
  destruct (upload_documents_reset e cfg "js" (JSfiles files)
              ltac:(set_solver) Hinj um2 Hj2) as (tr3 & um3 & H3 & C3 & O3).
  exists (tr1 ++ tr2 ++ tr3), um3. split.
  - rewrite for_each_cons, (bind_inr _ _ _ _ H1).
    rewrite for_each_cons, (bind_inr _ _ _ _ H2).
    rewrite for_each_cons, (bind_inr _ _ _ _ H3).
    simpl. by rewrite app_nil_r.
  - rewrite !written_app, !parsed_app, !length_app. lia.
Qed.

Lemma no_document_event_counts tr :
  Forall (fun ev => is_document_event ev = false) tr ->
  written tr = [] /\ parsed tr = [].
Proof.
  induction 1 as [|ev tr Hev Htr [IH1 IH2]]; [done |].
  unfold written, parsed in *. simpl. rewrite IH1, IH2. by destruct ev.
Qed.

(** The defect behind C1 and C10, for every source tree in which no two files
    have the same path string, every environment and every stored map: in a
    run every document that is parsed has its build file written, that is,
    none is ever found unchanged and skipped. *)
Theorem no_document_is_ever_skipped (e : env) (file : map_file) :
  (forall p q, p ∈ os_walk e -> q ∈ os_walk e ->
               Pathlib.str p = Pathlib.str q -> p = q) ->
  length (written (trace (main e file)))
  = length (parsed (trace (main e file))).
Proof.
  intros Hinj. unfold trace. rewrite main_unfold.
  pose proof (prepare_trace e file) as H0.
  pose proof (prepare_categories e file) as Hcat.
  destruct (prepare e file) as [tr0 [x | [cfg [files um0]]]]; simpl in *.
  { destruct (no_document_event_counts tr0) as [-> ->]; [| done].
    eapply Forall_impl; [exact H0 |]. by intros []. }
  destruct (Hcat _ _ _ _ eq_refl) as (Hh & Hc & Hj).
  assert (Hc0 : written tr0 = [] /\ parsed tr0 = []).
  { apply no_document_event_counts.
    eapply Forall_impl; [exact H0 |]. by intros []. }
  pose proof (for_each_upload_asset_trace e (OtherFiles files) um0) as H1.
  fold (asset_phase e files um0) in H1.
  pose proof (asset_phase_other_sections e files um0) as Hother.
  destruct (asset_phase e files um0) as [tr1 [x | um1]]; simpl in *.
  { destruct (no_document_event_counts tr1 H1) as [Hw Hp].
    rewrite written_app, parsed_app, Hw, Hp.
    by destruct Hc0 as [-> ->]. }
  assert (Hc1 : written tr1 = [] /\ parsed tr1 = []).
  { apply no_document_event_counts.
    eapply Forall_impl; [exact H1 |]. by intros []. }
  destruct (document_phase_reset e cfg files um1 Hinj) as (tr2 & um2 & -> & C).
  - eapply category_ok_same_section; [| exact Hh]. by eapply Hother.
  - eapply category_ok_same_section; [| exact Hc]. by eapply Hother.
  - eapply category_ok_same_section; [| exact Hj]. by eapply Hother.
  - rewrite !write_upload_map_eq. simpl fst.
    destruct Hc0 as [Hw0 Hp0]. destruct Hc1 as [Hw1 Hp1].
    destruct (upload_map_writable e); simpl;
      rewrite ?written_app, ?parsed_app, Hw0, Hp0, Hw1, Hp1; simpl;
      change (written (WriteUploadMap um1 :: ?l)) with (written l);
      change (parsed (WriteUploadMap um1 :: ?l)) with (parsed l);
      repeat (change (written (Log ?a ?b :: ?l)) with (written l);
              change (parsed (Log ?a ?b :: ?l)) with (parsed l));
      rewrite ?written_app, ?parsed_app, ?length_app; simpl; lia.
Qed.

(** The second run of the example: the page is parsed, and written again. *)
Example second_run_skips_nothing :
  let second := trace (main example_env (run example_env Missing)) in
  parsed second = [["index.html"]]
  /\ written second = [["build"; "index.html"]]
  /\ length (written second) = length (parsed second).
Proof.
  intros second. split; [by vm_compute | split; [by vm_compute |]].
  apply no_document_is_ever_skipped.
  intros p q Hp Hq Hs. simpl in Hp, Hq.
  repeat (apply elem_of_cons in Hp as [-> | Hp]);
    repeat (apply elem_of_cons in Hq as [-> | Hq]);
    try done; try (by apply elem_of_nil in Hp);
    try (by apply elem_of_nil in Hq).
Qed.

(* ===================================================================== *)
(** * Assets are not uploaded twice                                       *)
(* ===================================================================== *)

Lemma normalized_setitem (um : upload_map) key d k v :
  normalized um -> normalized (setitem um key d k v).
Proof.
  intros Hn key' Hin. unfold setitem.
  destruct (decide (key = key')) as [-> | Hne].
  - rewrite lookup_insert_eq. eauto.
  - rewrite lookup_insert_ne by done. by apply Hn.
Qed.

(** Loading always gives a map back, with the four categories as
    mappings. *)
Lemma load_upload_map_returns file :
  exists tr um, load_upload_map file = (tr, inr um) /\ normalized um.
Proof.
  assert (Hc : normalized canonical_empty_map).
  { intros key Hkey. exists ∅. by apply canonical_empty_map_lookup. }
  destruct file as [| | repr | top]; try (by eexists _, _).
  unfold load_upload_map, load_try.
  pose proof (check_keys_spec categories top) as Hspec. fold categories.
  destruct (for_each check_key categories top) as [tr [x | um]]; simpl.
  - by eexists _, _.
  - destruct Hspec as (_ & Hall & _). by eexists _, _.
Qed.

Lemma load_upload_map_normalized file tr um :
  load_upload_map file = (tr, inr um) -> normalized um.
Proof.
  intros H. destruct (load_upload_map_returns file) as (tr' & um' & H' & Hn).
  rewrite H in H'. by injection H' as _ ->.
Qed.

(** A stored map in which the four categories are mappings is loaded as it
    is, without a word. *)
Lemma load_upload_map_normal (um : upload_map) :
  normalized um -> load_upload_map (Document um) = ([], inr um).
Proof.
  intros Hn. unfold load_upload_map, load_try.
  pose proof (check_keys_spec categories um) as Hspec. fold categories.
  destruct (for_each check_key categories um) as [tr [x | um']]; simpl.
  - destruct Hspec as (_ & _ & key & repr & Hin & Hl).
    destruct (Hn key Hin). congruence.
  - destruct Hspec as (-> & _ & Hlook). do 2 f_equal.
    apply map_eq. intros key. rewrite Hlook.
    destruct (um !! key) eqn:Hkey; [done |].
    rewrite bool_decide_eq_false_2; [done |].
    intros Hin. destruct (Hn key Hin). congruence.
Qed.

Lemma add_to_upload_map_shape (um : upload_map) key f tr um' :
  add_to_upload_map um key f = (tr, inr um') ->
  exists d k v, um' = setitem um key d k v.
Proof.
  unfold add_to_upload_map, getitem.
  destruct (um !! key) as [[d | repr] |]; simpl; [| done | done].
  intros [= _ <-]. eauto.
Qed.

(** One step of the classification: the stored descriptors do not depend on
    the upload map; the upload map stays normalized, and its asset category
    is left alone. *)
Lemma classify_step e cfg files (um : upload_map) infile tr files' um' :
  classify e cfg (files, um) infile = (tr, inr (files', um')) ->
  (normalized um -> normalized um')
  /\ um' !! "assets" = um !! "assets"
  /\ forall (umB : upload_map) trB filesB umB',
       classify e cfg (files, umB) infile = (trB, inr (filesB, umB')) ->
       filesB = files'.
Proof.
  unfold classify.
  destruct (String.eqb _ "html").
  { destruct (add_to_upload_map um "html" _) as [t [x | u]] eqn:Hadd;
      simpl; [done |].
    intros [= _ <- <-].
    destruct (add_to_upload_map_shape _ _ _ _ _ Hadd) as (d & k & v & ->).
    split; [apply normalized_setitem | split].
    - unfold setitem. by rewrite lookup_insert_ne.
    - intros umB trB filesB umB'.
      destruct (add_to_upload_map umB "html" _) as [t' [x | u']]; simpl;
        [done | by intros [= _ <- _]]. }
  destruct (String.eqb _ "css").
  { destruct (add_to_upload_map um "css" _) as [t [x | u]] eqn:Hadd;
      simpl; [done |].
    intros [= _ <- <-].
    destruct (add_to_upload_map_shape _ _ _ _ _ Hadd) as (d & k & v & ->).
    split; [apply normalized_setitem | split].
    - unfold setitem. by rewrite lookup_insert_ne.
    - intros umB trB filesB umB'.
      destruct (add_to_upload_map umB "css" _) as [t' [x | u']]; simpl;
        [done | by intros [= _ <- _]]. }
  destruct (String.eqb _ "js").
  { destruct (add_to_upload_map um "js" _) as [t [x | u]] eqn:Hadd;
      simpl; [done |].
    intros [= _ <- <-].
    destruct (add_to_upload_map_shape _ _ _ _ _ Hadd) as (d & k & v & ->).
    split; [apply normalized_setitem | split].
    - unfold setitem. by rewrite lookup_insert_ne.
    - intros umB trB filesB umB'.
      destruct (add_to_upload_map umB "js" _) as [t' [x | u']]; simpl;
        [done | by intros [= _ <- _]]. }
  destruct (existsb _ asset_extensions).
  - destruct (OtherFile.__init__ infile cfg (open_rb e)); [| done].
    simpl. intros [= _ <- <-]. repeat split; [done |].
    intros umB trB filesB umB'. by intros [= _ <- _].
  - simpl. intros [= _ <- <-]. repeat split; [done |].
    intros umB trB filesB umB'. by intros [= _ <- _].
Qed.

Lemma classify_all e cfg xs files (um : upload_map) tr files' um' :
  for_each (classify e cfg) xs (files, um) = (tr, inr (files', um')) ->
  (normalized um -> normalized um')
  /\ um' !! "assets" = um !! "assets"
  /\ forall (umB : upload_map) trB filesB umB',
       for_each (classify e cfg) xs (files, umB) = (trB, inr (filesB, umB')) ->
       filesB = files'.
Proof.
  revert files um tr. induction xs as [|x xs IH]; intros files um tr.
  - simpl. intros [= _ <- <-]. repeat split; [done |].
    intros umB trB filesB umB'. by intros [= _ <- _].
  - rewrite for_each_cons.
    destruct (classify e cfg (files, um) x) as [t1 [y | [files1 um1]]] eqn:H1;
      unfold bind; [done |].
    destruct (for_each (classify e cfg) xs (files1, um1)) as [t2 r] eqn:H2.
    intros [= _ ->].
    destruct (classify_step _ _ _ _ _ _ _ _ H1) as (N1 & A1 & D1).
    destruct (IH _ _ _ H2) as (N2 & A2 & D2).
    split; [auto | split; [congruence |]].
    intros umB trB filesB umB'.
    change (for_each (classify e cfg) (x :: xs) (files, umB))
      with (bind (classify e cfg (files, umB) x) (for_each (classify e cfg) xs)).
    destruct (classify e cfg (files, umB) x) as [t1' [y | [files1' um1']]]
      eqn:H1'; simpl; [done |].
    destruct (for_each (classify e cfg) xs (files1', um1')) as [t2' r'] eqn:H2'.
    intros [= _ ->]. rewrite (D1 _ _ _ _ H1') in H2'. by eapply D2.
Qed.

(** The preparation of two runs in the same environment stores the same
    descriptors; it normalizes the upload map and leaves the asset category
    as it was loaded. *)
Lemma prepare_shape e file tr0 cfg files um0 :
  prepare e file = (tr0, inr (cfg, (files, um0))) ->
  config_yml e = Some cfg
  /\ normalized um0
  /\ (forall um, file = Document um -> normalized um ->
                 um0 !! "assets" = um !! "assets")
  /\ forall fileB trB cfgB filesB umB,
       prepare e fileB = (trB, inr (cfgB, (filesB, umB))) -> filesB = files.
Proof.
  unfold prepare, read_config. intros H.
  destruct (config_yml e) as [cfg' |] eqn:Hcfg; simpl in H; [| done].
  destruct (load_upload_map file) as [t2 [x | um]] eqn:Hload; simpl in H;
    [done |].
  destruct (login e) as [t3 [x | []]]; simpl in H; [done |].
  destruct (for_each (classify e cfg') (os_walk e) (empty_storage, um))
    as [t4 [x | [files' um']]] eqn:Hcl; simpl in H; [done |].
  injection H as _ -> -> ->.
  destruct (classify_all _ _ _ _ _ _ _ _ Hcl) as (N & A & D).
  split; [done | split; [| split]].
  - apply N. by eapply load_upload_map_normalized.
  - intros um1 -> Hn. rewrite (load_upload_map_normal um1 Hn) in Hload.
    injection Hload as _ <-. exact A.
  - intros fileB trB cfgB filesB umB. simpl.
    destruct (load_upload_map fileB) as [t2' [x | um2]]; simpl; [done |].
    destruct (for_each (classify e cfg) (os_walk e) (empty_storage, um2))
      as [t4' [x | [files2 um2']]] eqn:Hcl'; simpl; [done |].
    intros [= _ _ <- _]. by eapply D.
Qed.

(** One asset that goes through: its record holds the digest of the file,
    the other records of the category are as they were, and so are the other
    categories. *)
Lemma upload_asset_recorded e (um : upload_map) p f tr um' :
  upload_asset e um (p, f) = (tr, inr um') ->
  exists d d' entry,
    um !! "assets" = Some (YMapping d)
    /\ um' !! "assets" = Some (YMapping d')
    /\ d' !! Pathlib.str p = Some entry
    /\ Entry.md5 entry = OtherFile.md5_hash f
    /\ (forall k, k <> Pathlib.str p -> d' !! k = d !! k)
    /\ (normalized um -> normalized um').
Proof.
  unfold upload_asset, getitem.
  destruct (um !! "assets") as [[d | repr] |] eqn:Hd; simpl; [| done | done].
  destruct (d !! Pathlib.str p) as [asset |] eqn:Hp.
  - destruct (String.eqb _ _) eqn:E.
    + intros [= _ <-]. apply String.eqb_eq in E.
      exists d, d, asset. by rewrite Hd.
    + rewrite upload_or_exit_eq. destruct (iGEM_upload_file e f); [| done].
      simpl. intros [= _ <-]. eexists d, _, _. unfold setitem.
      rewrite lookup_insert_eq. split; [done | split; [done |]].
      rewrite lookup_insert_eq. split; [done | split; [done | split]].
      * intros k Hk. by rewrite lookup_insert_ne.
      * apply normalized_setitem.
  - rewrite upload_or_exit_eq. destruct (iGEM_upload_file e f); [| done].
    simpl. intros [= _ <-]. eexists d, _, _. unfold setitem.
    rewrite lookup_insert_eq. split; [done | split; [done |]].
    rewrite lookup_insert_eq. split; [done | split; [done | split]].
    + intros k Hk. by rewrite lookup_insert_ne.
    + apply normalized_setitem.
Qed.

(** The assets that went through, no two of them under the same path
    string: each one is recorded with its digest. *)
Lemma upload_assets_recorded e items :
  NoDup (List.map (fun kv => Pathlib.str (fst kv)) items) ->
  forall (um : upload_map) tr um',
    for_each (upload_asset e) items um = (tr, inr um') ->
    all_recorded um' items
    /\ (normalized um -> normalized um')
    /\ forall d d' k,
         um !! "assets" = Some (YMapping d) ->
         um' !! "assets" = Some (YMapping d') ->
         k ∉ List.map (fun kv => Pathlib.str (fst kv)) items ->
         d' !! k = d !! k.
Proof.
  induction items as [|[p f] items IH]; intros Hnd um tr um'.
  - simpl. intros [= _ <-]. split; [| split; [done |]].
    + intros p f Hin. by apply elem_of_nil in Hin.
    + intros d d' k Hd Hd' _. congruence.
  - rewrite for_each_cons. simpl in Hnd.
    apply NoDup_cons in Hnd as [Hfresh Hnd].
    destruct (upload_asset e um (p, f)) as [t1 [x | um1]] eqn:H1;
      unfold bind; [done |].
    destruct (for_each (upload_asset e) items um1) as [t2 r] eqn:H2.
    intros [= _ ->].
    destruct (upload_asset_recorded _ _ _ _ _ _ H1)
      as (d & d1 & entry & Hd & Hd1 & Hentry & Hmd5 & Hframe1 & N1).
    destruct (IH Hnd _ _ _ H2) as (Hrec & N2 & Hframe2).
    split; [| split; [auto |]].
    + intros q g [[= -> ->] | Hin]%elem_of_cons; [| by apply Hrec].
      assert (exists d', um' !! "assets" = Some (YMapping d')) as [d' Hd'].
      { destruct items as [|[q g] items'].
        - simpl in H2. injection H2 as _ <-. eauto.
        - destruct (Hrec q g) as (d' & ? & ? & _); [apply list_elem_of_here |].
          eauto. }
      exists d', entry. split; [done | split; [| done]].
      by rewrite (Hframe2 d1 d' _ Hd1 Hd' Hfresh).
    + intros d0 d' k Hd0 Hd' Hk. rewrite Hd in Hd0. injection Hd0 as <-.
      apply not_elem_of_cons in Hk as [Hk1 Hk2]. simpl in Hk1.
      rewrite (Hframe2 d1 d' k Hd1 Hd' Hk2). by apply Hframe1.
Qed.

(** An asset whose record holds its digest is left alone. *)
Lemma upload_assets_unchanged e items (um : upload_map) :
  all_recorded um items ->
  for_each (upload_asset e) items um = ([], inr um).
Proof.
  induction items as [|[p f] items IH]; intros Hrec; [done |].
  rewrite for_each_cons.
  destruct (Hrec p f) as (d & entry & Hd & Hp & Hmd5);
    [apply list_elem_of_here |].
  assert (H1 : upload_asset e um (p, f) = ([], inr um)).
  { unfold upload_asset, getitem. rewrite Hd. simpl. rewrite Hp, Hmd5.
    by rewrite String.eqb_refl. }
  rewrite (bind_inr _ _ _ _ H1). rewrite IH; [done |].
  intros q g Hin. apply Hrec. by apply list_elem_of_further.
Qed.

(** A document leaves the asset category alone, and the map normalized. *)
Lemma upload_document_assets e cfg (um : upload_map) item tr um' :
  upload_document e cfg um item = (tr, inr um') ->
  um' !! "assets" = um !! "assets" /\ (normalized um -> normalized um').
Proof.
  unfold upload_document.
  destruct (open_r e _) as [contents |]; simpl; [| by intros [= _ <-]].
  destruct (parse e cfg _ _ contents um) as [processed |] eqn:Hparse;
    [| done].
  assert (Hext : BaseFile.extension (base (snd item)) <> "assets").
  { intros Hext. unfold parse in Hparse. by rewrite Hext in Hparse. }
  unfold getitem.
  destruct (um !! BaseFile.extension (base (snd item))) as [[d | repr] |];
    simpl; [| done | done].
  destruct (d !! _) as [entry |]; [| done].
  destruct (String.eqb _ _); simpl; [by intros [= _ <-] |].
  destruct (write_build e _ processed); simpl;
    [destruct (iGEM_upload_page e processed _); simpl |];
    intros [= _ <-]; (split; [| apply normalized_setitem]);
    unfold setitem; by rewrite lookup_insert_ne.
Qed.

Lemma document_phase_assets e cfg files (um : upload_map) tr um' :
  document_phase e cfg files um = (tr, inr um') ->
  um' !! "assets" = um !! "assets" /\ (normalized um -> normalized um').
Proof.
  unfold document_phase.
  apply (for_each_invariant
           (fun s : upload_map =>
              s !! "assets" = um !! "assets" /\ (normalized um -> normalized s))
           _ [HTMLfiles files; CSSfiles files; JSfiles files]); [| done].
  intros s dict tr1 s' Hs.
  apply (for_each_invariant
           (fun s : upload_map =>
              s !! "assets" = um !! "assets" /\ (normalized um -> normalized s))
           (upload_document e cfg) dict); [| done].
  intros s1 item tr2 s2 [Ha Hn] Hstep.
  destruct (upload_document_assets _ _ _ _ _ _ Hstep) as [Ha' Hn'].
  split; [congruence | auto].
Qed.

Lemma all_recorded_same_section (um um' : upload_map) items :
  um' !! "assets" = um !! "assets" ->
  all_recorded um items -> all_recorded um' items.
Proof.
  intros Heq Hall p f Hin. destruct (Hall p f Hin) as (d & entry & ? & ? & ?).
  exists d, entry. by rewrite Heq.
Qed.

(** The assets stored by the classification are walked files. *)
Lemma classify_OtherFiles_walked e cfg st infile tr st' :
  infile ∈ os_walk e ->
  Forall (fun kv => fst kv ∈ os_walk e) (OtherFiles (fst st)) ->
  classify e cfg st infile = (tr, inr st') ->
  Forall (fun kv => fst kv ∈ os_walk e) (OtherFiles (fst st')).
Proof.
  destruct st as [files um]. intros Hw Hall. unfold classify. simpl fst.
  repeat match goal with
         | |- context [if ?b then _ else _] => destruct b
         end.
  1-3: destruct (add_to_upload_map um _ _) as [tr1 [x | um']]; simpl;
       [done | by intros [= _ <-]].
  - destruct (OtherFile.__init__ infile cfg (open_rb e)) as [f |] eqn:Hf;
      [| done].
    simpl. intros [= _ <-]. simpl.
    apply OtherFile_init_path in Hf. rewrite Hf.
    by apply (dict_assign_values (fun k _ => k ∈ os_walk e)).
  - simpl. by intros [= _ <-].
Qed.

Lemma prepare_OtherFiles_walked e file tr0 cfg files um0 :
  prepare e file = (tr0, inr (cfg, (files, um0))) ->
  Forall (fun kv => fst kv ∈ os_walk e) (OtherFiles files).
Proof.
  unfold prepare. intros H.
  destruct (read_config e) as [t1 [x | cfg']]; simpl in H; [done |].
  destruct (load_upload_map file) as [t2 [x | um]]; simpl in H; [done |].
  destruct (login e) as [t3 [x | []]]; simpl in H; [done |].
  destruct (for_each (classify e cfg') (os_walk e) (empty_storage, um))
    as [t4 [x | st]] eqn:Hcl; simpl in H; [done |].
  injection H as _ _ ->.
  pose proof (for_each_invariant_in
    (fun st : storage * upload_map =>
       Forall (fun kv => fst kv ∈ os_walk e) (OtherFiles (fst st)))
    (classify e cfg') (os_walk e)
    (fun s x tr s' Hx => classify_OtherFiles_walked e cfg' s x tr s' Hx)
    (empty_storage, um) t4 (files, um0)) as Hinv.
  simpl in Hinv. apply Hinv; [apply Forall_nil_2 | exact Hcl].
Qed.

Lemma NoDup_str_keys (walked : list Path) (items : list (Path * OtherFile.t)) :
  (forall p q, p ∈ walked -> q ∈ walked ->
               Pathlib.str p = Pathlib.str q -> p = q) ->
  Forall (fun kv => fst kv ∈ walked) items ->
  NoDup (List.map fst items) ->
  NoDup (List.map (fun kv => Pathlib.str (fst kv)) items).
Proof.
  intros Hinj. induction items as [|[p f] items IH]; intros Hw Hnd.
  - apply NoDup_nil_2.
  - apply Forall_cons in Hw as [Hp Hw]. simpl in *.
    apply NoDup_cons in Hnd as [Hfresh Hnd].
    apply NoDup_cons. split; [| by apply IH].
    intros ([q g] & Hs & Hin)%list_elem_of_fmap. simpl in Hs.
    rewrite Forall_forall in Hw. pose proof (Hw _ Hin) as Hq. simpl in Hq.
    apply Hinj in Hs; [| done | done]. subst q.
    apply Hfresh. apply list_elem_of_fmap. by exists (p, g).
Qed.

Lemma uploaded_files_none tr :
  Forall (fun ev => is_asset_event ev = false) tr -> uploaded_files tr = [].
Proof.
  induction 1 as [|ev tr Hev Htr IH]; [done |].
  unfold uploaded_files in *. simpl. rewrite IH. by destruct ev.
Qed.

Lemma file_after_cons_checkpoint e file um tr :
  upload_map_writable e = true ->
  file_after e file (WriteUploadMap um :: tr) = file_after e (Document um) tr.
Proof. intros Hw. unfold file_after. simpl. by rewrite Hw. Qed.

(** [upload_map.yml] after a run that returned, when it can be written: the
    map as the document phase left it. *)
Lemma run_returned e file tr0 cfg files um0 tr1 um1 tr2 um2 :
  upload_map_writable e = true ->
  prepare e file = (tr0, inr (cfg, (files, um0))) ->
  asset_phase e files um0 = (tr1, inr um1) ->
  document_phase e cfg files um1 = (tr2, inr um2) ->
  run e file = Document um2.
Proof.
  intros Hw H0 H1 H2. unfold run, trace.
  rewrite main_unfold, H0, H1, H2, !write_upload_map_eq, Hw. simpl fst.
  pose proof (document_phase_trace e cfg files um1) as Hd. rewrite H2 in Hd.
  rewrite (file_after_app e file tr0), (file_after_app e _ tr1).
  rewrite (file_after_cons_checkpoint e _ um1 _ Hw).
  rewrite (file_after_app e _ tr2).
  rewrite (file_after_no_checkpoint e _ tr2).
  2: { eapply Forall_impl; [exact Hd |]. by intros ev [? _]. }
  by rewrite (file_after_cons_checkpoint e _ um2 _ Hw).
Qed.

(** The part of C1 that holds: after a run that returned and saved its map,
    a second run in the same environment uploads no asset, provided no two
    files of the tree have the same path string. *)
Theorem second_run_uploads_no_asset (e : env) (file : map_file) :
  upload_map_writable e = true ->
  outcome (main e file) = inr tt ->
  (forall p q, p ∈ os_walk e -> q ∈ os_walk e ->
               Pathlib.str p = Pathlib.str q -> p = q) ->
  uploaded_files (trace (main e (run e file))) = [].
Proof.
  intros Hw Hout Hinj. unfold outcome in Hout. rewrite main_unfold in Hout.
  destruct (prepare e file) as [tr0 [x | [cfg [files um0]]]] eqn:H0;
    [done |].
  destruct (asset_phase e files um0) as [tr1 [x | um1]] eqn:H1; [done |].
  destruct (document_phase e cfg files um1) as [tr2 [x | um2]] eqn:H2;
    [done |].
  rewrite (run_returned e file _ _ _ _ _ _ _ _ Hw H0 H1 H2).
  destruct (prepare_shape _ _ _ _ _ _ H0) as (_ & N0 & _ & Hsame).
  destruct (prepare_OtherFiles _ _ _ _ _ _ H0) as [Hnd _].
  pose proof (prepare_OtherFiles_walked _ _ _ _ _ _ H0) as Hwalked.
  destruct (upload_assets_recorded e (OtherFiles files)
              (NoDup_str_keys _ _ Hinj Hwalked Hnd) um0 tr1 um1 H1)
    as (Hrec & N1 & _).
  destruct (document_phase_assets _ _ _ _ _ _ H2) as [A2 N2].
  (* the second run *)
  apply uploaded_files_none. unfold trace. rewrite main_unfold.
  pose proof (prepare_trace e (Document um2)) as Hlog.
  destruct (prepare e (Document um2)) as [tr0' [x | [cfg' [files' um0']]]]
    eqn:H0'; simpl in Hlog.
  { simpl. eapply Forall_impl; [exact Hlog |]. by intros []. }
  rewrite (Hsame _ _ _ _ _ H0') in *.
  destruct (prepare_shape _ _ _ _ _ _ H0') as (_ & _ & A0' & _).
  assert (Hrec' : all_recorded um0' (OtherFiles files)).
  { eapply all_recorded_same_section; [| exact Hrec].
    rewrite (A0' um2 eq_refl (N2 (N1 N0))). exact A2. }
  unfold asset_phase at 1. rewrite (upload_assets_unchanged e _ _ Hrec').
  pose proof (document_phase_trace e cfg' files um0') as Hd.
  rewrite !write_upload_map_eq.
  assert (Hlog' : Forall (fun ev => is_asset_event ev = false) tr0').
  { eapply Forall_impl; [exact Hlog |]. by intros []. }
  assert (Hd' : Forall (fun ev => is_asset_event ev = false)
                       (fst (document_phase e cfg' files um0'))).
  { eapply Forall_impl; [exact Hd |]. by intros ev [_ ?]. }
  destruct (document_phase e cfg' files um0') as [tr2' [x | um2']];
    simpl in *; rewrite Hw; simpl.
  - apply Forall_app. split; [exact Hlog' |].
    apply Forall_cons_2; [reflexivity | exact Hd'].
  - apply Forall_app. split; [exact Hlog' |].
    apply Forall_cons_2; [reflexivity |].
    apply Forall_app. split; [exact Hd' |].
    rewrite write_upload_map_eq, Hw. simpl.
    apply Forall_cons_2; [reflexivity | apply Forall_nil_2].
Qed.

(** The example tree, run twice. *)
Lemma second_run_uploads_no_asset_witness :
  (upload_map_writable example_env = true
   /\ outcome (main example_env Missing) = inr tt)
  /\ uploaded_files (trace (main example_env (run example_env Missing))) = [].
Proof.
  assert (Hinj : forall p q : Path,
            p ∈ os_walk example_env -> q ∈ os_walk example_env ->
            Pathlib.str p = Pathlib.str q -> p = q).
  { intros p q Hp Hq Hs. simpl in Hp, Hq.
    repeat (apply elem_of_cons in Hp as [-> | Hp]);
      repeat (apply elem_of_cons in Hq as [-> | Hq]);
      try done; try (by apply elem_of_nil in Hp);
      try (by apply elem_of_nil in Hq). }
  assert (H1 : upload_map_writable example_env = true) by reflexivity.
  assert (H2 : outcome (main example_env Missing) = inr tt)
    by (vm_compute; reflexivity).
  split; [split; [exact H1 | exact H2] |].
  exact (second_run_uploads_no_asset example_env Missing H1 H2 Hinj).
Defined.

(* ===================================================================== *)
(** * Failures of documents do not end the run                            *)
(* ===================================================================== *)

(** A document is opened for reading once, whatever becomes of it. *)
Lemma upload_document_reads e cfg um item :
  sources_read (fst (upload_document e cfg um item))
  = [BaseFile.src_path (base (snd item))].
Proof.
  unfold upload_document.
  destruct (open_r e _) as [contents |]; simpl; [| reflexivity].
  destruct (parse e cfg _ _ contents um) as [processed |]; simpl;
    [| reflexivity].
  unfold getitem.
  destruct (um !! _) as [[d | repr] |]; simpl; try reflexivity.
  destruct (d !! _) as [entry |]; simpl; [| reflexivity].
  destruct (String.eqb _ _); simpl; [reflexivity |].
  destruct (write_build e _ processed); simpl; [| reflexivity].
  destruct (iGEM_upload_page e processed _); reflexivity.
Qed.

Lemma sources_read_app tr1 tr2 :
  sources_read (tr1 ++ tr2) = sources_read tr1 ++ sources_read tr2.
Proof. unfold sources_read. apply flat_map_app. Qed.

(** A loop over documents that returns has opened each of them, in order. *)
Lemma upload_documents_read e cfg items :
  forall um tr um',
    for_each (upload_document e cfg) items um = (tr, inr um') ->
    sources_read tr
    = List.map (fun kv => BaseFile.src_path (base (snd kv))) items.
Proof.
  induction items as [|item items IH]; intros um tr um' Hrun.
  - simpl in Hrun. by injection Hrun as <- _.
  - rewrite for_each_cons in Hrun.
    pose proof (upload_document_reads e cfg um item) as Hitem.
    destruct (upload_document e cfg um item) as [tr1 [x | um1]];
      simpl in Hrun, Hitem; [done |].
    destruct (for_each (upload_document e cfg) items um1) as [tr2 r] eqn:Hxs.
    injection Hrun as <- ->. rewrite sources_read_app, Hitem.
    simpl. f_equal. by eapply IH.
Qed.

Lemma document_phase_reads e cfg files um tr um' :
  document_phase e cfg files um = (tr, inr um') ->
  sources_read tr
  = List.map (fun kv => BaseFile.src_path (base (snd kv))) (documents files).
Proof.
  unfold document_phase, documents. rewrite !for_each_cons. intros Hrun.
  destruct (for_each (upload_document e cfg) (HTMLfiles files) um)
    as [t1 [x | u1]] eqn:E1; simpl in Hrun; [done |].
  destruct (for_each (upload_document e cfg) (CSSfiles files) u1)
    as [t2 [x | u2]] eqn:E2; simpl in Hrun; [done |].
  destruct (for_each (upload_document e cfg) (JSfiles files) u2)
    as [t3 [x | u3]] eqn:E3; simpl in Hrun; [done |].
  injection Hrun as <- _.
  rewrite !sources_read_app, !List.map_app. simpl. rewrite app_nil_r.
  rewrite (upload_documents_read _ _ _ _ _ _ E1).
  rewrite (upload_documents_read _ _ _ _ _ _ E2).
  by rewrite (upload_documents_read _ _ _ _ _ _ E3).
Qed.

(** Once the asset phase has returned, the run returns: whatever the files
    and the remote answer for the documents, the document phase opens the
    source of every document of the tree, the pages first, then the style
    sheets, then the scripts, each once and in the order of the walk, and
    the upload map is saved once more at the end (the tree holding no two
    files of the same path string, and the parsers returning). *)
Theorem document_failures_are_not_fatal (e : env) (file : map_file)
    (tr0 tr1 : list event) (cfg : config) (files : storage)
    (um0 um1 : upload_map) :
  (forall p q, p ∈ os_walk e -> q ∈ os_walk e ->
               Pathlib.str p = Pathlib.str q -> p = q) ->
  prepare e file = (tr0, inr (cfg, (files, um0))) ->
  asset_phase e files um0 = (tr1, inr um1) ->
  exists tr2 um2,
    document_phase e cfg files um1 = (tr2, inr um2)
    /\ sources_read tr2
       = List.map (fun kv => BaseFile.src_path (base (snd kv)))
                  (documents files)
    /\ main e file
       = (tr0 ++ tr1 ++ fst (write_upload_map e um1) ++ tr2
              ++ WriteUploadMap um2
              :: (if upload_map_writable e then []
                  else [Log ERROR "Tried to write upload_map.yml but couldn't."]),
          inr tt).
Proof.
  intros Hinj H0 H1.
  destruct (prepare_categories _ _ _ _ _ _ H0) as (Hh & Hc & Hj).
  pose proof (asset_phase_other_sections e files um0 tr1 um1) as Hother.
  destruct (document_phase_reset e cfg files um1 Hinj) as (tr2 & um2 & H2 & _).
  - eapply category_ok_same_section; [| exact Hh]. by apply Hother.
  - eapply category_ok_same_section; [| exact Hc]. by apply Hother.
  - eapply category_ok_same_section; [| exact Hj]. by apply Hother.
  - exists tr2, um2. split; [exact H2 |].
    split; [by eapply document_phase_reads |].
    rewrite main_unfold, H0, H1, H2.
    by rewrite (write_upload_map_eq e um2).
Qed.

(** The run of the example tree against a remote that refuses every page:
    [index.html] is read, and the run returns. *)
Lemma document_failures_are_not_fatal_witness :
  (prepare pages_refused_env Missing
   = ([], inr (example_config, (example_storage, classified_map)))
   /\ asset_phase pages_refused_env example_storage classified_map
      = ([UploadFile logo_file], inr uploaded_map))
  /\ exists tr2 um2,
       document_phase pages_refused_env example_config example_storage
         uploaded_map = (tr2, inr um2)
       /\ sources_read tr2 = [["src"; "index.html"]]
       /\ outcome (main pages_refused_env Missing) = inr tt.
Proof.
  assert (Hinj : forall p q : Path,
            p ∈ os_walk pages_refused_env -> q ∈ os_walk pages_refused_env ->
            Pathlib.str p = Pathlib.str q -> p = q).
  { intros p q Hp Hq Hs. simpl in Hp, Hq.
    repeat (apply elem_of_cons in Hp as [-> | Hp]);
      repeat (apply elem_of_cons in Hq as [-> | Hq]);
      try done; try (by apply elem_of_nil in Hp);
      try (by apply elem_of_nil in Hq). }
  assert (H0 : prepare pages_refused_env Missing
               = ([], inr (example_config, (example_storage, classified_map))))
    by (vm_compute; reflexivity).
  assert (H1 : asset_phase pages_refused_env example_storage classified_map
               = ([UploadFile logo_file], inr uploaded_map))
    by (vm_compute; reflexivity).
  split; [split; [exact H0 | exact H1] |].
  destruct (document_failures_are_not_fatal pages_refused_env Missing
              [] [UploadFile logo_file] example_config example_storage
              classified_map uploaded_map Hinj H0 H1)
    as (tr2 & um2 & H2 & Hread & Hmain).
  exists tr2, um2. split; [exact H2 |]. split; [exact Hread |].
  unfold outcome. rewrite Hmain. reflexivity.
Defined.

(* ===================================================================== *)
(** * More on the descriptors (files.py)                                  *)
(* ===================================================================== *)



Lemma rfind_append c s1 s2 :
  Str.rfind c (s1 +:+ s2)
  = match Str.rfind c s2 with
    | Some i => Some (String.length s1 + i)%nat
    | None => Str.rfind c s1
    end.
Proof.
  induction s1 as [|a s1 IH]; unfold_append; simpl.
  - by destruct (Str.rfind c s2).
  - rewrite IH. by destruct (Str.rfind c s2).
Qed.

Lemma rfind_replace_dot s : Str.rfind "." (Str.replace "." "-" s) = None.
Proof.
  unfold Str.replace. induction s as [|a s IH]; simpl; [done |].
  rewrite IH. by destruct (Ascii.eqb_spec a ".") as [-> | Hne];
    [| rewrite (proj2 (Ascii.eqb_neq _ _) Hne)].
Qed.



(** The page of an HTML file is that of its directory: two HTML files of
    the same directory have the same upload URL and the same link URL,
    whatever their names. *)
Theorem html_identity_ignores_name (cfg : config) (dirs : Path)
    (name1 name2 : string) :
  upload_URL (HTMLfile (dirs ++ [name1]) cfg)
  = upload_URL (HTMLfile (dirs ++ [name2]) cfg)
  /\ link_URL (HTMLfile (dirs ++ [name1]) cfg)
     = link_URL (HTMLfile (dirs ++ [name2]) cfg).
Proof.
  unfold upload_URL, link_URL, HTMLfile. simpl.
  unfold HTMLfile._generate_upload_path, BaseFile.path. simpl.
  by rewrite !parent_snoc.
Qed.

(** The upload path of a style sheet or of a script holds no dot, whatever
    the path of the file. *)
Theorem template_path_has_no_dot (cfg : config) (path : Path) :
  Str.rfind "." (_upload_path (CSSfile path cfg)) = None
  /\ Str.rfind "." (_upload_path (JSfile path cfg)) = None.
Proof.
  unfold CSSfile, JSfile, _upload_path, CSSfile._generate_upload_path,
    JSfile._generate_upload_path.
  split; rewrite !rfind_append, rfind_replace_dot; reflexivity.
Qed.

Lemma append_inv_last s1 s2 a b :
  s1 +:+ String a "" = s2 +:+ String b "" -> s1 = s2 /\ a = b.
Proof.
  revert s2. induction s1 as [|c s1 IH]; intros [|d s2] H; unfold_append.
  - by injection H as ->.
  - injection H as _ H. apply (f_equal String.length) in H.
    rewrite length_append in H. simpl in H. lia.
  - injection H as _ H. apply (f_equal String.length) in H.
    rewrite length_append in H. simpl in H. lia.
  - injection H as -> H. destruct (IH _ H) as [-> ->]. done.
Qed.

Lemma css_js_tags_differ s1 s2 : s1 +:+ "CSS" = s2 +:+ "JS" -> False.
Proof.
  change "CSS" with ("CS" +:+ "S"). change "JS" with ("J" +:+ "S").
  rewrite <- !append_assoc. intros [H _]%append_inv_last.
  change "CS" with ("C" +:+ "S") in H. rewrite <- append_assoc in H.
  by apply append_inv_last in H as [_ ?].
Qed.

Lemma last_char_differs s1 s2 : s1 +:+ "s" = s2 +:+ "t" -> False.
Proof. by intros [_ ?]%append_inv_last. Qed.

(** A style sheet and a script never get the same template, even with the
    same base name: their upload paths differ, and so do their upload URLs
    and link URLs under one configuration. *)
Theorem css_and_js_never_collide (cfg : config) (p q : Path) :
  String.eqb (_upload_path (CSSfile p cfg)) (_upload_path (JSfile q cfg))
  = false
  /\ String.eqb (upload_URL (CSSfile p cfg)) (upload_URL (JSfile q cfg))
     = false
  /\ String.eqb (link_URL (CSSfile p cfg)) (link_URL (JSfile q cfg)) = false.
Proof.
  assert (Hpath : _upload_path (CSSfile p cfg) <> _upload_path (JSfile q cfg)).
  { unfold CSSfile, JSfile, _upload_path, CSSfile._generate_upload_path,
      JSfile._generate_upload_path.
    intros H. apply append_inv_head in H. by apply css_js_tags_differ in H. }
  split; [by apply String.eqb_neq | split; apply String.eqb_neq; intros H].
  - unfold upload_URL, CSSfile, JSfile in H. simpl in H.
    unfold CSSfile._generate_upload_URL, JSfile._generate_upload_URL in H.
    simpl in H. do 2 apply append_inv_head in H.
    by apply append_inv_tail in H.
  - unfold link_URL, CSSfile, JSfile in H. simpl in H.
    unfold CSSfile._generate_link_URL, JSfile._generate_link_URL in H.
    simpl in H. do 2 apply append_inv_head in H.
    change ("?action=raw&ctype=text/css")
      with ("?action=raw&ctype=text/cs" +:+ "s") in H.
    change ("?action=raw&ctype=text/javascript")
      with ("?action=raw&ctype=text/javascrip" +:+ "t") in H.
    rewrite <- !append_assoc in H. by apply last_char_differs in H.
Qed.

(* ===================================================================== *)
(** * Runs that end before the first upload (main.py, lines 33-165)       *)
(* ===================================================================== *)

Lemma main_prepare_raises e file tr x :
  prepare e file = (tr, inl x) ->
  main e file = (tr, inl x) /\ run e file = file.
Proof.
  intros H. assert (Hmain : main e file = (tr, inl x)).
  { by rewrite main_unfold, H. }
  split; [exact Hmain |]. unfold run, trace. rewrite Hmain. simpl.
  apply file_after_no_checkpoint.
  pose proof (prepare_trace e file) as Hlog. rewrite H in Hlog.
  eapply Forall_impl; [exact Hlog |]. by intros [].
Qed.

(** When [config.yml] cannot be read, or when the login is refused, the run
    ends with [SystemExit]: it has only logged, nothing is uploaded, and
    [upload_map.yml] is left as it was. *)
Theorem startup_failure_is_fatal (e : env) (file : map_file) :
  config_yml e = None \/ iGEM_login e = false ->
  outcome (main e file) = inl SystemExit
  /\ Forall (fun ev => is_log ev = true) (trace (main e file))
  /\ run e file = file.
Proof.
  intros H.
  assert (exists tr, prepare e file = (tr, inl SystemExit)) as [tr Hprep].
  { unfold prepare, read_config, login.
    destruct (config_yml e) as [cfg |]; [| by eexists].
    destruct H as [H | H]; [done |]. rewrite H. simpl.
    destruct (load_upload_map_returns file) as (t & um & -> & _). simpl.
    by eexists. }
  destruct (main_prepare_raises e file tr _ Hprep) as [Hmain Hrun].
  unfold outcome, trace. rewrite Hmain. split; [done | split; [| done]].
  pose proof (prepare_trace e file) as Hlog. by rewrite Hprep in Hlog.
Qed.

Lemma startup_failure_is_fatal_witness :
  (config_yml login_refused_env = None \/ iGEM_login login_refused_env = false)
  /\ main login_refused_env Missing
     = ([Log ERROR "Failed to login."], inl SystemExit)
  /\ run login_refused_env Missing = Missing.
Proof.
  assert (H : config_yml login_refused_env = None
              \/ iGEM_login login_refused_env = false) by (by right).
  split; [exact H |]. split; [reflexivity |].
  exact (proj2 (proj2 (startup_failure_is_fatal login_refused_env Missing H))).
Defined.

Lemma extension_of_asset infile :
  is_asset infile = true ->
  String.eqb (extension_of infile) "html" = false
  /\ String.eqb (extension_of infile) "css" = false
  /\ String.eqb (extension_of infile) "js" = false.
Proof.
  unfold is_asset. intros H.
  repeat split; apply String.eqb_neq; intros E; rewrite E in H;
    vm_compute in H; discriminate.
Qed.

(** One step of the classification on a normalized map: it only raises
    when an asset cannot be read. *)
Lemma classify_outcome e cfg files (um : upload_map) infile :
  normalized um ->
  (exists tr files' um',
     classify e cfg (files, um) infile = (tr, inr (files', um'))
     /\ normalized um')
  \/ (exists tr,
        classify e cfg (files, um) infile = (tr, inl (Exception "OSError"))
        /\ is_asset infile = true
        /\ open_rb e (Pathlib.joinpath (src_dir cfg) infile) = None).
Proof.
  intros Hn.
  assert (Hadd : forall key f, key ∈ categories ->
            exists um', add_to_upload_map um key f = ([], inr um')
                        /\ normalized um').
  { intros key f Hin. destruct (Hn key Hin) as [d Hd].
    rewrite (add_to_upload_map_resets um key f d Hd).
    eexists. split; [done |]. by apply normalized_setitem. }
  unfold classify. fold (extension_of infile).
  destruct (String.eqb (extension_of infile) "html").
  { destruct (Hadd "html" (HTMLfile infile cfg)) as (um' & -> & Hn');
      [unfold categories; set_solver |]. left. by eexists _, _, _. }
  destruct (String.eqb (extension_of infile) "css").
  { destruct (Hadd "css" (CSSfile infile cfg)) as (um' & -> & Hn');
      [unfold categories; set_solver |]. left. by eexists _, _, _. }
  destruct (String.eqb (extension_of infile) "js").
  { destruct (Hadd "js" (JSfile infile cfg)) as (um' & -> & Hn');
      [unfold categories; set_solver |]. left. by eexists _, _, _. }
  fold (is_asset infile). destruct (is_asset infile) eqn:Ha.
  - unfold OtherFile.__init__. simpl.
    destruct (open_rb e (Pathlib.joinpath (src_dir cfg) infile)) eqn:Hopen.
    + left. by eexists _, _, _.
    + right. by eexists.
  - left. by eexists _, _, _.
Qed.

Lemma classify_asset_unreadable e cfg files (um : upload_map) infile :
  is_asset infile = true ->
  open_rb e (Pathlib.joinpath (src_dir cfg) infile) = None ->
  classify e cfg (files, um) infile = ([], inl (Exception "OSError")).
Proof.
  intros Ha Hopen. destruct (extension_of_asset infile Ha) as (Eh & Ec & Ej).
  unfold classify. fold (extension_of infile). rewrite Eh, Ec, Ej.
  fold (is_asset infile). rewrite Ha.
  unfold OtherFile.__init__. simpl. by rewrite Hopen.
Qed.

(** The classification of a list of files holding an asset that cannot be
    read raises, whatever comes before and after it. *)
Lemma classify_all_unreadable e cfg xs x :
  x ∈ xs -> is_asset x = true ->
  open_rb e (Pathlib.joinpath (src_dir cfg) x) = None ->
  forall files (um : upload_map), normalized um ->
    exists tr,
      for_each (classify e cfg) xs (files, um) = (tr, inl (Exception "OSError")).
Proof.
  intros Hin Ha Hopen. induction xs as [|y xs IH]; intros files um Hn.
  - by apply elem_of_nil in Hin.
  - rewrite for_each_cons.
    destruct (decide (y = x)) as [-> | Hne].
    + rewrite (classify_asset_unreadable e cfg files um x Ha Hopen).
      by eexists.
    + apply elem_of_cons in Hin as [-> | Hin]; [done |].
      destruct (classify_outcome e cfg files um y Hn)
        as [(tr & files' & um' & H1 & Hn') | (tr & H1 & _)].
      * rewrite (bind_inr _ _ _ _ H1).
        destruct (IH Hin files' um' Hn') as [tr' ->]. by eexists.
      * rewrite (bind_inl _ _ _ _ H1). by eexists.
Qed.

(** When an asset of the tree cannot be read, the run ends at the
    classification with the exception of [open]: nothing is uploaded, and
    [upload_map.yml] is left as it was. *)
Theorem unreadable_asset_ends_the_run (e : env) (file : map_file)
    (cfg : config) (infile : Path) :
  config_yml e = Some cfg -> iGEM_login e = true ->
  infile ∈ os_walk e -> is_asset infile = true ->
  open_rb e (Pathlib.joinpath (src_dir cfg) infile) = None ->
  outcome (main e file) = inl (Exception "OSError")
  /\ Forall (fun ev => is_log ev = true) (trace (main e file))
  /\ run e file = file.
Proof.
  intros Hcfg Hlogin Hin Ha Hopen.
  assert (exists tr, prepare e file = (tr, inl (Exception "OSError")))
    as [tr Hprep].
  { unfold prepare, read_config, login. rewrite Hcfg, Hlogin. simpl.
    destruct (load_upload_map file) as [t [x | um]] eqn:Hload.
    { destruct (load_upload_map_returns file) as (? & ? & H & _). congruence. }
    simpl.
    destruct (classify_all_unreadable e cfg (os_walk e) infile Hin Ha Hopen
                empty_storage um (load_upload_map_normalized _ _ _ Hload))
      as [tr' ->].
    by eexists. }
  destruct (main_prepare_raises e file tr _ Hprep) as [Hmain Hrun].
  unfold outcome, trace. rewrite Hmain. split; [done | split; [| done]].
  pose proof (prepare_trace e file) as Hlog. by rewrite Hprep in Hlog.
Qed.

Lemma unreadable_asset_ends_the_run_witness :
  (config_yml unreadable_asset_env = Some example_config
   /\ iGEM_login unreadable_asset_env = true
   /\ ["assets"; "img"; "logo.png"] ∈ os_walk unreadable_asset_env
   /\ is_asset ["assets"; "img"; "logo.png"] = true
   /\ open_rb unreadable_asset_env
        (Pathlib.joinpath (src_dir example_config) ["assets"; "img"; "logo.png"])
      = None)
  /\ main unreadable_asset_env Missing = ([], inl (Exception "OSError"))
  /\ run unreadable_asset_env Missing = Missing.
Proof.
  assert (Hin : ["assets"; "img"; "logo.png"] ∈ os_walk unreadable_asset_env).
  { simpl. apply list_elem_of_further, list_elem_of_here. }
  split; [by repeat split |]. split; [by vm_compute |].
  exact (proj2 (proj2 (unreadable_asset_ends_the_run unreadable_asset_env
                         Missing example_config ["assets"; "img"; "logo.png"]
                         eq_refl eq_refl Hin eq_refl eq_refl))).
Defined.

(* ===================================================================== *)
(** * What a run saves                                                    *)
(* ===================================================================== *)

Lemma saves_only_nil I : saves_only I [].
Proof. intros um H. by apply elem_of_nil in H. Qed.

Lemma saves_only_app I tr1 tr2 :
  saves_only I tr1 -> saves_only I tr2 -> saves_only I (tr1 ++ tr2).
Proof. intros H1 H2 um [H | H]%elem_of_app; auto. Qed.

Lemma saves_only_no_checkpoint I tr :
  Forall (fun ev => is_checkpoint ev = false) tr -> saves_only I tr.
Proof.
  intros Hall um Hin. rewrite Forall_forall in Hall. by specialize (Hall _ Hin).
Qed.

Lemma saves_only_write I e um : I um -> saves_only I (fst (write_upload_map e um)).
Proof.
  intros Hum um' Hin. rewrite write_upload_map_eq in Hin. simpl in Hin.
  apply elem_of_cons in Hin as [[= ->] | Hin]; [done |].
  destruct (upload_map_writable e).
  - by apply elem_of_nil in Hin.
  - apply list_elem_of_singleton in Hin. done.
Qed.

(** A loop whose steps keep [I] and save only maps that satisfy it. *)
Lemma for_each_saves {A} (I : upload_map -> Prop)
    (body : upload_map -> A -> M upload_map) xs :
  (forall s x, I s ->
     saves_only I (fst (body s x))
     /\ forall s', snd (body s x) = inr s' -> I s') ->
  forall s, I s ->
    saves_only I (fst (for_each body xs s))
    /\ forall s', snd (for_each body xs s) = inr s' -> I s'.
Proof.
  intros Hbody. induction xs as [|x xs IH]; intros s Hs.
  - simpl. split; [apply saves_only_nil | by intros s' [= <-]].
  - rewrite for_each_cons. destruct (Hbody s x Hs) as [H1 H2].
    destruct (body s x) as [tr1 [y | s1]]; simpl in *; [by split |].
    destruct (IH s1 (H2 s1 eq_refl)) as [H3 H4].
    destruct (for_each body xs s1) as [tr2 r]. simpl in *.
    split; [by apply saves_only_app | done].
Qed.

(** What a step does to the upload map: nothing, or one record bound in a
    category that is a mapping. *)
Lemma add_to_upload_map_step (um : upload_map) key f tr um' :
  add_to_upload_map um key f = (tr, inr um') ->
  exists d k v, um !! key = Some (YMapping d) /\ um' = setitem um key d k v.
Proof.
  unfold add_to_upload_map, getitem.
  destruct (um !! key) as [[d | repr] |]; simpl; [| done | done].
  intros [= _ <-]. eauto.
Qed.

Lemma classify_map_step e cfg files (um : upload_map) infile tr files' um' :
  classify e cfg (files, um) infile = (tr, inr (files', um')) ->
  um' = um
  \/ exists key d k v,
       um !! key = Some (YMapping d) /\ um' = setitem um key d k v.
Proof.
  unfold classify.
  repeat match goal with
         | |- context [if ?b then _ else _] => destruct b
         end.
  1-3: match goal with
       | |- context [add_to_upload_map ?u ?key ?f] =>
           destruct (add_to_upload_map u key f) as [t [x | u']] eqn:Hadd;
           simpl; [done |]; intros [= _ _ <-];
           destruct (add_to_upload_map_step _ _ _ _ _ Hadd)
             as (d & k & v & Hd & ->); right; by eexists _, _, _, _
       end.
  - destruct (OtherFile.__init__ infile cfg (open_rb e)); simpl;
      [| intros [=]].
    intros [= _ _ <-]. by left.
  - simpl. intros [= _ _ <-]. by left.
Qed.

Ltac saved_here :=
  let um' := fresh "um'" in
  let Hin := fresh "Hin" in
  intros um' Hin;
  repeat (apply elem_of_cons in Hin as [Hin | Hin]; [by simplify_eq |]);
  by apply elem_of_nil in Hin.

(** An asset saves the map only when its upload is refused, and then as it
    is at that point. *)
Lemma upload_asset_map_step e (um : upload_map) item :
  saves_only (fun um' => um' = um) (fst (upload_asset e um item))
  /\ forall um', snd (upload_asset e um item) = inr um' ->
       um' = um
       \/ exists d k v,
            um !! "assets" = Some (YMapping d)
            /\ um' = setitem um "assets" d k v.
Proof.
  destruct item as [p f]. unfold upload_asset, getitem.
  destruct (um !! "assets") as [[d | repr] |] eqn:Hd; simpl;
    try (split; [apply saves_only_nil | done]).
  destruct (d !! Pathlib.str p) as [asset |].
  - destruct (String.eqb _ _).
    + split; [apply saves_only_nil |]. intros um' [= <-]. by left.
    + rewrite upload_or_exit_eq, write_upload_map_eq.
      destruct (iGEM_upload_file e f); simpl.
      * split; [saved_here |]. intros um' [= <-]. right. eauto.
      * split; [| done]. destruct (upload_map_writable e); saved_here.
  - rewrite upload_or_exit_eq, write_upload_map_eq.
    destruct (iGEM_upload_file e f); simpl.
    + split; [saved_here |]. intros um' [= <-]. right. eauto.
    + split; [| done]. destruct (upload_map_writable e); saved_here.
Qed.

(** A document never saves the map. *)
Lemma upload_document_map_step e cfg (um : upload_map) item tr um' :
  upload_document e cfg um item = (tr, inr um') ->
  um' = um
  \/ exists key d entry digest,
       um !! key = Some (YMapping d)
       /\ d !! Pathlib.str (BaseFile.path (base (snd item))) = Some entry
       /\ um' = setitem um key d
                  (Pathlib.str (BaseFile.path (base (snd item))))
                  {| Entry.md5 := digest;
                     Entry.link_URL := Entry.link_URL entry;
                     Entry.upload_filename := Entry.upload_filename entry |}.
Proof.
  unfold upload_document.
  destruct (open_r e _) as [contents |]; simpl;
    [| intros [= _ <-]; by left].
  destruct (parse e cfg _ _ contents um) as [processed |]; [| done].
  unfold getitem.
  destruct (um !! BaseFile.extension (base (snd item))) as [[d | repr] |]
    eqn:Hd; simpl; [| done | done].
  destruct (d !! _) as [entry |] eqn:Hentry; [| done].
  destruct (String.eqb _ _); simpl; [intros [= _ <-]; by left |].
  destruct (write_build e _ processed); simpl;
    [destruct (iGEM_upload_page e processed _); simpl |];
    intros [= _ <-]; right; eauto 10.
Qed.

(** Every map a run saves satisfies what the loaded map satisfies, if
    binding a record in a category keeps it. *)
Lemma main_saves (I : upload_map -> Prop) e file :
  (forall (um : upload_map) key d k v,
     I um -> um !! key = Some (YMapping d) -> I (setitem um key d k v)) ->
  (forall tr um, load_upload_map file = (tr, inr um) -> I um) ->
  saves_only I (trace (main e file)).
Proof.
  intros Hset Hload. unfold trace. rewrite main_unfold.
  pose proof (prepare_trace e file) as Hlog.
  assert (H0 : forall tr0 cfg files um0,
            prepare e file = (tr0, inr (cfg, (files, um0))) -> I um0).
  { unfold prepare. intros tr0 cfg files um0 H.
    destruct (read_config e) as [t1 [x | cfg']]; simpl in H; [done |].
    destruct (load_upload_map file) as [t2 [x | um]] eqn:Hl; simpl in H;
      [done |].
    destruct (login e) as [t3 [x | []]]; simpl in H; [done |].
    destruct (for_each (classify e cfg') (os_walk e) (empty_storage, um))
      as [t4 [x | st]] eqn:Hcl; simpl in H; [done |].
    injection H as _ _ ->.
    apply (for_each_invariant (fun st : storage * upload_map => I (snd st))
             (classify e cfg') (os_walk e)) with (s := (empty_storage, um))
             (tr := t4) (s' := (files, um0)); [| by eapply Hload | exact Hcl].
    intros [fs u] x tr [fs' u'] Hu Hstep. simpl in *.
    destruct (classify_map_step _ _ _ _ _ _ _ _ Hstep)
      as [-> | (key & d & k & v & Hd & ->)]; [done | by apply Hset]. }
  destruct (prepare e file) as [tr0 [x | [cfg [files um0]]]]; simpl in *.
  { apply saves_only_no_checkpoint.
    eapply Forall_impl; [exact Hlog |]. by intros []. }
  specialize (H0 _ _ _ _ eq_refl).
  assert (Hs0 : saves_only I tr0).
  { apply saves_only_no_checkpoint.
    eapply Forall_impl; [exact Hlog |]. by intros []. }
  destruct (for_each_saves I (upload_asset e) (OtherFiles files)) with (s := um0)
    as [Hs1 Hum1]; [| exact H0 |].
  { intros s x Hs. destruct (upload_asset_map_step e s x) as [Hsave Hstep].
    split.
    - intros um' Hin. by rewrite (Hsave um' Hin).
    - intros s' Hs'. destruct (Hstep s' Hs')
        as [-> | (d & k & v & Hd & ->)]; [done | by apply Hset]. }
  fold (asset_phase e files um0) in Hs1, Hum1.
  destruct (asset_phase e files um0) as [tr1 [x | um1]]; simpl in *.
  { by apply saves_only_app. }
  specialize (Hum1 _ eq_refl).
  pose proof (document_phase_trace e cfg files um1) as Hd.
  assert (Hum2 : forall tr2 um2,
            document_phase e cfg files um1 = (tr2, inr um2) -> I um2).
  { intros tr2 um2. unfold document_phase.
    apply (for_each_invariant I _ [HTMLfiles files; CSSfiles files;
                                   JSfiles files]); [| done].
    intros s dict t s' Hs.
    apply (for_each_invariant I (upload_document e cfg) dict); [| done].
    intros s1 item t1 s2 Hs1' Hstep.
    destruct (upload_document_map_step _ _ _ _ _ _ Hstep)
      as [-> | (key & d & en & dg & Hd' & _ & ->)]; [done | by apply Hset]. }
  assert (Hs2 : saves_only I (fst (document_phase e cfg files um1))).
  { apply saves_only_no_checkpoint.
    eapply Forall_impl; [exact Hd |]. by intros ev [? _]. }
  destruct (document_phase e cfg files um1) as [tr2 [x | um2]]; simpl in *.
  - repeat apply saves_only_app; try done. by apply saves_only_write.
  - specialize (Hum2 _ _ eq_refl).
    repeat apply saves_only_app; try done; by apply saves_only_write.
Qed.

(** Every upload map a run saves has the four categories as mappings, so
    that loading it again gives it back as it is, nothing healed and nothing
    rejected. *)
Theorem saved_maps_load_back (e : env) (file : map_file) (um : upload_map) :
  WriteUploadMap um ∈ trace (main e file) ->
  normalized um /\ load_upload_map (Document um) = ([], inr um).
Proof.
  intros Hin.
  assert (Hn : normalized um).
  { apply (main_saves normalized e file); [| | exact Hin].
    - intros um0 key d k v Hn _. by apply normalized_setitem.
    - intros tr um0. apply load_upload_map_normalized. }
  split; [exact Hn | by apply load_upload_map_normal].
Qed.

Lemma saved_maps_load_back_witness :
  WriteUploadMap uploaded_map ∈ trace (main example_env Missing)
  /\ normalized uploaded_map
  /\ load_upload_map (Document uploaded_map) = ([], inr uploaded_map).
Proof.
  assert (H : WriteUploadMap uploaded_map ∈ trace (main example_env Missing)).
  { apply (list_elem_of_lookup_2 _ 1%nat). vm_compute. reflexivity. }
  split; [exact H |].
  exact (saved_maps_load_back example_env Missing uploaded_map H).
Defined.

Lemma keeps_records_refl um : keeps_records um um.
Proof. intros key d Hd. exists d. done. Qed.

Lemma keeps_records_setitem (um0 um : upload_map) key d k v :
  keeps_records um0 um -> um !! key = Some (YMapping d) ->
  keeps_records um0 (setitem um key d k v).
Proof.
  intros Hk Hd key' d0 Hd0. destruct (Hk key' d0 Hd0) as (d' & Hd' & Hsub).
  unfold setitem. destruct (decide (key = key')) as [-> | Hne].
  - rewrite lookup_insert_eq. eexists. split; [done |].
    rewrite Hd in Hd'. injection Hd' as <-. intros k' Hk'.
    destruct (decide (k = k')) as [-> | Hne'].
    + rewrite lookup_insert_eq. eauto.
    + rewrite lookup_insert_ne by done. by apply Hsub.
  - rewrite lookup_insert_ne by done. eauto.
Qed.

(** A stored map in which the categories present are mappings is loaded
    with everything it holds. *)
Lemma load_upload_map_keeps (top : upload_map) tr um :
  (forall key v, key ∈ categories -> top !! key = Some v ->
                 exists d, v = YMapping d) ->
  load_upload_map (Document top) = (tr, inr um) ->
  keeps_records top um.
Proof.
  intros Hall. unfold load_upload_map, load_try.
  pose proof (check_keys_spec categories top) as Hspec. fold categories.
  destruct (for_each check_key categories top) as [t [x | um']]; simpl.
  - destruct Hspec as (_ & _ & key & repr & Hin & Hl).
    destruct (Hall key _ Hin Hl). discriminate.
  - destruct Hspec as (_ & _ & Hlook). intros [= _ <-] key d Hd.
    exists d. by rewrite Hlook, Hd.
Qed.

(** Nothing is pruned: when the categories present in the stored map are
    mappings, every map the run saves holds every category of the stored
    map, with at least the records it had, whether their files are still in
    the tree or not. *)
Theorem stored_records_are_kept (e : env) (top um : upload_map) :
  (forall key v, key ∈ categories -> top !! key = Some v ->
                 exists d, v = YMapping d) ->
  WriteUploadMap um ∈ trace (main e (Document top)) ->
  keeps_records top um.
Proof.
  intros Hall Hin.
  apply (main_saves (keeps_records top) e (Document top)); [| | exact Hin].
  - intros um0 key d k v. apply keeps_records_setitem.
  - intros tr um0. by apply load_upload_map_keeps.
Qed.

Lemma stored_records_are_kept_witness :
  ((forall key v, key ∈ categories -> stale_map !! key = Some v ->
                  exists d, v = YMapping d)
   /\ WriteUploadMap stale_map_uploaded
        ∈ trace (main example_env (Document stale_map)))
  /\ keeps_records stale_map stale_map_uploaded
  /\ exists d, stale_map_uploaded !! "assets" = Some (YMapping d)
               /\ d !! "assets/old.png" = Some logo_entry.
Proof.
  assert (H1 : forall key v, key ∈ categories -> stale_map !! key = Some v ->
                             exists d, v = YMapping d).
  { intros key v Hin. unfold categories in Hin.
    repeat (apply elem_of_cons in Hin as [-> | Hin];
            [vm_compute; intros [= <-]; eauto |]).
    by apply elem_of_nil in Hin. }
  assert (H2 : WriteUploadMap stale_map_uploaded
                 ∈ trace (main example_env (Document stale_map))).
  { apply (list_elem_of_lookup_2 _ 1%nat). vm_compute. reflexivity. }
  split; [by split |].
  split; [exact (stored_records_are_kept example_env stale_map
                   stale_map_uploaded H1 H2) |].
  eexists. split; vm_compute; reflexivity.
Defined.

Lemma same_links_refl um : same_links um um.
Proof. intros key. by left. Qed.

Lemma record_kept_refl o : record_kept o o.
Proof. by destruct o. Qed.

Lemma same_links_setitem (um0 um : upload_map) key d k entry digest :
  same_links um0 um -> um !! key = Some (YMapping d) ->
  d !! k = Some entry ->
  same_links um0
    (setitem um key d k
       {| Entry.md5 := digest; Entry.link_URL := Entry.link_URL entry;
          Entry.upload_filename := Entry.upload_filename entry |}).
Proof.
  intros Hs Hd Hk key'. unfold setitem.
  destruct (decide (key = key')) as [-> | Hne].
  2: { rewrite lookup_insert_ne by done. apply Hs. }
  rewrite lookup_insert_eq. right.
  assert (Hnew : forall d0 : gmap string Entry.t,
            (forall k', record_kept (d0 !! k') (d !! k')) ->
            forall k',
              record_kept (d0 !! k')
                (<[k := {| Entry.md5 := digest;
                           Entry.link_URL := Entry.link_URL entry;
                           Entry.upload_filename :=
                             Entry.upload_filename entry |}]> d !! k')).
  { intros d0 H0 k'. specialize (H0 k').
    destruct (decide (k = k')) as [-> | Hne'].
    - rewrite lookup_insert_eq. rewrite Hk in H0.
      by destruct (d0 !! k').
    - by rewrite lookup_insert_ne. }
  destruct (Hs key') as [Heq | (d0 & d1 & H0 & H1 & Hrec)].
  - rewrite Hd in Heq. eexists d, _.
    split; [done | split; [reflexivity |]].
    apply Hnew. intros k'. apply record_kept_refl.
  - rewrite Hd in H1. injection H1 as <-. eexists d0, _.
    split; [done | split; [reflexivity |]]. by apply Hnew.
Qed.

(** The document phase changes nothing but digests: it adds and removes no
    category and no record, and every record keeps its link URL and its
    upload filename. *)
Theorem document_phase_changes_digests_only (e : env) (cfg : config)
    (files : storage) (um um' : upload_map) (tr : list event) :
  document_phase e cfg files um = (tr, inr um') -> same_links um um'.
Proof.
  unfold document_phase.
  apply (for_each_invariant (same_links um) _
           [HTMLfiles files; CSSfiles files; JSfiles files]);
    [| apply same_links_refl].
  intros s dict t s' Hs.
  apply (for_each_invariant (same_links um) (upload_document e cfg) dict);
    [| done].
  intros s1 item t1 s2 Hs1 Hstep.
  destruct (upload_document_map_step _ _ _ _ _ _ Hstep)
    as [-> | (key & d & en & dg & Hd & Hen & ->)]; [done |].
  by apply same_links_setitem.
Qed.

Lemma document_phase_changes_digests_only_witness :
  exists tr um',
    document_phase example_env example_config example_storage uploaded_map
    = (tr, inr um')
    /\ same_links uploaded_map um'.
Proof.
  assert (H : exists tr um',
            document_phase example_env example_config example_storage
              uploaded_map = (tr, inr um')).
  { vm_compute. eexists _, _. reflexivity. }
  destruct H as (tr & um' & H). exists tr, um'. split; [exact H |].
  exact (document_phase_changes_digests_only example_env example_config
           example_storage uploaded_map um' tr H).
Defined.

(** After the asset phase every asset of the tree is recorded in the asset
    category with the digest of its file, and the other categories are as
    they were (the tree holding no two files of the same path string). *)
Theorem asset_phase_records_every_asset (e : env) (file : map_file)
    (tr0 tr1 : list event) (cfg : config) (files : storage)
    (um0 um1 : upload_map) :
  (forall p q, p ∈ os_walk e -> q ∈ os_walk e ->
               Pathlib.str p = Pathlib.str q -> p = q) ->
  prepare e file = (tr0, inr (cfg, (files, um0))) ->
  asset_phase e files um0 = (tr1, inr um1) ->
  all_recorded um1 (OtherFiles files)
  /\ forall key, key <> "assets" -> um1 !! key = um0 !! key.
Proof.
  intros Hinj H0 H1.
  destruct (prepare_OtherFiles _ _ _ _ _ _ H0) as [Hnd _].
  pose proof (prepare_OtherFiles_walked _ _ _ _ _ _ H0) as Hwalked.
  destruct (upload_assets_recorded e (OtherFiles files)
              (NoDup_str_keys _ _ Hinj Hwalked Hnd) um0 tr1 um1 H1)
    as (Hrec & _ & _).
  split; [exact Hrec |]. intros key Hne.
  by eapply asset_phase_other_sections.
Qed.

Lemma asset_phase_records_every_asset_witness :
  (prepare example_env Missing
   = ([], inr (example_config, (example_storage, classified_map)))
   /\ asset_phase example_env example_storage classified_map
      = ([UploadFile logo_file], inr uploaded_map))
  /\ all_recorded uploaded_map (OtherFiles example_storage)
  /\ forall key, key <> "assets" -> uploaded_map !! key = classified_map !! key.
Proof.
  assert (Hinj : forall p q : Path,
            p ∈ os_walk example_env -> q ∈ os_walk example_env ->
            Pathlib.str p = Pathlib.str q -> p = q).
  { intros p q Hp Hq Hs. simpl in Hp, Hq.
    repeat (apply elem_of_cons in Hp as [-> | Hp]);
      repeat (apply elem_of_cons in Hq as [-> | Hq]);
      try done; try (by apply elem_of_nil in Hp);
      try (by apply elem_of_nil in Hq). }
  assert (H0 : prepare example_env Missing
               = ([], inr (example_config, (example_storage, classified_map))))
    by (vm_compute; reflexivity).
  assert (H1 : asset_phase example_env example_storage classified_map
               = ([UploadFile logo_file], inr uploaded_map))
    by (vm_compute; reflexivity).
  split; [by split |].
  exact (asset_phase_records_every_asset example_env Missing [] _
           example_config example_storage classified_map uploaded_map
           Hinj H0 H1).
Defined.

(* ===================================================================== *)
(** * A page is uploaded as it was built                                  *)
(* ===================================================================== *)

Lemma upload_follows_write_none e tr :
  Forall (fun ev => is_upload_page ev = false) tr -> upload_follows_write e tr.
Proof.
  intros Hall pre c u post ->. apply Forall_app in Hall as [_ Hall].
  apply Forall_cons in Hall as [H _]. discriminate.
Qed.

Lemma upload_follows_write_app e tr1 tr2 :
  upload_follows_write e tr1 -> upload_follows_write e tr2 ->
  upload_follows_write e (tr1 ++ tr2).
Proof.
  intros H1 H2 pre c u post Heq. symmetry in Heq.
  apply app_eq_app in Heq as [mid [[-> Heq] | [Heq1 Heq2]]].
  - destruct (H2 mid c u post Heq) as (p' & bp & -> & Hw).
    exists (tr1 ++ p'), bp. by rewrite app_assoc.
  - destruct mid as [|ev mid]; simpl in Heq2.
    + rewrite app_nil_r in Heq1. subst tr1.
      destruct (H2 [] c u post) as (p' & bp & Hp & _); [done |].
      by destruct p'.
    + injection Heq2 as <- ->. by apply (H1 pre c u mid).
Qed.

Lemma upload_document_follows e cfg um item :
  upload_follows_write e (fst (upload_document e cfg um item)).
Proof.
  unfold upload_document.
  destruct (open_r e _) as [contents |]; simpl;
    [| by apply upload_follows_write_none; repeat constructor].
  destruct (parse e cfg _ _ contents um) as [processed |]; simpl;
    [| by apply upload_follows_write_none; repeat constructor].
  unfold getitem.
  destruct (um !! _) as [[d | repr] |]; simpl;
    try (by apply upload_follows_write_none; repeat constructor).
  destruct (d !! _) as [entry |]; simpl;
    [| by apply upload_follows_write_none; repeat constructor].
  destruct (String.eqb _ _); simpl;
    [by apply upload_follows_write_none; repeat constructor |].
  destruct (write_build e _ processed) eqn:Hw; simpl;
    [| by apply upload_follows_write_none; repeat constructor].
  assert (Hcore : upload_follows_write e
            [ReadSource (BaseFile.src_path (base (snd item)));
             CallParser (BaseFile.extension (base (snd item)))
               (BaseFile.path (base (snd item)));
             WriteBuild (BaseFile.build_path (base (snd item))) processed;
             UploadPage processed (upload_URL (snd item))]).
  { intros pre c u post Heq.
    destruct pre as [|e1 [|e2 [|e3 [|e4 pre]]]]; simpl in Heq;
      try discriminate Heq.
    - injection Heq as ? ? ? <- <- _; subst.
      eexists [_; _], _. split; [reflexivity | exact Hw].
    - injection Heq as _ _ _ _ Heq. by destruct pre. }
  destruct (iGEM_upload_page e processed _); simpl.
  - exact Hcore.
  - apply (upload_follows_write_app e [_; _; _; _] [_]); [exact Hcore |].
    by apply upload_follows_write_none; repeat constructor.
Qed.

Lemma for_each_follows {A} e (body : upload_map -> A -> M upload_map) xs s :
  (forall s x, upload_follows_write e (fst (body s x))) ->
  upload_follows_write e (fst (for_each body xs s)).
Proof.
  intros Hbody. revert s. induction xs as [|x xs IH]; intros s.
  - by apply upload_follows_write_none.
  - rewrite for_each_cons. specialize (Hbody s x).
    destruct (body s x) as [tr1 [y | s1]]; simpl in *; [done |].
    specialize (IH s1). destruct (for_each body xs s1) as [tr2 r].
    by apply upload_follows_write_app.
Qed.

(** Whenever a run uploads a page, the event just before is the writing of
    its build file with the same contents, and that write went well: a page
    whose build file could not be written is not uploaded. *)
Theorem page_upload_follows_build_write (e : env) (file : map_file)
    (pre post : list event) (contents url : string) :
  trace (main e file) = pre ++ UploadPage contents url :: post ->
  exists pre' build_path,
    pre = pre' ++ [WriteBuild build_path contents]
    /\ write_build e build_path contents = true.
Proof.
  revert pre contents url post.
  change (upload_follows_write e (trace (main e file))).
  unfold trace. rewrite main_unfold.
  pose proof (prepare_trace e file) as H0.
  assert (Hlogs : forall tr, Forall (fun ev => is_log ev = true) tr ->
                             upload_follows_write e tr).
  { intros tr H. apply upload_follows_write_none.
    eapply Forall_impl; [exact H |]. by intros []. }
  destruct (prepare e file) as [tr0 [x | [cfg [files um0]]]]; simpl in *;
    [by apply Hlogs |].
  assert (H1 : upload_follows_write e (fst (asset_phase e files um0))).
  { apply upload_follows_write_none.
    pose proof (for_each_upload_asset_trace e (OtherFiles files) um0) as H.
    fold (asset_phase e files um0) in H.
    destruct (asset_phase e files um0) as [tr1 [x | um1]]; simpl.
    - eapply Forall_impl; [exact H |]. by intros [].
    - eapply Forall_impl; [exact H |]. by intros []. }
  assert (Hw : forall um, upload_follows_write e (fst (write_upload_map e um))).
  { intros um. rewrite write_upload_map_eq. simpl.
    apply upload_follows_write_none.
    destruct (upload_map_writable e); by repeat constructor. }
  assert (H2 : forall um, upload_follows_write e
                            (fst (document_phase e cfg files um))).
  { intros um. unfold document_phase. apply for_each_follows.
    intros s dict. apply for_each_follows. intros s1 item.
    apply upload_document_follows. }
  destruct (asset_phase e files um0) as [tr1 [x | um1]]; simpl in *.
  { apply upload_follows_write_app; [by apply Hlogs | done]. }
  specialize (H2 um1).
  destruct (document_phase e cfg files um1) as [tr2 [x | um2]]; simpl in *;
    repeat (apply upload_follows_write_app; try done); by apply Hlogs.
Qed.

Lemma page_upload_follows_build_write_witness :
  let tr := trace (main example_env Missing) in
  tr = firstn 5 tr ++ UploadPage "<html></html>" index_upload_URL :: skipn 6 tr
  /\ exists pre' build_path,
       firstn 5 tr = pre' ++ [WriteBuild build_path "<html></html>"]
       /\ write_build example_env build_path "<html></html>" = true.
Proof.
  intros tr.
  assert (H : tr = firstn 5 tr
                   ++ UploadPage "<html></html>" index_upload_URL :: skipn 6 tr)
    by (vm_compute; reflexivity).
  split; [exact H |].
  exact (page_upload_follows_build_write example_env Missing _ _ _ _ H).
Defined.

(* ===================================================================== *)
(** * The classification follows the walk                                 *)
(* ===================================================================== *)

Lemma dict_assign_fresh {V} (k : Path) (v : V) (d : list (Path * V)) :
  k ∉ List.map fst d -> dict_assign k v d = d ++ [(k, v)].
Proof.
  induction d as [|[k' v'] d IH]; intros Hk; [done |].
  simpl in *. apply not_elem_of_cons in Hk as [Hne Hk].
  destruct (decide (k' = k)) as [-> | _]; [done |]. by rewrite IH.
Qed.

Lemma filter_keys {V} (mk : Path -> V) (p : Path -> bool) walked x :
  x ∉ walked ->
  x ∉ List.map fst (List.map (fun q => (q, mk q)) (List.filter p walked)).
Proof.
  intros Hx Hin. apply Hx. rewrite List.map_map in Hin. simpl in Hin.
  rewrite List.map_id in Hin.
  apply list_elem_of_In in Hin. apply List.filter_In in Hin as [Hin _].
  by apply list_elem_of_In.
Qed.

Lemma filter_snoc {A} (p : A -> bool) xs x :
  List.filter p (xs ++ [x])
  = List.filter p xs ++ (if p x then [x] else []).
Proof. rewrite List.filter_app. simpl. by destruct (p x). Qed.

Lemma classify_sorted_step e cfg walked files um infile tr files' um' :
  infile ∉ walked ->
  sorted_by_extension cfg walked files ->
  classify e cfg (files, um) infile = (tr, inr (files', um')) ->
  sorted_by_extension cfg (walked ++ [infile]) files'.
Proof.
  intros Hx (Hh & Hc & Hj & Ho). unfold classify.
  fold (extension_of infile). unfold sorted_by_extension.
  rewrite !filter_snoc, !List.map_app. unfold has_extension.
  destruct (String.eqb (extension_of infile) "html") eqn:E1.
  { apply String.eqb_eq in E1.
    assert (Ha : is_asset infile = false)
      by (unfold is_asset; rewrite E1; vm_compute; reflexivity).
    rewrite Ha, E1. simpl.
    destruct (add_to_upload_map um _ _) as [tr1 [x | um1]]; simpl; [done |].
    intros [= _ <- _]. simpl. rewrite !app_nil_r.
    repeat split; try done.
    rewrite dict_assign_fresh; [by rewrite Hh |].
    rewrite Hh. by apply filter_keys. }
  destruct (String.eqb (extension_of infile) "css") eqn:E2.
  { apply String.eqb_eq in E2.
    assert (Ha : is_asset infile = false)
      by (unfold is_asset; rewrite E2; vm_compute; reflexivity).
    rewrite Ha, E2. simpl.
    destruct (add_to_upload_map um _ _) as [tr1 [x | um1]]; simpl; [done |].
    intros [= _ <- _]. simpl. rewrite !app_nil_r.
    repeat split; try done.
    rewrite dict_assign_fresh; [by rewrite Hc |].
    rewrite Hc. by apply filter_keys. }
  destruct (String.eqb (extension_of infile) "js") eqn:E3.
  { apply String.eqb_eq in E3.
    assert (Ha : is_asset infile = false)
      by (unfold is_asset; rewrite E3; vm_compute; reflexivity).
    rewrite Ha. simpl.
    destruct (add_to_upload_map um _ _) as [tr1 [x | um1]]; simpl; [done |].
    intros [= _ <- _]. simpl. rewrite !app_nil_r.
    repeat split; try done.
    rewrite dict_assign_fresh; [by rewrite Hj |].
    rewrite Hj. by apply filter_keys. }
  fold (is_asset infile). destruct (is_asset infile) eqn:Ha.
  - destruct (OtherFile.__init__ infile cfg (open_rb e)) as [f |] eqn:Hf;
      [| done].
    simpl. intros [= _ <- _]. simpl. rewrite !app_nil_r.
    repeat split; try done.
    apply OtherFile_init_path in Hf. rewrite Hf.
    rewrite dict_assign_keys, Ho.
    destruct (decide (infile ∈ List.filter is_asset walked)) as [Hin | _];
      [| done].
    exfalso. apply Hx. apply list_elem_of_In in Hin.
    apply List.filter_In in Hin as [Hin _]. by apply list_elem_of_In.
  - simpl. intros [= _ <- _]. by rewrite !app_nil_r.
Qed.

Lemma classify_sorted e cfg xs :
  forall walked files um tr files' um',
    NoDup (walked ++ xs) ->
    sorted_by_extension cfg walked files ->
    for_each (classify e cfg) xs (files, um) = (tr, inr (files', um')) ->
    sorted_by_extension cfg (walked ++ xs) files'.
Proof.
  induction xs as [|x xs IH]; intros walked files um tr files' um' Hnd Hs Hrun.
  - simpl in Hrun. injection Hrun as _ <- _. by rewrite app_nil_r.
  - rewrite for_each_cons in Hrun.
    destruct (classify e cfg (files, um) x) as [tr1 [y | [files1 um1]]] eqn:Hx;
      simpl in Hrun; [done |].
    destruct (for_each (classify e cfg) xs (files1, um1)) as [tr2 r] eqn:Hxs.
    injection Hrun as _ ->.
    replace (walked ++ x :: xs) with ((walked ++ [x]) ++ xs) in *
      by (by rewrite <- app_assoc).
    eapply IH; [exact Hnd | | exact Hxs].
    eapply classify_sorted_step; [| exact Hs | exact Hx].
    apply NoDup_app in Hnd as [Hnd _]. apply NoDup_app in Hnd as (_ & Hd & _).
    intros Hin. apply (Hd x Hin). apply list_elem_of_here.
Qed.

(** The classification sorts the walked files by extension, letter case
    aside, and keeps the order of the walk in each category: the pages are
    the files in [html], the stylesheets those in [css], the scripts those
    in [js], the assets those with one of the asset extensions, and every
    other file is left out (a walk names no file twice). *)
Theorem classification_follows_the_walk (e : env) (file : map_file)
    (tr0 : list event) (cfg : config) (files : storage) (um0 : upload_map) :
  NoDup (os_walk e) ->
  prepare e file = (tr0, inr (cfg, (files, um0))) ->
  sorted_by_extension cfg (os_walk e) files.
Proof.
  intros Hnd H. unfold prepare in H.
  destruct (read_config e) as [t1 [x | cfg']]; simpl in H; [done |].
  destruct (load_upload_map file) as [t2 [x | um]]; simpl in H; [done |].
  destruct (login e) as [t3 [x | []]]; simpl in H; [done |].
  destruct (for_each (classify e cfg') (os_walk e) (empty_storage, um))
    as [t4 [x | [files1 um1]]] eqn:Hcl; simpl in H; [done |].
  injection H as _ -> -> ->.
  by apply (classify_sorted e cfg (os_walk e) [] empty_storage um t4 files um0).
Qed.

Lemma classification_follows_the_walk_witness :
  (NoDup (os_walk example_env)
   /\ prepare example_env Missing
      = ([], inr (example_config, (example_storage, classified_map))))
  /\ sorted_by_extension example_config (os_walk example_env) example_storage.
Proof.
  assert (Hnd : NoDup (os_walk example_env)).
  { apply (bool_decide_unpack _). vm_compute. exact I. }
  assert (H0 : prepare example_env Missing
               = ([], inr (example_config, (example_storage, classified_map))))
    by (vm_compute; reflexivity).
  split; [by split |].
  exact (classification_follows_the_walk example_env Missing []
           example_config example_storage classified_map Hnd H0).
Defined.

(* ===================================================================== *)
(** * The server filename of a recorded asset                             *)
(* ===================================================================== *)

Lemma upload_asset_keeps_filename e (um : upload_map) item tr um' d k en :
  upload_asset e um item = (tr, inr um') ->
  um !! "assets" = Some (YMapping d) -> d !! k = Some en ->
  exists d' en',
    um' !! "assets" = Some (YMapping d') /\ d' !! k = Some en'
    /\ Entry.upload_filename en' = Entry.upload_filename en.
Proof.
  destruct item as [p f]. unfold upload_asset, getitem. intros H Hd Hk.
  rewrite Hd in H. simpl in H.
  destruct (d !! Pathlib.str p) as [asset |] eqn:Hp.
  - destruct (String.eqb _ _).
    + injection H as _ <-. by exists d, en.
    + rewrite upload_or_exit_eq in H.
      destruct (iGEM_upload_file e f); [| done].
      simpl in H. injection H as _ <-. unfold setitem.
      rewrite lookup_insert_eq.
      destruct (decide (k = Pathlib.str p)) as [-> | Hne].
      * eexists _, _. rewrite lookup_insert_eq. split; [done | split; [done |]].
        simpl. rewrite Hp in Hk. by injection Hk as ->.
      * eexists _, en. by rewrite lookup_insert_ne.
  - rewrite upload_or_exit_eq in H.
    destruct (iGEM_upload_file e f); [| done].
    simpl in H. injection H as _ <-. unfold setitem.
    rewrite lookup_insert_eq.
    destruct (decide (k = Pathlib.str p)) as [-> | Hne];
      [by rewrite Hp in Hk |].
    eexists _, en. by rewrite lookup_insert_ne.
Qed.

(** The server filename recorded for an asset is never renewed: an asset
    that is uploaded again gets a new digest and a new link URL, and keeps
    the upload filename of its stored record, whatever the configuration
    has become; the records of the other assets keep theirs as well. *)
Theorem recorded_upload_filename_is_kept (e : env) (files : storage)
    (um um' : upload_map) (tr : list event) (d : gmap string Entry.t)
    (k : string) (en : Entry.t) :
  asset_phase e files um = (tr, inr um') ->
  um !! "assets" = Some (YMapping d) ->
  d !! k = Some en ->
  exists d' en',
    um' !! "assets" = Some (YMapping d') /\ d' !! k = Some en'
    /\ Entry.upload_filename en' = Entry.upload_filename en.
Proof.
  intros H Hd Hk. unfold asset_phase in H.
  apply (for_each_invariant
           (fun s : upload_map =>
              exists d' en',
                s !! "assets" = Some (YMapping d') /\ d' !! k = Some en'
                /\ Entry.upload_filename en' = Entry.upload_filename en)
           (upload_asset e) (OtherFiles files)) with (s := um) (tr := tr);
    [| by exists d, en | exact H].
  intros s x t s' (d1 & en1 & Hd1 & Hk1 & Hf1) Hstep.
  destruct (upload_asset_keeps_filename _ _ _ _ _ _ _ _ Hstep Hd1 Hk1)
    as (d2 & en2 & Hd2 & Hk2 & Hf2).
  exists d2, en2. by rewrite Hf2.
Qed.

Lemma recorded_upload_filename_is_kept_witness :
  exists um' d' en',
    asset_phase example_env example_storage outdated_map
    = ([UploadFile logo_file], inr um')
    /\ um' !! "assets" = Some (YMapping d')
    /\ d' !! "assets/img/logo.png" = Some en'
    /\ Entry.upload_filename en' = Some "T--MYTEAM--assets--img--logo.png".
Proof.
  assert (H : exists um',
            asset_phase example_env example_storage outdated_map
            = ([UploadFile logo_file], inr um')).
  { vm_compute. eexists. reflexivity. }
  destruct H as (um' & H).
  destruct (recorded_upload_filename_is_kept example_env example_storage
              outdated_map um' _ _ "assets/img/logo.png" _ H
              (lookup_insert_eq _ _ _) (lookup_singleton_eq _ _))
    as (d' & en' & Hd' & Hk' & Hf').
  exists um', d', en'.
  split; [exact H |]. split; [exact Hd' |]. split; [exact Hk' | exact Hf'].
Defined.
